(** * ATA over Ethernet (AoEr11): wire codec and ATA request handler

    A shallow embedding of package [aoe]: the header codec, the four
    argument codecs (ATA, Config, MAC mask, Reserve/Release), the LBA
    computation and the ATA request handler [ServeATA], followed by the
    properties of the specification stated over them.

    Conventions.
    - A Go [uint8]/[uint16]/[int] value is a [Z]; where Go arithmetic is done
      in a fixed width the wrap-around is written out ([u8], [u16]).
    - A Go byte slice is a [list Z]; slices are compared by contents (as
      [bytes.Equal] does), so a nil slice and an empty slice are the same
      list.
    - A Go function returning [(T, error)] returns a [result T]; a run-time
      panic (index or slice bounds out of range) is the third outcome
      [Panic]. *)

From Stdlib Require Import ZArith Lia Bool.
From stdpp Require Import base numbers list.

Local Open Scope Z_scope.

(** ** Errors *)

(** Package-level constants. They live in a module of the package's name so
    that a record field of the same name ([Header.Version]) does not hide
    them. *)
Module aoe.

(** [type Error uint8] with the protocol error codes of AoEr11,
    Section 2.4. *)
Definition Error := Z.

Definition ErrorUnrecognizedCommandCode : Error := 1.
Definition ErrorBadArgumentParameter : Error := 2.
Definition ErrorDeviceUnavailable : Error := 3.
Definition ErrorConfigStringPresent : Error := 4.
Definition ErrorUnsupportedVersion : Error := 5.
Definition ErrorTargetIsReserved : Error := 6.

Definition Version : Z := 1.

Definition Command := Z.
Definition CommandIssueATACommand : Command := 0.
Definition CommandQueryConfigInformation : Command := 1.
Definition CommandMACMaskList : Command := 2.
Definition CommandReserveRelease : Command := 3.

Definition ATACmdStatus := Z.
Definition ATAErrAbort : Z := 0x04.
Definition ATACmdStatusErrStatus : ATACmdStatus := 0x01.
Definition ATACmdStatusReadyStatus : ATACmdStatus := 0x40.
Definition ATACmdStatusCheckPower : ATACmdStatus := 0xe5.
Definition ATACmdStatusFlush : ATACmdStatus := 0xe7.
Definition ATACmdStatusIdentify : ATACmdStatus := 0xec.
Definition ATACmdStatusRead28Bit : ATACmdStatus := 0x20.
Definition ATACmdStatusRead48Bit : ATACmdStatus := 0x24.
Definition ATACmdStatusWrite28Bit : ATACmdStatus := 0x30.
Definition ATACmdStatusWrite48Bit : ATACmdStatus := 0x34.

Definition sectorSize : Z := 512.

Definition headerLen : nat := 1 + 1 + 2 + 1 + 1 + 4.
Definition ataArgLen : nat := 1 + 1 + 1 + 1 + 6 + 2.
Definition configArgLen : nat := 2 + 2 + 1 + 1 + 2.
Definition macMaskArgLen : nat := 1 + 1 + 1 + 1.
Definition directiveLen : nat := 1 + 1 + 6.
Definition reserveReleaseArgLen : nat := 2.

End aoe.
Import aoe.

(** The values of Go's [error] interface that the codec returns:
    [io.ErrUnexpectedEOF] or an [Error] code. *)
Inductive error : Type :=
| io_ErrUnexpectedEOF
| error_of (e : aoe.Error).

Inductive result (A : Type) : Type :=
| Ok (a : A)
| Err (e : error)
| Panic.

Arguments Ok {A} a.
Arguments Err {A} e.
Arguments Panic {A}.

Definition bind {A B : Type} (r : result A) (k : A -> result B) : result B :=
  match r with
  | Ok a => k a
  | Err e => Err e
  | Panic => Panic
  end.

Notation "x <~ e ;; k" := (bind e (fun x => k))
  (at level 100, e at next level, k at level 200, right associativity).

(** ** Fixed-width integers *)

Definition u8 (x : Z) : Z := x mod 256.
Definition u16 (x : Z) : Z := x mod 65536.

Definition is_u8 (x : Z) : Prop := 0 <= x < 256.
Definition is_u16 (x : Z) : Prop := 0 <= x < 65536.
Definition bytes_ok (b : list Z) : Prop := Forall is_u8 b.

(** ** Go slices of bytes *)

Module Slice.

(** [make([]byte, n)]: [n] zero bytes, capacity [n]. *)
Definition make (n : nat) : list Z := replicate n 0.

(** [b[i]] as an expression: panics when [i] is out of range. *)
Definition index (b : list Z) (i : nat) : result Z :=
  match b !! i with
  | Some v => Ok v
  | None => Panic
  end.

(** [b[i] = v]: panics when [i] is out of range. *)
Definition store (b : list Z) (i : nat) (v : Z) : result (list Z) :=
  if (i <? length b)%nat then Ok (<[i := v]> b) else Panic.

(** [b[lo:hi]]: panics unless [lo <= hi <= cap(b)]. Every slice that is
    re-sliced below comes from [make] (capacity = length) or is an input
    that the code has already measured, so the capacity is the length. *)
Definition slice (b : list Z) (lo hi : nat) : result (list Z) :=
  if ((lo <=? hi)%nat && (hi <=? length b)%nat)%bool
  then Ok (take (hi - lo) (drop lo b))
  else Panic.

(** [b[lo:]]. *)
Definition slice_from (b : list Z) (lo : nat) : result (list Z) :=
  slice b lo (length b).

(** The contents of [dst] after [copy(dst, src)]:
    [min(len(dst), len(src))] bytes are copied. *)
Definition copy (dst src : list Z) : list Z :=
  take (length dst) src ++ drop (length src) dst.

(** [copy(b[lo:hi], src)]: the write goes through the sub-slice into [b]. *)
Definition copy_at (b : list Z) (lo hi : nat) (src : list Z)
  : result (list Z) :=
  s <~ slice b lo hi ;;
  Ok (take lo b ++ copy s src ++ drop hi b).

(** [copy(b[lo:], src)]. *)
Definition copy_from (b : list Z) (lo : nat) (src : list Z)
  : result (list Z) :=
  copy_at b lo (length b) src.

End Slice.

(** ** encoding/binary *)

Module binary.

(** [binary.BigEndian.Uint16(b)]: reads [b[1]] first (bounds check), then
    [uint16(b[1]) | uint16(b[0])<<8]. *)
Definition BigEndian_Uint16 (b : list Z) : result Z :=
  b1 <~ Slice.index b 1 ;;
  b0 <~ Slice.index b 0 ;;
  Ok (Z.lor b1 (Z.shiftl b0 8)).

(** [binary.BigEndian.PutUint16(b[lo:hi], v)]. *)
Definition BigEndian_PutUint16_at (b : list Z) (lo hi : nat) (v : Z)
  : result (list Z) :=
  s <~ Slice.slice b lo hi ;;
  _chk <~ Slice.index s 1 ;;
  s <~ Slice.store s 0 (u8 (Z.shiftr v 8)) ;;
  s <~ Slice.store s 1 (u8 v) ;;
  Ok (take lo b ++ s ++ drop hi b).

(** [binary.LittleEndian.Uint64(b)] for a slice of at least 8 bytes (Go
    panics on a shorter one; the only caller builds its 8 bytes itself). *)
Definition LittleEndian_Uint64 (b : list Z) : Z :=
  Z.lor (b !!! 0%nat) (Z.lor (Z.shiftl (b !!! 1%nat) 8)
 (Z.lor (Z.shiftl (b !!! 2%nat) 16) (Z.lor (Z.shiftl (b !!! 3%nat) 24)
 (Z.lor (Z.shiftl (b !!! 4%nat) 32) (Z.lor (Z.shiftl (b !!! 5%nat) 40)
 (Z.lor (Z.shiftl (b !!! 6%nat) 48) (Z.shiftl (b !!! 7%nat) 56))))))).

End binary.

(** ** Fixed-size arrays *)

(** [[6]uint8] and [[4]byte]: arrays of a fixed size. *)
Definition array6 : Type := Z * Z * Z * Z * Z * Z.
Definition array4 : Type := Z * Z * Z * Z.

Definition array6_ok (l : array6) : Prop :=
  let '(l0, l1, l2, l3, l4, l5) := l in
  is_u8 l0 /\ is_u8 l1 /\ is_u8 l2 /\ is_u8 l3 /\ is_u8 l4 /\ is_u8 l5.

Definition array4_ok (t : array4) : Prop :=
  let '(t0, t1, t2, t3) := t in
  is_u8 t0 /\ is_u8 t1 /\ is_u8 t2 /\ is_u8 t3.

(** ** ATAArg *)

Module ATAArg.

Record t : Type := mk {
  FlagLBA48Extended : bool;
  FlagATADeviceHeadRegister : bool;
  FlagAsynchronous : bool;
  FlagWrite : bool;
  ErrFeature : Z;
  SectorCount : Z;
  CmdStatus : ATACmdStatus;
  LBA : array6;
  Data : list Z
}.

(** The zero value [ATAArg{}]. *)
Definition zero : t :=
  mk false false false false 0 0 0 (0, 0, 0, 0, 0, 0) [].

Definition MarshalBinary (a : t) : result (list Z) :=
  let b := Slice.make (ataArgLen + length (Data a)) in
  let flags := 0 in
  let flags :=
    if FlagLBA48Extended a then Z.lor flags (Z.shiftl 1 6) else flags in
  let flags :=
    if FlagATADeviceHeadRegister a then Z.lor flags (Z.shiftl 1 4)
    else flags in
  let flags :=
    if FlagAsynchronous a then Z.lor flags (Z.shiftl 1 1) else flags in
  let flags := if FlagWrite a then Z.lor flags 1 else flags in
  let '(l0, l1, l2, l3, l4, l5) := LBA a in
  b <~ Slice.store b 0 flags ;;
  b <~ Slice.store b 1 (ErrFeature a) ;;
  b <~ Slice.store b 2 (SectorCount a) ;;
  b <~ Slice.store b 3 (CmdStatus a) ;;
  b <~ Slice.store b 4 l0 ;;
  b <~ Slice.store b 5 l1 ;;
  b <~ Slice.store b 6 l2 ;;
  b <~ Slice.store b 7 l3 ;;
  b <~ Slice.store b 8 l4 ;;
  b <~ Slice.store b 9 l5 ;;
  b <~ Slice.copy_from b 12 (Data a) ;;
  Ok b.

Definition UnmarshalBinary (b : list Z) : result t :=
  if (length b <? ataArgLen)%nat then Err io_ErrUnexpectedEOF else
  b10 <~ Slice.index b 10 ;;
  b11 <~ Slice.index b 11 ;;
  if (negb (b10 =? 0) || negb (b11 =? 0))%bool
  then Err (error_of ErrorBadArgumentParameter) else
  b0 <~ Slice.index b 0 ;;
  b1 <~ Slice.index b 1 ;;
  b2 <~ Slice.index b 2 ;;
  b3 <~ Slice.index b 3 ;;
  b4 <~ Slice.index b 4 ;;
  b5 <~ Slice.index b 5 ;;
  b6 <~ Slice.index b 6 ;;
  b7 <~ Slice.index b 7 ;;
  b8 <~ Slice.index b 8 ;;
  b9 <~ Slice.index b 9 ;;
  tl <~ Slice.slice_from b 12 ;;
  let d := Slice.copy (Slice.make (length tl)) tl in
  Ok {| FlagLBA48Extended := negb (Z.land b0 0x40 =? 0);
        FlagATADeviceHeadRegister := negb (Z.land b0 0x10 =? 0);
        FlagAsynchronous := negb (Z.land b0 0x02 =? 0);
        FlagWrite := negb (Z.land b0 0x01 =? 0);
        ErrFeature := b1;
        SectorCount := b2;
        CmdStatus := b3;
        LBA := (b4, b5, b6, b7, b8, b9);
        Data := d |}.

(** The values of the Go type: every scalar fits its width. *)
Definition well_typed (a : t) : Prop :=
  is_u8 (ErrFeature a) /\ is_u8 (SectorCount a) /\ is_u8 (CmdStatus a) /\
  array6_ok (LBA a) /\ bytes_ok (Data a).

End ATAArg.

(** ** LBA computation *)

(** [int64(x)] of a [uint64], and [int64] multiplication: two's complement
    wrap-around to 64 bits. *)
Definition i64 (x : Z) : Z := (x + 2 ^ 63) mod 2 ^ 64 - 2 ^ 63.

Definition calculateLBA (rlba : array6) (is48Bit : bool) : Z :=
  let '(r0, r1, r2, r3, r4, r5) := rlba in
  let b := [r0; r1; r2; r3; r4; r5; 0; 0] in
  let lba := binary.LittleEndian_Uint64 b in
  let lba :=
    if is48Bit then Z.land lba 0x0000ffffffffffff
    else Z.land lba 0x0fffffff in
  i64 lba.

(** ** ConfigArg *)

Module ConfigArg.

Record t : Type := mk {
  BufferCount : Z;
  FirmwareVersion : Z;
  SectorCount : Z;
  Version : Z;
  Command : Z;
  StringLength : Z;
  String : list Z
}.

Definition MarshalBinary (c : t) : result (list Z) :=
  if 0xf <? Command c then Err (error_of ErrorBadArgumentParameter) else
  if negb (StringLength c =? Z.of_nat (length (String c)))
  then Err (error_of ErrorBadArgumentParameter) else
  if 1024 <? StringLength c
  then Err (error_of ErrorBadArgumentParameter) else
  let b := Slice.make (configArgLen + Z.to_nat (StringLength c)) in
  b <~ binary.BigEndian_PutUint16_at b 0 2 (BufferCount c) ;;
  b <~ binary.BigEndian_PutUint16_at b 2 4 (FirmwareVersion c) ;;
  b <~ Slice.store b 4 (SectorCount c) ;;
  let vc := 0 in
  let vc := Z.lor vc (u8 (Z.shiftl (Version c) 4)) in
  let vc := Z.lor vc (Command c) in
  b <~ Slice.store b 5 vc ;;
  b <~ binary.BigEndian_PutUint16_at b 6 8 (StringLength c) ;;
  b <~ Slice.copy_from b 8 (String c) ;;
  Ok b.

Definition UnmarshalBinary (b : list Z) : result t :=
  if (length b <? configArgLen)%nat then Err io_ErrUnexpectedEOF else
  s <~ Slice.slice b 0 2 ;;
  bufferCount <~ binary.BigEndian_Uint16 s ;;
  s <~ Slice.slice b 2 4 ;;
  firmwareVersion <~ binary.BigEndian_Uint16 s ;;
  sectorCount <~ Slice.index b 4 ;;
  b5 <~ Slice.index b 5 ;;
  let version := Z.shiftr b5 4 in
  let command := Z.land b5 0x0f in
  s <~ Slice.slice b 6 8 ;;
  stringLength <~ binary.BigEndian_Uint16 s ;;
  tl <~ Slice.slice_from b 8 ;;
  if Z.of_nat (length tl) <? stringLength
  then Err io_ErrUnexpectedEOF else
  if 1024 <? stringLength
  then Err (error_of ErrorBadArgumentParameter) else
  let d := Slice.copy (Slice.make (Z.to_nat stringLength)) tl in
  Ok {| BufferCount := bufferCount;
        FirmwareVersion := firmwareVersion;
        SectorCount := sectorCount;
        Version := version;
        Command := command;
        StringLength := stringLength;
        String := d |}.

(** The values of the Go type: every scalar fits its width. *)
Definition well_typed (c : t) : Prop :=
  is_u16 (BufferCount c) /\ is_u16 (FirmwareVersion c) /\
  is_u8 (SectorCount c) /\ is_u8 (Version c) /\ is_u8 (Command c) /\
  is_u16 (StringLength c) /\ bytes_ok (String c).

(** The preconditions that [MarshalBinary] documents and checks. *)
Definition encodable (c : t) : Prop :=
  Command c <= 0xf /\
  StringLength c = Z.of_nat (length (String c)) /\
  StringLength c <= 1024.

End ConfigArg.

(** ** Directive and MACMaskArg *)

Module Directive.

(** [MAC] is a [net.HardwareAddr], a byte slice of any length. *)
Record t : Type := mk {
  Command : Z;
  MAC : list Z
}.

Definition MarshalBinary (d : t) : result (list Z) :=
  if negb (length (MAC d) =? 6)%nat
  then Err (error_of ErrorBadArgumentParameter) else
  let b := Slice.make directiveLen in
  b <~ Slice.store b 1 (Command d) ;;
  b <~ Slice.copy_from b 2 (MAC d) ;;
  Ok b.

Definition UnmarshalBinary (b : list Z) : result t :=
  if negb (length b =? directiveLen)%nat then Err io_ErrUnexpectedEOF else
  b0 <~ Slice.index b 0 ;;
  if negb (b0 =? 0) then Err (error_of ErrorBadArgumentParameter) else
  b1 <~ Slice.index b 1 ;;
  tl <~ Slice.slice_from b 2 ;;
  let mac := Slice.copy (Slice.make 6) tl in
  Ok {| Command := b1; MAC := mac |}.

Definition well_typed (d : t) : Prop :=
  is_u8 (Command d) /\ bytes_ok (MAC d).

(** The precondition that [MarshalBinary] documents and checks. *)
Definition encodable (d : t) : Prop := length (MAC d) = 6%nat.

End Directive.

Module MACMaskArg.

(** [Directives] is a [[]*Directive]; the elements are taken to be
    non-nil, as every decoded list is. *)
Record t : Type := mk {
  Command : Z;
  Error : Z;
  DirCount : Z;
  Directives : list Directive.t
}.

(** The body of [for _, d := range m.Directives], with the buffer [b] and
    the write position [n] threaded through. *)
Fixpoint marshal_directives (ds : list Directive.t) (b : list Z) (n : nat)
  : result (list Z) :=
  match ds with
  | [] => Ok b
  | d :: ds' =>
      db <~ Directive.MarshalBinary d ;;
      b <~ Slice.copy_at b n (n + directiveLen) db ;;
      marshal_directives ds' b (n + directiveLen)
  end.

(** The buffer length is computed in [uint8]: [DirCount] is a [uint8]
    and the constants take its type. *)
Definition MarshalBinary (m : t) : result (list Z) :=
  if negb (DirCount m =? Z.of_nat (length (Directives m)))
  then Err (error_of ErrorBadArgumentParameter) else
  let b :=
    Slice.make
      (Z.to_nat (u8 (Z.of_nat macMaskArgLen
                     + u8 (Z.of_nat directiveLen * DirCount m)))) in
  b <~ Slice.store b 1 (Command m) ;;
  b <~ Slice.store b 2 (Error m) ;;
  b <~ Slice.store b 3 (DirCount m) ;;
  marshal_directives (Directives m) b 4.

(** [k] iterations of [for i := ...; i < int(m.DirCount); i++], from [i]
    on. *)
Fixpoint unmarshal_directives (b : list Z) (i k : nat)
  : result (list Directive.t) :=
  match k with
  | O => Ok []
  | S k' =>
      s <~ Slice.slice b (4 + i * directiveLen)
                         (4 + i * directiveLen + directiveLen) ;;
      d <~ Directive.UnmarshalBinary s ;;
      ds <~ unmarshal_directives b (S i) k' ;;
      Ok (d :: ds)
  end.

Definition UnmarshalBinary (b : list Z) : result t :=
  if (length b <? macMaskArgLen)%nat then Err io_ErrUnexpectedEOF else
  b0 <~ Slice.index b 0 ;;
  if negb (b0 =? 0) then Err (error_of ErrorBadArgumentParameter) else
  b1 <~ Slice.index b 1 ;;
  b2 <~ Slice.index b 2 ;;
  b3 <~ Slice.index b 3 ;;
  tl <~ Slice.slice_from b 4 ;;
  if negb (Z.of_nat (length tl) =? Z.of_nat directiveLen * b3)
  then Err io_ErrUnexpectedEOF else
  ds <~ unmarshal_directives b 0 (Z.to_nat b3) ;;
  Ok {| Command := b1; Error := b2; DirCount := b3; Directives := ds |}.

Definition well_typed (m : t) : Prop :=
  is_u8 (Command m) /\ is_u8 (Error m) /\ is_u8 (DirCount m) /\
  Forall Directive.well_typed (Directives m).

(** The invariants of the data model: the count is the list length and
    every MAC address has 6 bytes. *)
Definition encodable (m : t) : Prop :=
  DirCount m = Z.of_nat (length (Directives m)) /\
  Forall Directive.encodable (Directives m).

End MACMaskArg.

(** ** ReserveReleaseArg *)

Module ReserveReleaseArg.

Record t : Type := mk {
  Command : Z;
  NMACs : Z;
  MACs : list (list Z)
}.

(** The body of [for _, m := range r.MACs]. *)
Fixpoint marshal_macs (ms : list (list Z)) (b : list Z) (n : nat)
  : result (list Z) :=
  match ms with
  | [] => Ok b
  | m :: ms' =>
      if negb (length m =? 6)%nat
      then Err (error_of ErrorBadArgumentParameter) else
      b <~ Slice.copy_at b n (n + 6) m ;;
      marshal_macs ms' b (n + 6)
  end.

(** The buffer length is computed in [uint8]: [NMACs] is a [uint8]. *)
Definition MarshalBinary (r : t) : result (list Z) :=
  if negb (NMACs r =? Z.of_nat (length (MACs r)))
  then Err (error_of ErrorBadArgumentParameter) else
  let b :=
    Slice.make
      (Z.to_nat (u8 (Z.of_nat reserveReleaseArgLen + u8 (NMACs r * 6)))) in
  b <~ Slice.store b 0 (Command r) ;;
  b <~ Slice.store b 1 (NMACs r) ;;
  marshal_macs (MACs r) b 2.

(** [k] iterations of [for i := ...; i < int(r.NMACs); i++], from [i] on. *)
Fixpoint unmarshal_macs (b : list Z) (i k : nat) : result (list (list Z)) :=
  match k with
  | O => Ok []
  | S k' =>
      s <~ Slice.slice b (2 + i * 6) (2 + i * 6 + 6) ;;
      let m := Slice.copy (Slice.make 6) s in
      ms <~ unmarshal_macs b (S i) k' ;;
      Ok (m :: ms)
  end.

Definition UnmarshalBinary (b : list Z) : result t :=
  if (length b <? reserveReleaseArgLen)%nat
  then Err io_ErrUnexpectedEOF else
  b0 <~ Slice.index b 0 ;;
  b1 <~ Slice.index b 1 ;;
  tl <~ Slice.slice_from b 2 ;;
  if negb (Z.of_nat (length tl) =? 6 * b1)
  then Err io_ErrUnexpectedEOF else
  ms <~ unmarshal_macs b 0 (Z.to_nat b1) ;;
  Ok {| Command := b0; NMACs := b1; MACs := ms |}.

Definition well_typed (r : t) : Prop :=
  is_u8 (Command r) /\ is_u8 (NMACs r) /\ Forall bytes_ok (MACs r).

(** A hardware address of 6 bytes. *)
Definition mac_ok (m : list Z) : Prop := length m = 6%nat.

Definition encodable (r : t) : Prop :=
  NMACs r = Z.of_nat (length (MACs r)) /\
  Forall mac_ok (MACs r).

End ReserveReleaseArg.

(** ** Header *)

(** The [Arg] interface, as a tagged union of the four implementations of
    the package. *)
Module Arg.

Inductive t : Type :=
| ATA (a : ATAArg.t)
| Config (c : ConfigArg.t)
| MACMask (m : MACMaskArg.t)
| ReserveRelease (r : ReserveReleaseArg.t).

(** Dynamic dispatch of [Arg.MarshalBinary]. *)
Definition MarshalBinary (a : t) : result (list Z) :=
  match a with
  | ATA a => ATAArg.MarshalBinary a
  | Config c => ConfigArg.MarshalBinary c
  | MACMask m => MACMaskArg.MarshalBinary m
  | ReserveRelease r => ReserveReleaseArg.MarshalBinary r
  end.

End Arg.

Module Header.

(** [Arg] is [None] for a nil interface. *)
Record t : Type := mk {
  Version : Z;
  FlagResponse : bool;
  FlagError : bool;
  Error : Z;
  Major : Z;
  Minor : Z;
  Command : Z;
  Tag : array4;
  Arg : option Arg.t
}.

(** The zero value [Header{}]. *)
Definition zero : t := mk 0 false false 0 0 0 0 (0, 0, 0, 0) None.

Definition MarshalBinary (h : t) : result (list Z) :=
  if negb (Version h =? aoe.Version)
  then Err (error_of ErrorUnsupportedVersion) else
  match Arg h with
  | None => Err (error_of ErrorBadArgumentParameter)
  | Some arg =>
      ab <~ Arg.MarshalBinary arg ;;
      let b := Slice.make (headerLen + length ab) in
      let vf := 0 in
      let vf := Z.lor vf (u8 (Z.shiftl (Version h) 4)) in
      let vf := if FlagResponse h then Z.lor vf (Z.shiftl 1 3) else vf in
      let vf := if FlagError h then Z.lor vf (Z.shiftl 1 2) else vf in
      let '(t0, t1, t2, t3) := Tag h in
      b <~ Slice.store b 0 vf ;;
      b <~ Slice.store b 1 (Error h) ;;
      b <~ binary.BigEndian_PutUint16_at b 2 4 (Major h) ;;
      b <~ Slice.store b 4 (Minor h) ;;
      b <~ Slice.store b 5 (Command h) ;;
      b <~ Slice.copy_at b 6 10 [t0; t1; t2; t3] ;;
      b <~ Slice.copy_from b 10 ab ;;
      Ok b
  end.

Definition UnmarshalBinary (b : list Z) : result t :=
  if (length b <? headerLen)%nat then Err io_ErrUnexpectedEOF else
  b0 <~ Slice.index b 0 ;;
  let version := Z.shiftr b0 4 in
  if negb (version =? aoe.Version)
  then Err (error_of ErrorUnsupportedVersion) else
  let flagResponse := negb (Z.land b0 0x08 =? 0) in
  let flagError := negb (Z.land b0 0x04 =? 0) in
  b1 <~ Slice.index b 1 ;;
  s <~ Slice.slice b 2 4 ;;
  major <~ binary.BigEndian_Uint16 s ;;
  minor <~ Slice.index b 4 ;;
  command <~ Slice.index b 5 ;;
  s <~ Slice.slice b 6 10 ;;
  let tag := Slice.copy (Slice.make 4) s in
  let tag : array4 :=
    (tag !!! 0%nat, tag !!! 1%nat, tag !!! 2%nat, tag !!! 3%nat) in
  let decode (unmarshal : list Z -> result Arg.t) : result t :=
    tl <~ Slice.slice_from b 10 ;;
    a <~ unmarshal tl ;;
    Ok {| Version := version;
          FlagResponse := flagResponse;
          FlagError := flagError;
          Error := b1;
          Major := major;
          Minor := minor;
          Command := command;
          Tag := tag;
          Arg := Some a |} in
  if command =? CommandIssueATACommand then
    decode (fun tl => a <~ ATAArg.UnmarshalBinary tl ;; Ok (Arg.ATA a))
  else if command =? CommandQueryConfigInformation then
    decode (fun tl => c <~ ConfigArg.UnmarshalBinary tl ;; Ok (Arg.Config c))
  else if command =? CommandMACMaskList then
    decode (fun tl => m <~ MACMaskArg.UnmarshalBinary tl ;;
                      Ok (Arg.MACMask m))
  else if command =? CommandReserveRelease then
    decode (fun tl => r <~ ReserveReleaseArg.UnmarshalBinary tl ;;
                      Ok (Arg.ReserveRelease r))
  else Err (error_of ErrorUnrecognizedCommandCode).

End Header.

(** [Fuzz] of fuzz.go: 0 when the input does not decode, 1 when it decodes
    and encodes again; the explicit [panic(err)] and a run-time panic of
    the encoder are both [None]. *)
Definition Fuzz (data : list Z) : option Z :=
  match Header.UnmarshalBinary data with
  | Ok h =>
      match Header.MarshalBinary h with
      | Ok _ => Some 1
      | _ => None
      end
  | Err _ => Some 0
  | Panic => None
  end.

(** ** ATA request handler *)

(** The handler talks to two collaborators, the backing store and the
    response sender. Both are modelled by state passing over a state [W] of
    the outside world, and every call is recorded, in order, in a trace. [E]
    is the type of the errors that the outside world produces (device and
    transport errors); the sentinel [errATAAbort] is private to the package,
    so it is not one of them. *)

Section Handler.

Context {E W : Type}.

(** The [error] values that [ServeATA] and its helpers handle. *)
Inductive handler_error : Type :=
| ErrInvalidATARequest
| ErrNotImplemented
| errATAAbort
| Foreign (e : E).

Definition is_errATAAbort (e : handler_error) : bool :=
  match e with
  | errATAAbort => true
  | _ => false
  end.

(** [io.ReadSeeker], with the optional [io.Writer] and [Identifier] method
    sets that the handler probes by type assertion. [Read p] returns the
    contents of [p] after the call and the count [n]. *)
Record ReadSeeker : Type := {
  Seek : Z -> Z -> W -> (Z * option E) * W;
  Read : list Z -> W -> (list Z * Z * option E) * W;
  Writer : option (list Z -> W -> (Z * option E) * W);
  Identifier : option (W -> (list Z * option E) * W)
}.

Record ResponseSender : Type := {
  Send : Header.t -> W -> (Z * option E) * W
}.

(** One entry per call on a collaborator: its arguments and the error it
    returned; for [Send], also the byte count it returned. *)
Inductive event : Type :=
| EvSeek (offset whence : Z) (err : option E)
| EvRead (len : nat) (err : option E)
| EvWrite (p : list Z) (err : option E)
| EvIdentify (err : option E)
| EvSend (h : Header.t) (n : Z) (err : option E).

Definition world : Type := W * list event.

Definition io (A : Type) : Type := world -> A * world.

Definition ret {A : Type} (a : A) : io A := fun s => (a, s).

Definition iobind {A B : Type} (m : io A) (k : A -> io B) : io B :=
  fun s => let '(a, s') := m s in k a s'.

Definition call_Seek (rs : ReadSeeker) (offset whence : Z)
  : io (Z * option E) :=
  fun '(w, tr) =>
    let '(r, w') := Seek rs offset whence w in
    (r, (w', tr ++ [EvSeek offset whence (snd r)])).

Definition call_Read (rs : ReadSeeker) (p : list Z)
  : io (list Z * Z * option E) :=
  fun '(w, tr) =>
    let '(r, w') := Read rs p w in
    (r, (w', tr ++ [EvRead (length p) (snd r)])).

Definition call_Write (write : list Z -> W -> (Z * option E) * W)
    (p : list Z) : io (Z * option E) :=
  fun '(w, tr) =>
    let '(r, w') := write p w in
    (r, (w', tr ++ [EvWrite p (snd r)])).

Definition call_Identify (identify : W -> (list Z * option E) * W)
  : io (list Z * option E) :=
  fun '(w, tr) =>
    let '(r, w') := identify w in
    (r, (w', tr ++ [EvIdentify (snd r)])).

(** [w.Send(h)]; the transport error, if any, is what [ServeATA] returns. *)
Definition call_Send (w : ResponseSender) (h : Header.t)
  : io (Z * option handler_error) :=
  fun '(st, tr) =>
    let '((n, err), st') := Send w h st in
    ((n, option_map Foreign err), (st', tr ++ [EvSend h n err])).

End Handler.

Arguments handler_error : clear implicits.
Arguments ReadSeeker : clear implicits.
Arguments ResponseSender : clear implicits.
Arguments event : clear implicits.
Arguments world : clear implicits.
Arguments io : clear implicits.

Notation "x <-- e ;; k" := (iobind e (fun x => k))
  (at level 100, e at next level, k at level 200, right associativity).
Notation "' p <-- e ;; k" := (iobind e (fun p => k))
  (at level 20, p pattern, e at level 99, k at level 200, only parsing).

Section ServeATA.

Context {E W : Type}.

Definition reply : Type := option ATAArg.t * option (handler_error E).

(** [os.SEEK_SET]. *)
Definition SEEK_SET : Z := 0.

Definition ataIdentify (r : ATAArg.t) (rs : ReadSeeker E W)
  : io E W reply :=
  if negb (ATAArg.CmdStatus r =? ATACmdStatusIdentify)
  then ret (None, Some errATAAbort) else
  if negb (ATAArg.SectorCount r =? 1)
  then ret (None, Some errATAAbort) else
  match Identifier rs with
  | None => ret (None, Some ErrNotImplemented)
  | Some identify =>
      '(id, err) <-- call_Identify identify ;;
      match err with
      | Some e => ret (None, Some (Foreign e))
      | None =>
          ret (Some {| ATAArg.FlagLBA48Extended := false;
                       ATAArg.FlagATADeviceHeadRegister := false;
                       ATAArg.FlagAsynchronous := false;
                       ATAArg.FlagWrite := false;
                       ATAArg.ErrFeature := 0;
                       ATAArg.SectorCount := 0;
                       ATAArg.CmdStatus := ATACmdStatusReadyStatus;
                       ATAArg.LBA := (0, 0, 0, 0, 0, 0);
                       ATAArg.Data := id |}, None)
      end
  end.

Definition ataRead (r : ATAArg.t) (rs : ReadSeeker E W) : io E W reply :=
  if (negb (ATAArg.CmdStatus r =? ATACmdStatusRead28Bit)
      && negb (ATAArg.CmdStatus r =? ATACmdStatusRead48Bit))%bool
  then ret (None, Some errATAAbort) else
  if ATAArg.FlagWrite r then ret (None, Some errATAAbort) else
  let offset :=
    i64 (calculateLBA (ATAArg.LBA r) (ATAArg.FlagLBA48Extended r)
         * sectorSize) in
  '(_, err) <-- call_Seek rs offset SEEK_SET ;;
  match err with
  | Some e => ret (None, Some (Foreign e))
  | None =>
      let b := Slice.make (Z.to_nat (ATAArg.SectorCount r * sectorSize)) in
      '(b, n, err) <-- call_Read rs b ;;
      match err with
      | Some e => ret (None, Some (Foreign e))
      | None =>
          let sectors := Z.quot n sectorSize in
          if negb (sectors =? ATAArg.SectorCount r)
          then ret (None, Some errATAAbort) else
          ret (Some {| ATAArg.FlagLBA48Extended := false;
                       ATAArg.FlagATADeviceHeadRegister := false;
                       ATAArg.FlagAsynchronous := false;
                       ATAArg.FlagWrite := false;
                       ATAArg.ErrFeature := 0;
                       ATAArg.SectorCount := 0;
                       ATAArg.CmdStatus := ATACmdStatusReadyStatus;
                       ATAArg.LBA := (0, 0, 0, 0, 0, 0);
                       ATAArg.Data := b |}, None)
      end
  end.

Definition ataWrite (r : ATAArg.t) (rs : ReadSeeker E W) : io E W reply :=
  if (negb (ATAArg.CmdStatus r =? ATACmdStatusWrite28Bit)
      && negb (ATAArg.CmdStatus r =? ATACmdStatusWrite48Bit))%bool
  then ret (None, Some errATAAbort) else
  if negb (ATAArg.FlagWrite r) then ret (None, Some errATAAbort) else
  let sectors := Z.quot (Z.of_nat (length (ATAArg.Data r))) sectorSize in
  if negb (sectors =? ATAArg.SectorCount r)
  then ret (None, Some errATAAbort) else
  match Writer rs with
  | None => ret (None, Some errATAAbort)
  | Some write =>
      let offset :=
        i64 (calculateLBA (ATAArg.LBA r) (ATAArg.FlagLBA48Extended r)
             * sectorSize) in
      '(_, err) <-- call_Seek rs offset SEEK_SET ;;
      match err with
      | Some e => ret (None, Some (Foreign e))
      | None =>
          '(n, err) <-- call_Write write (ATAArg.Data r) ;;
          match err with
          | Some e => ret (None, Some (Foreign e))
          | None =>
              let sectors := Z.quot n sectorSize in
              if negb (sectors =? ATAArg.SectorCount r)
              then ret (None, Some errATAAbort) else
              ret (Some {| ATAArg.FlagLBA48Extended := false;
                           ATAArg.FlagATADeviceHeadRegister := false;
                           ATAArg.FlagAsynchronous := false;
                           ATAArg.FlagWrite := false;
                           ATAArg.ErrFeature := 0;
                           ATAArg.SectorCount := 0;
                           ATAArg.CmdStatus := ATACmdStatusReadyStatus;
                           ATAArg.LBA := (0, 0, 0, 0, 0, 0);
                           ATAArg.Data := [] |}, None)
          end
      end
  end.

(** [&Header{Arg: warg}]: every other field has its zero value. *)
Definition reply_header (warg : option ATAArg.t) : Header.t :=
  {| Header.Version := 0;
     Header.FlagResponse := false;
     Header.FlagError := false;
     Header.Error := 0;
     Header.Major := 0;
     Header.Minor := 0;
     Header.Command := 0;
     Header.Tag := (0, 0, 0, 0);
     Header.Arg := option_map Arg.ATA warg |}.

(** [&ATAArg{SectorCount: 0xff, CmdStatus: ATACmdStatusReadyStatus}]. *)
Definition ready_arg : ATAArg.t :=
  {| ATAArg.FlagLBA48Extended := false;
     ATAArg.FlagATADeviceHeadRegister := false;
     ATAArg.FlagAsynchronous := false;
     ATAArg.FlagWrite := false;
     ATAArg.ErrFeature := 0;
     ATAArg.SectorCount := 0xff;
     ATAArg.CmdStatus := ATACmdStatusReadyStatus;
     ATAArg.LBA := (0, 0, 0, 0, 0, 0);
     ATAArg.Data := [] |}.

(** [&ATAArg{CmdStatus: ATACmdStatusErrStatus, ErrFeature: ATAErrAbort}]. *)
Definition abort_arg : ATAArg.t :=
  {| ATAArg.FlagLBA48Extended := false;
     ATAArg.FlagATADeviceHeadRegister := false;
     ATAArg.FlagAsynchronous := false;
     ATAArg.FlagWrite := false;
     ATAArg.ErrFeature := ATAErrAbort;
     ATAArg.SectorCount := 0;
     ATAArg.CmdStatus := ATACmdStatusErrStatus;
     ATAArg.LBA := (0, 0, 0, 0, 0, 0);
     ATAArg.Data := [] |}.

Definition ServeATA (w : ResponseSender E W) (r : Header.t)
    (rs : ReadSeeker E W) : io E W (Z * option (handler_error E)) :=
  if negb (Header.Command r =? CommandIssueATACommand)
  then ret (0, Some ErrInvalidATARequest) else
  match Header.Arg r with
  | Some (Arg.ATA arg) =>
      if ((ATAArg.CmdStatus arg =? ATACmdStatusCheckPower)
          || (ATAArg.CmdStatus arg =? ATACmdStatusFlush))%bool
      then call_Send w (reply_header (Some ready_arg))
      else
        '(warg, err) <--
          (if ATAArg.CmdStatus arg =? ATACmdStatusIdentify
           then ataIdentify arg rs
           else if ((ATAArg.CmdStatus arg =? ATACmdStatusRead28Bit)
                    || (ATAArg.CmdStatus arg =? ATACmdStatusRead48Bit))%bool
           then ataRead arg rs
           else if ((ATAArg.CmdStatus arg =? ATACmdStatusWrite28Bit)
                    || (ATAArg.CmdStatus arg =? ATACmdStatusWrite48Bit))%bool
           then ataWrite arg rs
           else ret (None, Some errATAAbort)) ;;
        match err with
        | Some e =>
            if negb (is_errATAAbort e) then ret (0, Some e)
            else call_Send w (reply_header (Some abort_arg))
        | None => call_Send w (reply_header warg)
        end
  | _ => ret (0, Some ErrInvalidATARequest)
  end.

(** Running the handler from a state of the outside world, with an empty
    trace. *)
Definition run {A : Type} (m : io E W A) (st : W)
  : A * (W * list (event E)) :=
  m (st, []).

Definition is_send (ev : event E) : bool :=
  match ev with
  | EvSend _ _ _ => true
  | _ => false
  end.

Definition is_store_call (ev : event E) : bool := negb (is_send ev).

(** The error that a call on the backing store returned. *)
Definition store_error (ev : event E) : option E :=
  match ev with
  | EvSeek _ _ err | EvRead _ err | EvWrite _ err | EvIdentify err => err
  | EvSend _ _ _ => None
  end.

(** The value that a run returned, and the calls it made, in order. *)
Definition result_of {A : Type} (x : A * (W * list (event E))) : A := fst x.

Definition trace_of {A : Type} (x : A * (W * list (event E)))
  : list (event E) :=
  snd (snd x).

(** The replies that were sent, and the calls on the backing store. *)
Definition replies (tr : list (event E)) : list (event E) :=
  List.filter is_send tr.

Definition store_calls (tr : list (event E)) : list (event E) :=
  List.filter is_store_call tr.

End ServeATA.

(** * Specification-side definitions *)

(** The 6 bytes of an LBA read as a little-endian integer: byte [i] has
    weight [2^(8i)]. *)
Definition little_endian_value (rlba : array6) : Z :=
  let '(r0, r1, r2, r3, r4, r5) := rlba in
  r0 + r1 * 2 ^ 8 + r2 * 2 ^ 16 + r3 * 2 ^ 24 + r4 * 2 ^ 32 + r5 * 2 ^ 40.

(** The [string_length] field of a ConfigArg on the wire: bytes 6 and 7,
    big-endian. *)
Definition string_length_field (b : list Z) : option Z :=
  match b !! 6%nat, b !! 7%nat with
  | Some hi, Some lo => Some (hi * 256 + lo)
  | _, _ => None
  end.

(** The go-fuzz crasher of the regression test:
    ["\x10" "0000" "\x01" "0000000000" "\x00\x00"], with ['0'] = 0x30. *)
Definition fuzz_crasher : list Z :=
  [0x10; 0x30; 0x30; 0x30; 0x30; 0x01;
   0x30; 0x30; 0x30; 0x30; 0x30; 0x30; 0x30; 0x30; 0x30; 0x30;
   0x00; 0x00].

(** A Reserve/Release frame with 43 MAC addresses: the 10-byte header
    (version 1, command 3), the command byte, the count 43 and 43 * 6 = 258
    address bytes. *)
Definition reserve_release_43 : list Z :=
  [0x10; 0; 0; 0; 0; 3; 0; 0; 0; 0] ++ [0; 43] ++ replicate 258 0.

(** A MAC-mask frame with 32 directives: the 10-byte header (version 1,
    command 2), the 4-byte prefix with the count 32 and 32 * 8 = 256
    directive bytes. *)
Definition mac_mask_32 : list Z :=
  [0x10; 0; 0; 0; 0; 2; 0; 0; 0; 0] ++ [0; 0; 0; 32] ++ replicate 256 0.

(** Byte 0 of an encoded ATAArg. *)
Definition ATAArg_flags (a : ATAArg.t) : Z :=
  let flags := 0 in
  let flags :=
    if ATAArg.FlagLBA48Extended a then Z.lor flags (Z.shiftl 1 6)
    else flags in
  let flags :=
    if ATAArg.FlagATADeviceHeadRegister a then Z.lor flags (Z.shiftl 1 4)
    else flags in
  let flags :=
    if ATAArg.FlagAsynchronous a then Z.lor flags (Z.shiftl 1 1)
    else flags in
  if ATAArg.FlagWrite a then Z.lor flags 1 else flags.

(** Byte 5 of an encoded ConfigArg. *)
Definition ConfigArg_vc (c : ConfigArg.t) : Z :=
  Z.lor (Z.lor 0 (u8 (Z.shiftl (ConfigArg.Version c) 4)))
        (ConfigArg.Command c).

(** Bytes 0 to 9 of an encoded Header. *)
Definition Header_vf (h : Header.t) : Z :=
  let vf := 0 in
  let vf := Z.lor vf (u8 (Z.shiftl (Header.Version h) 4)) in
  let vf := if Header.FlagResponse h then Z.lor vf (Z.shiftl 1 3) else vf in
  if Header.FlagError h then Z.lor vf (Z.shiftl 1 2) else vf.

Definition Header_prefix (h : Header.t) : list Z :=
  let '(t0, t1, t2, t3) := Header.Tag h in
  [Header_vf h; Header.Error h;
   u8 (Z.shiftr (Header.Major h) 8); u8 (Header.Major h);
   Header.Minor h; Header.Command h; t0; t1; t2; t3].

(** The 8 bytes of a directive on the wire. *)
Definition Directive_bytes (d : Directive.t) : list Z :=
  0 :: Directive.Command d :: Directive.MAC d.

(** The command code that selects each argument variant (data model:
    [arg] is the variant selected by [command]). *)
Definition Arg_command (a : Arg.t) : Z :=
  match a with
  | Arg.ATA _ => CommandIssueATACommand
  | Arg.Config _ => CommandQueryConfigInformation
  | Arg.MACMask _ => CommandMACMaskList
  | Arg.ReserveRelease _ => CommandReserveRelease
  end.

(** Decoding an argument with the decoder of a given variant, as the
    [switch] of [Header.UnmarshalBinary] does after it has chosen one. *)
Definition Arg_UnmarshalBinary_as (a : Arg.t) (b : list Z) : result Arg.t :=
  match a with
  | Arg.ATA _ => x <~ ATAArg.UnmarshalBinary b ;; Ok (Arg.ATA x)
  | Arg.Config _ => x <~ ConfigArg.UnmarshalBinary b ;; Ok (Arg.Config x)
  | Arg.MACMask _ => x <~ MACMaskArg.UnmarshalBinary b ;; Ok (Arg.MACMask x)
  | Arg.ReserveRelease _ =>
      x <~ ReserveReleaseArg.UnmarshalBinary b ;; Ok (Arg.ReserveRelease x)
  end.

(** ** Valid values, for the round trip *)

(** A valid ConfigArg: the encode preconditions, and a version that fits
    the 4 bits it has on the wire. *)
Definition ConfigArg_valid (c : ConfigArg.t) : Prop :=
  ConfigArg.well_typed c /\ ConfigArg.encodable c
  /\ ConfigArg.Version c <= 15.

(** A valid MACMaskArg with at most 31 directives. *)
Definition MACMaskArg_valid (m : MACMaskArg.t) : Prop :=
  MACMaskArg.well_typed m /\ MACMaskArg.encodable m
  /\ MACMaskArg.DirCount m <= 31.

(** A valid ReserveReleaseArg with at most 42 addresses. *)
Definition ReserveReleaseArg_valid (r : ReserveReleaseArg.t) : Prop :=
  ReserveReleaseArg.well_typed r /\ ReserveReleaseArg.encodable r
  /\ ReserveReleaseArg.NMACs r <= 42.

Definition Arg_valid (a : Arg.t) : Prop :=
  match a with
  | Arg.ATA x => ATAArg.well_typed x
  | Arg.Config c => ConfigArg_valid c
  | Arg.MACMask m => MACMaskArg_valid m
  | Arg.ReserveRelease r => ReserveReleaseArg_valid r
  end.

(** A valid Header: version 1, a valid argument, and the command code of
    the argument's variant. *)
Definition Header_valid (h : Header.t) : Prop :=
  Header.Version h = aoe.Version
  /\ is_u8 (Header.Error h) /\ is_u16 (Header.Major h)
  /\ is_u8 (Header.Minor h) /\ array4_ok (Header.Tag h)
  /\ exists a, Header.Arg h = Some a /\ Arg_valid a
               /\ Header.Command h = Arg_command a.

(** ** Values of the repository's tests *)

(** ConfigArg.MarshalBinary test: buffer count 10, firmware version 1,
    sector count 2, string "foo". *)
Definition config_foo : ConfigArg.t :=
  {| ConfigArg.BufferCount := 10;
     ConfigArg.FirmwareVersion := 1;
     ConfigArg.SectorCount := 2;
     ConfigArg.Version := aoe.Version;
     ConfigArg.Command := 2;
     ConfigArg.StringLength := 3;
     ConfigArg.String := [0x66; 0x6f; 0x6f] |}.

(** MACMaskArg test "one directive". *)
Definition mac_mask_one : MACMaskArg.t :=
  {| MACMaskArg.Command := 0;
     MACMaskArg.Error := 0;
     MACMaskArg.DirCount := 1;
     MACMaskArg.Directives :=
       [ {| Directive.Command := 1;
            Directive.MAC := [0xde; 0xad; 0xbe; 0xef; 0xde; 0xad] |} ] |}.

(** ReserveReleaseArg test "three MAC addresses". *)
Definition reserve_release_three : ReserveReleaseArg.t :=
  {| ReserveReleaseArg.Command := 1;
     ReserveReleaseArg.NMACs := 3;
     ReserveReleaseArg.MACs :=
       [ [0xde; 0xad; 0xbe; 0xef; 0xde; 0xad];
         [0x00; 0x11; 0x22; 0x33; 0x44; 0x55];
         [0xaa; 0xbb; 0xcc; 0xdd; 0xee; 0xff] ] |}.

(** Header test "header with CommandQueryConfigInformation, ConfigArg OK". *)
Definition header_config : Header.t :=
  {| Header.Version := aoe.Version;
     Header.FlagResponse := false;
     Header.FlagError := false;
     Header.Error := 0;
     Header.Major := 1;
     Header.Minor := 2;
     Header.Command := CommandQueryConfigInformation;
     Header.Tag := (0, 0, 0, 10);
     Header.Arg := Some (Arg.Config config_foo) |}.

(** A ConfigArg that meets every documented encode precondition, with a
    version of more than 4 bits. *)
Definition config_version_16 : ConfigArg.t :=
  {| ConfigArg.BufferCount := 0;
     ConfigArg.FirmwareVersion := 0;
     ConfigArg.SectorCount := 0;
     ConfigArg.Version := 16;
     ConfigArg.Command := 0;
     ConfigArg.StringLength := 0;
     ConfigArg.String := [] |}.

(** A Header of version 1 with a valid ATAArg, and the command code of
    another variant. *)
Definition header_mismatch : Header.t :=
  {| Header.Version := aoe.Version;
     Header.FlagResponse := false;
     Header.FlagError := false;
     Header.Error := 0;
     Header.Major := 0;
     Header.Minor := 0;
     Header.Command := CommandQueryConfigInformation;
     Header.Tag := (0, 0, 0, 0);
     Header.Arg := Some (Arg.ATA ATAArg.zero) |}.

(** ** Requests to the ATA handler *)

Section Requests.

Context {E W : Type}.

Definition is_read_opcode (cs : Z) : Prop :=
  cs = ATACmdStatusRead28Bit \/ cs = ATACmdStatusRead48Bit.

Definition is_write_opcode (cs : Z) : Prop :=
  cs = ATACmdStatusWrite28Bit \/ cs = ATACmdStatusWrite48Bit.

(** The opcodes of the dispatch table. *)
Definition known_opcode (cs : Z) : Prop :=
  cs = ATACmdStatusCheckPower \/ cs = ATACmdStatusFlush
  \/ cs = ATACmdStatusIdentify \/ is_read_opcode cs \/ is_write_opcode cs.

(** An IssueATA request: the command code and an ATAArg. *)
Definition issue_ata (r : Header.t) (arg : ATAArg.t) : Prop :=
  Header.Command r = CommandIssueATACommand
  /\ Header.Arg r = Some (Arg.ATA arg).

(** The byte offset of a request: [LBA * 512]. *)
Definition byte_offset (arg : ATAArg.t) : Z :=
  calculateLBA (ATAArg.LBA arg) (ATAArg.FlagLBA48Extended arg) * 512.

(** The number of whole sectors in [n] bytes (Go's integer division). *)
Definition sectors_of (n : Z) : Z := Z.quot n 512.

(** The reply to a successful write: [ReadyStatus] and nothing else. *)
Definition write_done_arg : ATAArg.t :=
  {| ATAArg.FlagLBA48Extended := false;
     ATAArg.FlagATADeviceHeadRegister := false;
     ATAArg.FlagAsynchronous := false;
     ATAArg.FlagWrite := false;
     ATAArg.ErrFeature := 0;
     ATAArg.SectorCount := 0;
     ATAArg.CmdStatus := ATACmdStatusReadyStatus;
     ATAArg.LBA := (0, 0, 0, 0, 0, 0);
     ATAArg.Data := [] |}.

(** The recoverable precondition failures of a request [arg] on a backing
    store [rs] in the state [st]. A short transfer is one whose byte count,
    divided by 512, is not the sector count. *)
Inductive recoverable_failure (arg : ATAArg.t) (rs : ReadSeeker E W)
    (st : W) : Prop :=
| unknown_opcode :
    ~ known_opcode (ATAArg.CmdStatus arg) ->
    recoverable_failure arg rs st
| read_with_write_flag :
    is_read_opcode (ATAArg.CmdStatus arg) ->
    ATAArg.FlagWrite arg = true ->
    recoverable_failure arg rs st
| write_without_write_flag :
    is_write_opcode (ATAArg.CmdStatus arg) ->
    ATAArg.FlagWrite arg = false ->
    recoverable_failure arg rs st
| data_length_mismatch :
    is_write_opcode (ATAArg.CmdStatus arg) ->
    sectors_of (Z.of_nat (length (ATAArg.Data arg)))
    <> ATAArg.SectorCount arg ->
    recoverable_failure arg rs st
| no_write_capability :
    is_write_opcode (ATAArg.CmdStatus arg) ->
    Writer rs = None ->
    recoverable_failure arg rs st
| identify_sector_count :
    ATAArg.CmdStatus arg = ATACmdStatusIdentify ->
    ATAArg.SectorCount arg <> 1 ->
    recoverable_failure arg rs st
| short_read (pos n : Z) (buf : list Z) (st1 st2 : W) :
    is_read_opcode (ATAArg.CmdStatus arg) ->
    ATAArg.FlagWrite arg = false ->
    array6_ok (ATAArg.LBA arg) ->
    Seek rs (byte_offset arg) SEEK_SET st = ((pos, None), st1) ->
    Read rs (Slice.make (Z.to_nat (ATAArg.SectorCount arg * 512))) st1
    = ((buf, n, None), st2) ->
    sectors_of n <> ATAArg.SectorCount arg ->
    recoverable_failure arg rs st
| short_write (write : list Z -> W -> (Z * option E) * W) (pos n : Z)
    (st1 st2 : W) :
    is_write_opcode (ATAArg.CmdStatus arg) ->
    ATAArg.FlagWrite arg = true ->
    sectors_of (Z.of_nat (length (ATAArg.Data arg)))
    = ATAArg.SectorCount arg ->
    Writer rs = Some write ->
    array6_ok (ATAArg.LBA arg) ->
    Seek rs (byte_offset arg) SEEK_SET st = ((pos, None), st1) ->
    write (ATAArg.Data arg) st1 = ((n, None), st2) ->
    sectors_of n <> ATAArg.SectorCount arg ->
    recoverable_failure arg rs st.

End Requests.

(** ** Test doubles and requests of the repository's tests *)

(** [noopReadWriteSeeker]: every call succeeds and does nothing. The outside
    world has no state and one error value. *)
Definition noopReadWriteSeeker : ReadSeeker unit unit :=
  {| Seek := fun _ _ st => ((0, None), st);
     Read := fun p st => ((p, 0, None), st);
     Writer := Some (fun _ st => ((0, None), st));
     Identifier := None |}.

(** [captureHeaderResponseSender]: [Send] returns [0, nil]. *)
Definition captureHeaderResponseSender : ResponseSender unit unit :=
  {| Send := fun _ st => ((0, None), st) |}.

(** A sender whose transport fails: [Send] returns an error. *)
Definition failingResponseSender : ResponseSender unit unit :=
  {| Send := fun _ st => ((0, Some tt), st) |}.

(** [&Header{Command: CommandIssueATACommand, Arg: arg}]. *)
Definition ata_request (arg : ATAArg.t) : Header.t :=
  {| Header.Version := 0;
     Header.FlagResponse := false;
     Header.FlagError := false;
     Header.Error := 0;
     Header.Major := 0;
     Header.Minor := 0;
     Header.Command := CommandIssueATACommand;
     Header.Tag := (0, 0, 0, 0);
     Header.Arg := Some (Arg.ATA arg) |}.

(** [&ATAArg{CmdStatus: cs, SectorCount: sc, FlagWrite: fw, Data: data}]. *)
Definition ata_arg (cs sc : Z) (fw : bool) (data : list Z) : ATAArg.t :=
  {| ATAArg.FlagLBA48Extended := false;
     ATAArg.FlagATADeviceHeadRegister := false;
     ATAArg.FlagAsynchronous := false;
     ATAArg.FlagWrite := fw;
     ATAArg.ErrFeature := 0;
     ATAArg.SectorCount := sc;
     ATAArg.CmdStatus := cs;
     ATAArg.LBA := (0, 0, 0, 0, 0, 0);
     ATAArg.Data := data |}.

(** Test "ATA unknown command abort". *)
Definition unknown_command_arg : ATAArg.t := ata_arg 0xff 0 false [].

(** Test "ATA check power". *)
Definition check_power_arg : ATAArg.t :=
  ata_arg ATACmdStatusCheckPower 0 false [].

(** Write28 with sector count 2 and 1023 bytes of data. *)
Definition write28_1023_arg : ATAArg.t :=
  ata_arg ATACmdStatusWrite28Bit 2 true (replicate 1023 0).

(** ** Replies that carry data *)

(** [&ATAArg{CmdStatus: ATACmdStatusReadyStatus, Data: data}], the reply to
    a read and to an identify request. *)
Definition data_reply_arg (data : list Z) : ATAArg.t :=
  {| ATAArg.FlagLBA48Extended := false;
     ATAArg.FlagATADeviceHeadRegister := false;
     ATAArg.FlagAsynchronous := false;
     ATAArg.FlagWrite := false;
     ATAArg.ErrFeature := 0;
     ATAArg.SectorCount := 0;
     ATAArg.CmdStatus := ATACmdStatusReadyStatus;
     ATAArg.LBA := (0, 0, 0, 0, 0, 0);
     ATAArg.Data := data |}.

(** Test "ATA identify error": identify, one sector. *)
Definition identify_arg : ATAArg.t := ata_arg ATACmdStatusIdentify 1 false [].

(** Test "read wrong number of bytes": Read28, one sector. *)
Definition read28_arg : ATAArg.t := ata_arg ATACmdStatusRead28Bit 1 false [].

(** An encoded [header_config] with the two low bits of byte 0 set and one
    byte after the config string. *)
Definition header_config_padded : list Z :=
  [0x13; 0; 0; 1; 2; 1; 0; 0; 0; 10;
   0; 10; 0; 1; 2; 0x12; 0; 3; 0x66; 0x6f; 0x6f; 0xff].


(** ** Server *)

(** [EtherType], [BroadcastMajor] and [BroadcastMinor] of the package, and
    [ConfigCommandRead] of configarg.go. *)
Definition EtherType : Z := 0x88a2.
Definition BroadcastMajor : Z := 0xffff.
Definition BroadcastMinor : Z := 0xff.
Definition ConfigCommandRead : Z := 0.

(** [ethernet.Frame], with the four fields that the server sets and
    reads. A [net.HardwareAddr] is a byte slice. *)
Module Frame.

Record t : Type := mk {
  Destination : list Z;
  Source : list Z;
  EtherType : Z;
  Payload : list Z
}.

End Frame.

Module Request.

Record t : Type := mk {
  Source : list Z;
  Target : list Z;
  Header : Header.t
}.

End Request.

(** The fields of [Server] that the code below reads. [Iface] stands for
    [Iface.HardwareAddr], and [H] is the type of the handlers; [Handler] is
    [None] for a nil interface. The connection [p] is a parameter of the
    functions that use it. *)
Module Server.

Record t (H : Type) : Type := mk {
  Iface : list Z;
  Major : Z;
  Minor : Z;
  BufferCount : Z;
  FirmwareVersion : Z;
  SectorCount : Z;
  Config : list Z;
  Handler : option H
}.

Arguments mk {H} _ _ _ _ _ _ _ _.
Arguments Iface {H} _.
Arguments Major {H} _.
Arguments Minor {H} _.
Arguments BufferCount {H} _.
Arguments FirmwareVersion {H} _.
Arguments SectorCount {H} _.
Arguments Config {H} _.
Arguments Handler {H} _.

End Server.

(** [response]; [remoteAddr] stands for [remoteAddr.HardwareAddr]. *)
Module response.

Record t (H : Type) : Type := mk {
  s : Server.t H;
  localAddr : list Z;
  remoteAddr : list Z;
  major : Z;
  minor : Z;
  r : Header.t
}.

Arguments mk {H} _ _ _ _ _ _.
Arguments s {H} _.
Arguments localAddr {H} _.
Arguments remoteAddr {H} _.
Arguments major {H} _.
Arguments minor {H} _.
Arguments r {H} _.

End response.

(** [conn]; [remoteAddr] stands for [remoteAddr.HardwareAddr]. *)
Module conn.

Record t (H : Type) : Type := mk {
  s : Server.t H;
  remoteAddr : list Z;
  buf : list Z
}.

Arguments mk {H} _ _ _.
Arguments s {H} _.
Arguments remoteAddr {H} _.
Arguments buf {H} _.

End conn.

(** What the server calls outside the package: the frame codec of
    github.com/mdlayher/ethernet and the [net.PacketConn] [s.p].
    [Frame_UnmarshalBinary] is [None] when the codec returns an error, which
    the server does not look at. [WriteTo fb target] acts on the state [W]
    of the network. *)
Record Network (E W : Type) : Type := {
  Frame_MarshalBinary : Frame.t -> list Z + E;
  Frame_UnmarshalBinary : list Z -> option Frame.t;
  WriteTo : list Z -> list Z -> W -> (Z * option E) * W
}.

Arguments Frame_MarshalBinary {E W} _ _.
Arguments Frame_UnmarshalBinary {E W} _ _.
Arguments WriteTo {E W} _ _ _ _.

Section ServerModel.

Context {E W H : Type}.
Variable net : Network E W.

(** The errors that [send] returns: those of [Header.MarshalBinary] and
    those of the network. *)
Inductive send_error : Type :=
| CodecError (e : error)
| NetError (e : E).

(** One entry for each call of [WriteTo]: its arguments and its results. *)
Inductive wire_event : Type :=
| EvWriteTo (fb target : list Z) (n : Z) (err : option E).

Definition wire : Type := W * list wire_event.

(** [Server.send]. [None] is a panic, which only [Header.MarshalBinary] can
    raise. *)
Definition Server_send (s : Server.t H) (h : Header.t)
    (source target : list Z) (st : wire)
  : option ((Z * option send_error) * wire) :=
  match Header.MarshalBinary h with
  | Panic => None
  | Err e => Some ((0, Some (CodecError e)), st)
  | Ok hb =>
      let f := {| Frame.Destination := target;
                  Frame.Source := source;
                  Frame.EtherType := EtherType;
                  Frame.Payload := hb |} in
      match Frame_MarshalBinary net f with
      | inr e => Some ((0, Some (NetError e)), st)
      | inl fb =>
          let '((n, err), w') := WriteTo net fb target (fst st) in
          Some ((n, option_map NetError err),
                (w', snd st ++ [EvWriteTo fb target n err]))
      end
  end.

(** [response.Send]: six fields of the header are overwritten, then the
    header is sent. *)
Definition response_Send (w : response.t H) (h : Header.t) (st : wire)
  : option ((Z * option send_error) * wire) :=
  let h := {| Header.Version := aoe.Version;
              Header.FlagResponse := true;
              Header.FlagError := Header.FlagError h;
              Header.Error := Header.Error h;
              Header.Major := response.major w;
              Header.Minor := response.minor w;
              Header.Command := Header.Command (response.r w);
              Header.Tag := Header.Tag (response.r w);
              Header.Arg := Header.Arg h |} in
  Server_send (response.s w) h (response.localAddr w)
    (response.remoteAddr w) st.

(** [Server.advertise]; [uint16(len(s.Config))] truncates. *)
Definition Server_advertise (s : Server.t H) (target : list Z) (st : wire)
  : option ((Z * option send_error) * wire) :=
  let h := {| Header.Version := aoe.Version;
              Header.FlagResponse := true;
              Header.FlagError := false;
              Header.Error := 0;
              Header.Major := Server.Major s;
              Header.Minor := Server.Minor s;
              Header.Command := CommandQueryConfigInformation;
              Header.Tag := (0, 0, 0, 0);
              Header.Arg :=
                Some (Arg.Config
                  {| ConfigArg.BufferCount := Server.BufferCount s;
                     ConfigArg.FirmwareVersion := Server.FirmwareVersion s;
                     ConfigArg.SectorCount := Server.SectorCount s;
                     ConfigArg.Version := aoe.Version;
                     ConfigArg.Command := ConfigCommandRead;
                     ConfigArg.StringLength :=
                       u16 (Z.of_nat (length (Server.Config s)));
                     ConfigArg.String := Server.Config s |}) |} in
  Server_send s h (Server.Iface s) target st.

(** The handler that [Server.ServeConfig] returns: one [Send], whose
    results are dropped. *)
Definition Server_ServeConfig (s : Server.t H) (w : ResponseSender E W)
    (r : Request.t) : io E W unit :=
  _r <-- call_Send w
    {| Header.Version := 0;
       Header.FlagResponse := false;
       Header.FlagError := false;
       Header.Error := 0;
       Header.Major := 0;
       Header.Minor := 0;
       Header.Command := 0;
       Header.Tag := (0, 0, 0, 0);
       Header.Arg :=
         Some (Arg.Config
           {| ConfigArg.BufferCount := Server.BufferCount s;
              ConfigArg.FirmwareVersion := Server.FirmwareVersion s;
              ConfigArg.SectorCount := Server.SectorCount s;
              ConfigArg.Version := aoe.Version;
              ConfigArg.Command := ConfigCommandRead;
              ConfigArg.StringLength :=
                u16 (Z.of_nat (length (Server.Config s)));
              ConfigArg.String := Server.Config s |}) |} ;;
  ret tt.

(** What [conn.serve] does with a frame: it returns without a call, it
    panics, or it calls [handler.ServeAoE(w, r)]. *)
Inductive dispatch : Type :=
| Dropped
| Crashed
| Dispatched (handler : H) (w : response.t H) (r : Request.t).

(** [conn.serve]. *)
Definition conn_serve (c : conn.t H) : dispatch :=
  match Frame_UnmarshalBinary net (conn.buf c) with
  | None => Dropped
  | Some f =>
      if negb (Frame.EtherType f =? EtherType) then Dropped else
      match Header.UnmarshalBinary (Frame.Payload f) with
      | Panic => Crashed
      | Err _ => Dropped
      | Ok h =>
          if Header.FlagResponse h then Dropped else
          if (negb (Header.Major h =? BroadcastMajor)
              && negb (Header.Major h =? Server.Major (conn.s c)))%bool
          then Dropped else
          if (negb (Header.Minor h =? BroadcastMinor)
              && negb (Header.Minor h =? Server.Minor (conn.s c)))%bool
          then Dropped else
          let w := {| response.s := conn.s c;
                      response.localAddr := Server.Iface (conn.s c);
                      response.remoteAddr := conn.remoteAddr c;
                      response.major := Server.Major (conn.s c);
                      response.minor := Server.Minor (conn.s c);
                      response.r := h |} in
          match Server.Handler (conn.s c) with
          | None => Dropped
          | Some handler =>
              Dispatched handler w
                {| Request.Source := conn.remoteAddr c;
                   Request.Target := Server.Iface (conn.s c);
                   Request.Header := h |}
          end
      end
  end.

End ServerModel.

Arguments send_error : clear implicits.
Arguments wire_event : clear implicits.
Arguments wire : clear implicits.
Arguments dispatch : clear implicits.

(** ** Server: specification side *)

(** The header that [response.Send] encodes for the header [h] of the
    handler. *)
Definition response_header {H : Type} (w : response.t H) (h : Header.t)
  : Header.t :=
  {| Header.Version := aoe.Version;
     Header.FlagResponse := true;
     Header.FlagError := Header.FlagError h;
     Header.Error := Header.Error h;
     Header.Major := response.major w;
     Header.Minor := response.minor w;
     Header.Command := Header.Command (response.r w);
     Header.Tag := Header.Tag (response.r w);
     Header.Arg := Header.Arg h |}.

(** The second half of [send]: the frame is encoded and written. *)
Definition write_frame {E W : Type} (net : Network E W) (f : Frame.t)
    (st : wire E W) : (Z * option (send_error E)) * wire E W :=
  match Frame_MarshalBinary net f with
  | inr e => ((0, Some (NetError e)), st)
  | inl fb =>
      let '((n, err), w') :=
        WriteTo net fb (Frame.Destination f) (fst st) in
      ((n, option_map NetError err),
       (w', snd st ++ [EvWriteTo fb (Frame.Destination f) n err]))
  end.

(** The configuration that the server announces and returns. *)
Definition Server_config {H : Type} (s : Server.t H) : ConfigArg.t :=
  {| ConfigArg.BufferCount := Server.BufferCount s;
     ConfigArg.FirmwareVersion := Server.FirmwareVersion s;
     ConfigArg.SectorCount := Server.SectorCount s;
     ConfigArg.Version := aoe.Version;
     ConfigArg.Command := ConfigCommandRead;
     ConfigArg.StringLength := Z.of_nat (length (Server.Config s));
     ConfigArg.String := Server.Config s |}.

(** The values of the Go type [Server]. *)
Definition Server_well_typed {H : Type} (s : Server.t H) : Prop :=
  is_u16 (Server.Major s) /\ is_u8 (Server.Minor s)
  /\ is_u16 (Server.BufferCount s) /\ is_u16 (Server.FirmwareVersion s)
  /\ is_u8 (Server.SectorCount s) /\ bytes_ok (Server.Config s).

(** A frame codec that keeps the payload: what decodes from the bytes of a
    frame carries the payload of that frame. *)
Definition keeps_payload {E W : Type} (net : Network E W) : Prop :=
  forall (f f' : Frame.t) (fb : list Z),
    Frame_MarshalBinary net f = inl fb ->
    Frame_UnmarshalBinary net fb = Some f' ->
    Frame.Payload f' = Frame.Payload f.

(** ** Server: values for the examples *)

(** A network on which a frame is its payload and every write succeeds. *)
Definition payload_network : Network unit unit :=
  {| Frame_MarshalBinary := fun f => inl (Frame.Payload f);
     Frame_UnmarshalBinary :=
       fun b => Some {| Frame.Destination := [];
                        Frame.Source := [];
                        Frame.EtherType := EtherType;
                        Frame.Payload := b |};
     WriteTo := fun fb _ st => ((Z.of_nat (length fb), None), st) |}.

(** The server of cmd/aoed: shelf 15, slot 1, an empty config string. *)
Definition aoed_server : Server.t unit :=
  {| Server.Iface := [0xde; 0xad; 0xbe; 0xef; 0xde; 0xad];
     Server.Major := 0x000f;
     Server.Minor := 0x01;
     Server.BufferCount := 0x10;
     Server.FirmwareVersion := 0x0001;
     Server.SectorCount := 16;
     Server.Config := [];
     Server.Handler := Some tt |}.

(** The advertisement of [aoed_server] on the wire of
    [payload_network]. *)
Definition aoed_advertisement : list Z :=
  [0x18; 0; 0; 0x0f; 1; 1; 0; 0; 0; 0; 0; 0x10; 0; 1; 16; 0x10; 0; 0].

(** A [response] of [aoed_server] to a config query with tag 0, 0, 0, 10. *)
Definition aoed_response : response.t unit :=
  {| response.s := aoed_server;
     response.localAddr := Server.Iface aoed_server;
     response.remoteAddr := [0; 1; 2; 3; 4; 5];
     response.major := Server.Major aoed_server;
     response.minor := Server.Minor aoed_server;
     response.r := header_config |}.

(** * Properties *)

(** ** Bit-level arithmetic *)

Section Bits.

(** Two numbers with disjoint bits: [a] below bit [n], [b] a multiple of
    [2^n]. Their bitwise or is their sum. *)
Lemma land_disjoint (a b n : Z) :
  0 <= n -> 0 <= a < 2 ^ n -> b mod 2 ^ n = 0 -> Z.land a b = 0.
Proof.
  intros Hn Ha Hb.
  rewrite <- (Z.mod_small a (2 ^ n)) by lia.
  rewrite <- Z.land_ones by lia.
  rewrite <- Z.land_assoc, (Z.land_comm (Z.ones n)), Z.land_ones by lia.
  rewrite Hb. apply Z.land_0_r.
Qed.

Lemma lor_disjoint (a b n : Z) :
  0 <= n -> 0 <= a < 2 ^ n -> b mod 2 ^ n = 0 -> Z.lor a b = a + b.
Proof.
  intros Hn Ha Hb.
  pose proof (Z.add_lor_land a b) as H.
  rewrite (land_disjoint a b n) in H by assumption. lia.
Qed.

Lemma mod_mul_pow2 (q k n : Z) :
  0 <= n <= k -> (q * 2 ^ k) mod 2 ^ n = 0.
Proof.
  intros H. replace k with ((k - n) + n) by lia.
  rewrite Z.pow_add_r by lia.
  rewrite Z.mul_assoc. apply Z_mod_mult.
Qed.

Lemma mask48 : 0x0000ffffffffffff = Z.ones 48.
Proof. reflexivity. Qed.

Lemma mask28 : 0x0fffffff = Z.ones 28.
Proof. reflexivity. Qed.

Lemma i64_small (x : Z) : 0 <= x < 2 ^ 63 -> i64 x = x.
Proof.
  intros H. unfold i64.
  rewrite Z.mod_small; lia.
Qed.

(** A 16-bit value survives [PutUint16] followed by [Uint16]. *)
Lemma u16_bytes (v : Z) :
  is_u16 v -> Z.lor (u8 v) (Z.shiftl (u8 (Z.shiftr v 8)) 8) = v.
Proof.
  unfold is_u16, u8. intros H.
  rewrite Z.shiftr_div_pow2, Z.shiftl_mul_pow2 by lia.
  change (2 ^ 8) with 256.
  rewrite (lor_disjoint _ _ 8); [| lia | | ].
  - rewrite (Z.mod_small (v / 256)).
    + pose proof (Z.div_mod v 256). lia.
    + split; [apply Z.div_pos; lia | apply Z.div_lt_upper_bound; lia].
  - change (2 ^ 8) with 256. apply Z.mod_pos_bound. lia.
  - change (2 ^ 8) with 256. apply Z_mod_mult.
Qed.

(** Byte 5 of a ConfigArg: the version is shifted in 8 bits, so only its
    low nibble is stored; the command nibble comes back whole. *)
Lemma nibbles (v c : Z) :
  is_u8 v -> 0 <= c <= 0xf ->
  let vc := Z.lor (Z.lor 0 (u8 (Z.shiftl v 4))) c in
  Z.shiftr vc 4 = v mod 16 /\ Z.land vc 0x0f = c /\ is_u8 vc.
Proof.
  unfold is_u8, u8. intros Hv Hc. cbv zeta.
  rewrite Z.lor_0_l, Z.shiftl_mul_pow2 by lia.
  change (2 ^ 4) with 16.
  assert (Hm : (v * 16) mod 256 = 16 * (v mod 16)).
  { change 256 with (16 * 16). rewrite (Z.mul_comm v 16).
    rewrite Zmult_mod_distr_l. reflexivity. }
  rewrite Hm, Z.lor_comm.
  rewrite (lor_disjoint c _ 4); [| lia | change (2 ^ 4) with 16; lia | ].
  2:{ change (2 ^ 4) with 16. rewrite Z.mul_comm. apply Z_mod_mult. }
  pose proof (Z.mod_pos_bound v 16 ltac:(lia)) as Hb.
  rewrite Z.shiftr_div_pow2 by lia. change (2 ^ 4) with 16.
  change 0x0f with (Z.ones 4). rewrite Z.land_ones by lia.
  change (2 ^ 4) with 16.
  set (q := v mod 16) in *.
  repeat split.
  - replace (c + 16 * q) with (q * 16 + c) by lia.
    rewrite Z.div_add_l, Z.div_small by lia. lia.
  - replace (c + 16 * q) with (c + q * 16) by lia.
    rewrite Z_mod_plus_full, Z.mod_small; lia.
  - lia.
  - lia.
Qed.

End Bits.

(** ** Go slices *)

Section SliceFacts.

Lemma index_Some (b : list Z) (i : nat) (v : Z) :
  b !! i = Some v -> Slice.index b i = Ok v.
Proof. unfold Slice.index. intros ->. reflexivity. Qed.

Lemma store_lt (b : list Z) (i : nat) (v : Z) :
  (i < length b)%nat -> Slice.store b i v = Ok (<[i := v]> b).
Proof.
  unfold Slice.store. intros H.
  apply Nat.ltb_lt in H. rewrite H. reflexivity.
Qed.

Lemma store_ge (b : list Z) (i : nat) (v : Z) :
  (length b <= i)%nat -> Slice.store b i v = Panic.
Proof.
  unfold Slice.store. intros H.
  apply Nat.ltb_ge in H. rewrite H. reflexivity.
Qed.

Lemma slice_ok (b : list Z) (lo hi : nat) :
  (lo <= hi <= length b)%nat ->
  Slice.slice b lo hi = Ok (take (hi - lo) (drop lo b)).
Proof.
  unfold Slice.slice. intros [H1 H2].
  apply Nat.leb_le in H1, H2. rewrite H1, H2. reflexivity.
Qed.

Lemma slice_beyond (b : list Z) (lo hi : nat) :
  (length b < hi)%nat -> Slice.slice b lo hi = Panic.
Proof.
  unfold Slice.slice. intros H.
  apply Nat.leb_gt in H. rewrite H, andb_false_r. reflexivity.
Qed.

Lemma slice_from_ok (b : list Z) (lo : nat) :
  (lo <= length b)%nat -> Slice.slice_from b lo = Ok (drop lo b).
Proof.
  intros H. unfold Slice.slice_from. rewrite slice_ok by lia.
  rewrite take_ge; [reflexivity |]. rewrite length_drop. lia.
Qed.

Lemma slice_app (pre s post : list Z) :
  Slice.slice (pre ++ s ++ post) (length pre) (length pre + length s)
  = Ok s.
Proof.
  rewrite slice_ok by (rewrite !length_app; lia).
  rewrite drop_app_length.
  replace (length pre + length s - length pre)%nat with (length s) by lia.
  rewrite take_app_length. reflexivity.
Qed.

Lemma length_make (n : nat) : length (Slice.make n) = n.
Proof. apply length_replicate. Qed.

(** [copy] into a fresh buffer of the length of the source, or shorter. *)
Lemma copy_make (n : nat) (src : list Z) :
  (n <= length src)%nat -> Slice.copy (Slice.make n) src = take n src.
Proof.
  intros H. unfold Slice.copy. rewrite length_make.
  rewrite drop_ge by (rewrite length_make; lia).
  apply app_nil_r.
Qed.

Lemma copy_make_all (src : list Z) :
  Slice.copy (Slice.make (length src)) src = src.
Proof. rewrite copy_make by lia. apply take_ge. lia. Qed.

Lemma copy_same_length (dst src : list Z) :
  length dst = length src -> Slice.copy dst src = src.
Proof.
  intros H. unfold Slice.copy. rewrite H, take_ge by lia.
  rewrite <- H, drop_all. apply app_nil_r.
Qed.

Lemma copy_at_app (pre z post src : list Z) :
  length z = length src ->
  Slice.copy_at (pre ++ z ++ post) (length pre) (length pre + length z) src
  = Ok (pre ++ src ++ post).
Proof.
  intros H. unfold Slice.copy_at. rewrite slice_app. cbn [bind].
  rewrite copy_same_length by assumption.
  rewrite take_app_length, drop_app_add, drop_app_length. reflexivity.
Qed.

Lemma copy_from_app (pre z src : list Z) :
  length z = length src ->
  Slice.copy_from (pre ++ z) (length pre) src = Ok (pre ++ src).
Proof.
  intros H. unfold Slice.copy_from.
  pose proof (copy_at_app pre z [] src H) as Hc.
  rewrite !app_nil_r in Hc. rewrite <- Hc.
  f_equal. rewrite length_app. reflexivity.
Qed.

End SliceFacts.

(** ** LBA computation *)

Lemma LittleEndian_Uint64_value (r0 r1 r2 r3 r4 r5 : Z) :
  array6_ok (r0, r1, r2, r3, r4, r5) ->
  binary.LittleEndian_Uint64 [r0; r1; r2; r3; r4; r5; 0; 0]
  = little_endian_value (r0, r1, r2, r3, r4, r5).
Proof.
  unfold array6_ok, is_u8, binary.LittleEndian_Uint64, little_endian_value.
  intros (H0 & H1 & H2 & H3 & H4 & H5). cbn [lookup_total list_lookup_total].
  rewrite !Z.shiftl_mul_pow2 by lia.
  rewrite !Z.mul_0_l, !Z.lor_0_r.
  rewrite (lor_disjoint (r4 * 2 ^ 32) _ 40) by
    (first [lia | apply mod_mul_pow2; lia]).
  rewrite (lor_disjoint (r3 * 2 ^ 24) _ 32); [| lia | lia |].
  2:{ replace (r4 * 2 ^ 32 + r5 * 2 ^ 40) with ((r4 + r5 * 2 ^ 8) * 2 ^ 32)
        by lia. apply Z_mod_mult. }
  rewrite (lor_disjoint (r2 * 2 ^ 16) _ 24); [| lia | lia |].
  2:{ replace (r3 * 2 ^ 24 + (r4 * 2 ^ 32 + r5 * 2 ^ 40))
        with ((r3 + r4 * 2 ^ 8 + r5 * 2 ^ 16) * 2 ^ 24) by lia.
      apply Z_mod_mult. }
  rewrite (lor_disjoint (r1 * 2 ^ 8) _ 16); [| lia | lia |].
  2:{ replace (r2 * 2 ^ 16 + (r3 * 2 ^ 24 + (r4 * 2 ^ 32 + r5 * 2 ^ 40)))
        with ((r2 + r3 * 2 ^ 8 + r4 * 2 ^ 16 + r5 * 2 ^ 24) * 2 ^ 16) by lia.
      apply Z_mod_mult. }
  rewrite (lor_disjoint r0 _ 8); [| lia | lia |].
  2:{ replace (r1 * 2 ^ 8 + (r2 * 2 ^ 16 + (r3 * 2 ^ 24
               + (r4 * 2 ^ 32 + r5 * 2 ^ 40))))
        with ((r1 + r2 * 2 ^ 8 + r3 * 2 ^ 16 + r4 * 2 ^ 24 + r5 * 2 ^ 32)
              * 2 ^ 8) by lia.
      apply Z_mod_mult. }
  lia.
Qed.

Lemma calculateLBA_value (rlba : array6) (is48Bit : bool) :
  array6_ok rlba ->
  calculateLBA rlba is48Bit
  = Z.land (little_endian_value rlba)
           (if is48Bit then 0x0000ffffffffffff else 0x0fffffff).
Proof.
  intros Hok.
  destruct rlba as [[[[[r0 r1] r2] r3] r4] r5].
  unfold calculateLBA. rewrite LittleEndian_Uint64_value by assumption.
  destruct is48Bit.
  - rewrite mask48, Z.land_ones by lia. apply i64_small.
    pose proof (Z.mod_pos_bound
                  (little_endian_value (r0, r1, r2, r3, r4, r5))
                  (2 ^ 48) ltac:(lia)). lia.
  - rewrite mask28, Z.land_ones by lia. apply i64_small.
    pose proof (Z.mod_pos_bound
                  (little_endian_value (r0, r1, r2, r3, r4, r5))
                  (2 ^ 28) ltac:(lia)). lia.
Qed.

Lemma calculateLBA_range (rlba : array6) (is48Bit : bool) :
  array6_ok rlba ->
  0 <= calculateLBA rlba is48Bit < (if is48Bit then 2 ^ 48 else 2 ^ 28).
Proof.
  intros Hok. rewrite calculateLBA_value by exact Hok.
  destruct is48Bit.
  - rewrite mask48, Z.land_ones by lia. apply Z.mod_pos_bound. lia.
  - rewrite mask28, Z.land_ones by lia. apply Z.mod_pos_bound. lia.
Qed.

(** C5. For every 6-byte LBA array and flag, [calculateLBA] is the
    little-endian value of the 6 bytes masked to [0x0000FFFFFFFFFFFF] when
    the LBA48 flag is set and to [0x0FFFFFFF] otherwise; the result lies in
    [[0, 2^48)] resp. [[0, 2^28)]; and for six bytes 255 it is 268,435,455
    in 28-bit mode and 281,474,976,710,655 in 48-bit mode. *)
Theorem calculateLBA_masks_little_endian (rlba : array6) (is48Bit : bool) :
  array6_ok rlba ->
  calculateLBA rlba is48Bit
  = Z.land (little_endian_value rlba)
           (if is48Bit then 0x0000ffffffffffff else 0x0fffffff)
  /\ 0 <= calculateLBA rlba is48Bit < (if is48Bit then 2 ^ 48 else 2 ^ 28)
  /\ calculateLBA (255, 255, 255, 255, 255, 255) false = 268435455
  /\ calculateLBA (255, 255, 255, 255, 255, 255) true = 281474976710655.
Proof.
  intros Hok.
  split; [apply calculateLBA_value; exact Hok |].
  split; [apply calculateLBA_range; exact Hok |].
  split; reflexivity.
Qed.

Lemma calculateLBA_masks_little_endian_witness :
  array6_ok (1, 2, 3, 4, 5, 6)
  /\ calculateLBA (1, 2, 3, 4, 5, 6) true = 0x060504030201
  /\ calculateLBA (1, 2, 3, 4, 5, 6) false = 0x04030201.
Proof.
  assert (Hok : array6_ok (1, 2, 3, 4, 5, 6)).
  { unfold array6_ok, is_u8. lia. }
  split; [exact Hok |].
  split.
  - rewrite (proj1 (calculateLBA_masks_little_endian _ true Hok)).
    reflexivity.
  - rewrite (proj1 (calculateLBA_masks_little_endian _ false Hok)).
    reflexivity.
Defined.

(** ** Header decoding: the order of the checks *)

(** A slice of at least [n] bytes, opened up to its first [n] elements. *)
Tactic Notation "open_slice" ident(b) hyp(H) integer(n) :=
  do n (destruct b as [| ? b]; [cbn [length] in H; lia |]).

Lemma Header_UnmarshalBinary_short (b : list Z) :
  (length b < 10)%nat -> Header.UnmarshalBinary b = Err io_ErrUnexpectedEOF.
Proof.
  intros H. unfold Header.UnmarshalBinary.
  replace (length b <? headerLen)%nat with true; [reflexivity |].
  symmetry. apply Nat.ltb_lt. exact H.
Qed.

Lemma Header_UnmarshalBinary_version (b : list Z) (b0 : Z) :
  (10 <= length b)%nat -> b !! 0%nat = Some b0 -> Z.shiftr b0 4 <> 1 ->
  Header.UnmarshalBinary b = Err (error_of ErrorUnsupportedVersion).
Proof.
  intros Hlen H0 Hv. unfold Header.UnmarshalBinary.
  replace (length b <? headerLen)%nat with false
    by (symmetry; apply Nat.ltb_ge; exact Hlen).
  rewrite (index_Some _ _ _ H0). cbn [bind].
  apply Z.eqb_neq in Hv. unfold aoe.Version. rewrite Hv. reflexivity.
Qed.

Lemma Header_UnmarshalBinary_command (b : list Z) (b0 b5 : Z) :
  (10 <= length b)%nat -> b !! 0%nat = Some b0 -> Z.shiftr b0 4 = 1 ->
  b !! 5%nat = Some b5 -> ~ (b5 = 0 \/ b5 = 1 \/ b5 = 2 \/ b5 = 3) ->
  Header.UnmarshalBinary b = Err (error_of ErrorUnrecognizedCommandCode).
Proof.
  intros Hlen H0 Hv H5 Hc.
  open_slice b Hlen 10.
  cbn in H0, H5. injection H0 as ->. injection H5 as ->.
  unfold Header.UnmarshalBinary.
  cbn [length Nat.ltb Nat.leb headerLen Nat.add].
  cbn [Slice.index lookup list_lookup bind].
  rewrite Hv. cbn [aoe.Version Z.eqb negb Pos.eqb].
  unfold Slice.slice.
  cbn [length Nat.leb Nat.ltb andb bind binary.BigEndian_Uint16 Slice.index
       lookup list_lookup take drop Nat.sub].
  unfold CommandIssueATACommand, CommandQueryConfigInformation,
    CommandMACMaskList, CommandReserveRelease.
  destruct (Z.eqb_spec b5 0); [exfalso; tauto |].
  destruct (Z.eqb_spec b5 1); [exfalso; tauto |].
  destruct (Z.eqb_spec b5 2); [exfalso; tauto |].
  destruct (Z.eqb_spec b5 3); [exfalso; tauto |].
  reflexivity.
Qed.

(** C7. [Header.UnmarshalBinary] fails with [UnexpectedEOF] on every input
    shorter than 10 bytes; with [UnsupportedVersion] on every input of at
    least 10 bytes whose high nibble of byte 0 is not 1, whatever the command
    byte (version 2 with the unknown command 9 included); and with
    [UnrecognizedCommandCode] on every such input of version 1 whose command
    byte (byte 5) is not 0, 1, 2 or 3, for instance 4. *)
Theorem Header_UnmarshalBinary_error_order (b : list Z) :
  ((length b < 10)%nat ->
   Header.UnmarshalBinary b = Err io_ErrUnexpectedEOF)
  /\ (forall b0,
        (10 <= length b)%nat -> b !! 0%nat = Some b0 -> Z.shiftr b0 4 <> 1 ->
        Header.UnmarshalBinary b = Err (error_of ErrorUnsupportedVersion))
  /\ (forall b0 b5,
        (10 <= length b)%nat -> b !! 0%nat = Some b0 -> Z.shiftr b0 4 = 1 ->
        b !! 5%nat = Some b5 -> ~ (b5 = 0 \/ b5 = 1 \/ b5 = 2 \/ b5 = 3) ->
        Header.UnmarshalBinary b
        = Err (error_of ErrorUnrecognizedCommandCode))
  /\ Header.UnmarshalBinary [0x20; 0; 0; 0; 0; 9; 0; 0; 0; 0]
     = Err (error_of ErrorUnsupportedVersion)
  /\ Header.UnmarshalBinary [0x10; 0; 0; 0; 0; 4; 0; 0; 0; 0]
     = Err (error_of ErrorUnrecognizedCommandCode).
Proof.
  split; [apply Header_UnmarshalBinary_short |].
  split; [intros b0; apply Header_UnmarshalBinary_version |].
  split; [intros b0 b5; apply Header_UnmarshalBinary_command |].
  split; reflexivity.
Qed.

Lemma Header_UnmarshalBinary_error_order_witness :
  Header.UnmarshalBinary [0x10; 0; 0] = Err io_ErrUnexpectedEOF
  /\ Header.UnmarshalBinary [0x30; 1; 2; 3; 4; 1; 6; 7; 8; 9; 10]
     = Err (error_of ErrorUnsupportedVersion)
  /\ Header.UnmarshalBinary [0x1c; 1; 2; 3; 4; 0xff; 6; 7; 8; 9; 10]
     = Err (error_of ErrorUnrecognizedCommandCode).
Proof.
  split; [| split].
  - apply (proj1 (Header_UnmarshalBinary_error_order [0x10; 0; 0])).
    cbn [length]. lia.
  - apply (proj1 (proj2 (Header_UnmarshalBinary_error_order
                           [0x30; 1; 2; 3; 4; 1; 6; 7; 8; 9; 10])) 0x30).
    + cbn [length]. lia.
    + reflexivity.
    + cbv. discriminate.
  - apply (proj1 (proj2 (proj2 (Header_UnmarshalBinary_error_order
                           [0x1c; 1; 2; 3; 4; 0xff; 6; 7; 8; 9; 10])))
             0x1c 0xff).
    + cbn [length]. lia.
    + reflexivity.
    + reflexivity.
    + reflexivity.
    + lia.
Defined.

(** ** ConfigArg decoding: length before range *)

Lemma BigEndian_Uint16_pair (hi lo : Z) :
  is_u8 lo -> binary.BigEndian_Uint16 [hi; lo] = Ok (hi * 256 + lo).
Proof.
  unfold is_u8. intros H. cbn.
  rewrite Z.shiftl_mul_pow2 by lia. change (2 ^ 8) with 256.
  rewrite (lor_disjoint lo _ 8); [f_equal; lia | lia | exact H |].
  change (2 ^ 8) with 256. apply Z_mod_mult.
Qed.

(** C8, as the code has it. For every input of bytes whose [string_length]
    field exceeds 1024, [ConfigArg.UnmarshalBinary] returns
    [BadArgumentParameter] when at least [string_length] bytes follow the
    8-byte prefix; with fewer bytes after the prefix the length check, which
    comes first, returns [UnexpectedEOF]. *)
Theorem ConfigArg_UnmarshalBinary_string_length (b : list Z) (n : Z) :
  bytes_ok b -> string_length_field b = Some n -> 1024 < n ->
  (n <= Z.of_nat (length b) - 8 ->
   ConfigArg.UnmarshalBinary b = Err (error_of ErrorBadArgumentParameter))
  /\ (Z.of_nat (length b) - 8 < n ->
      ConfigArg.UnmarshalBinary b = Err io_ErrUnexpectedEOF).
Proof.
  intros Hb Hf Hn.
  assert (Hlen : (8 <= length b)%nat).
  { unfold string_length_field in Hf.
    destruct (b !! 7%nat) as [lo |] eqn:H7.
    - apply lookup_lt_Some in H7. lia.
    - destruct (b !! 6%nat); discriminate. }
  open_slice b Hlen 8.
  cbn in Hf. injection Hf as Hf.
  assert (Hlo : is_u8 z6).
  { unfold bytes_ok in Hb. rewrite !Forall_cons in Hb. tauto. }
  unfold ConfigArg.UnmarshalBinary.
  cbn [length Nat.ltb Nat.leb configArgLen Nat.add].
  unfold Slice.slice.
  cbn [length Nat.leb andb bind take drop Nat.sub].
  rewrite !BigEndian_Uint16_pair
    by (first [exact Hlo | unfold bytes_ok in Hb;
                           rewrite !Forall_cons in Hb; tauto]).
  cbn [bind Slice.index lookup list_lookup].
  rewrite slice_from_ok by (cbn [length]; lia).
  cbn [bind drop]. rewrite drop_0, Hf.
  cbn [length] in *.
  split; intros Hr.
  - destruct (Z.ltb_spec (Z.of_nat (length b)) n); [lia |].
    destruct (Z.ltb_spec 1024 n); [reflexivity | lia].
  - destruct (Z.ltb_spec (Z.of_nat (length b)) n); [reflexivity | lia].
Qed.

Lemma ConfigArg_UnmarshalBinary_string_length_witness :
  ConfigArg.UnmarshalBinary ([0; 0; 0; 0; 0; 0x10; 4; 1] ++ replicate 1025 0)
  = Err (error_of ErrorBadArgumentParameter).
Proof.
  apply (proj1 (ConfigArg_UnmarshalBinary_string_length
                  ([0; 0; 0; 0; 0; 0x10; 4; 1] ++ replicate 1025 0) 1025
                  ltac:(unfold bytes_ok; apply Forall_forall;
                        intros x Hx; apply elem_of_app in Hx;
                        destruct Hx as [Hx | Hx];
                        [ repeat (apply elem_of_cons in Hx;
                                  destruct Hx as [-> | Hx];
                                  [unfold is_u8; lia |]);
                          apply elem_of_nil in Hx; contradiction
                        | apply elem_of_replicate in Hx;
                          destruct Hx as [-> _]; unfold is_u8; lia ])
                  ltac:(reflexivity) ltac:(lia))).
  rewrite length_app, length_replicate. cbn [length]. lia.
Defined.

(** The claim of C8 as stated fails on an 8-byte input whose
    [string_length] field is 1025: the decoder reports [UnexpectedEOF]. *)
Lemma ConfigArg_UnmarshalBinary_string_length_counterexample :
  string_length_field [0; 0; 0; 0; 0; 0x10; 4; 1] = Some 1025
  /\ 1024 < 1025
  /\ ConfigArg.UnmarshalBinary [0; 0; 0; 0; 0; 0x10; 4; 1]
     = Err io_ErrUnexpectedEOF
  /\ ConfigArg.UnmarshalBinary [0; 0; 0; 0; 0; 0x10; 4; 1]
     <> Err (error_of ErrorBadArgumentParameter).
Proof.
  split; [reflexivity |]. split; [lia |].
  split; [reflexivity | discriminate].
Qed.

(** ** The fuzz regression *)

(** C9. The 18-byte go-fuzz input decodes to a header whose ConfigArg has
    the inner version 3, not 1, and the decoded header encodes to the same
    18 bytes. *)
Theorem fuzz_crasher_reencodes :
  length fuzz_crasher = 18%nat
  /\ exists (h : Header.t) (c : ConfigArg.t),
       Header.UnmarshalBinary fuzz_crasher = Ok h
       /\ Header.Arg h = Some (Arg.Config c)
       /\ ConfigArg.Version c = 3
       /\ ConfigArg.Version c <> 1
       /\ Header.MarshalBinary h = Ok fuzz_crasher.
Proof.
  split; [reflexivity |].
  eexists. eexists.
  split; [vm_compute; reflexivity |].
  split; [reflexivity |].
  split; [reflexivity |].
  split; [discriminate | vm_compute; reflexivity].
Qed.

(** ** Encoders and panics *)

(** C1, on the code. A frame with 43 MAC addresses decodes, and encoding
    the decoded header panics: the buffer length [2 + NMACs*6] is computed
    in [uint8], so the buffer has 4 bytes and the first [copy(b[2:8], m)] is
    out of range. The same happens with 32 directives, where
    [4 + 8*DirCount] wraps to 4. [Fuzz] therefore crashes on both inputs. *)
Theorem encoders_panic_on_large_counts :
  (exists h : Header.t,
     Header.UnmarshalBinary reserve_release_43 = Ok h
     /\ Header.MarshalBinary h = Panic)
  /\ (exists h : Header.t,
        Header.UnmarshalBinary mac_mask_32 = Ok h
        /\ Header.MarshalBinary h = Panic)
  /\ Fuzz reserve_release_43 = None
  /\ Fuzz mac_mask_32 = None.
Proof.
  split; [eexists; split; vm_compute; reflexivity |].
  split; [eexists; split; vm_compute; reflexivity |].
  split; vm_compute; reflexivity.
Qed.

(** ** ATAArg: wire image and round trip *)

(** [MarshalBinary] never fails: 12 bytes of argument header, then the
    data. *)
Lemma ATAArg_MarshalBinary_bytes (a : ATAArg.t) :
  ATAArg.MarshalBinary a
  = Ok (let '(l0, l1, l2, l3, l4, l5) := ATAArg.LBA a in
        [ATAArg_flags a; ATAArg.ErrFeature a; ATAArg.SectorCount a;
         ATAArg.CmdStatus a; l0; l1; l2; l3; l4; l5; 0; 0]
        ++ ATAArg.Data a).
Proof.
  unfold ATAArg.MarshalBinary, ATAArg_flags.
  destruct (ATAArg.LBA a) as [[[[[l0 l1] l2] l3] l4] l5].
  cbn [Slice.make ataArgLen Nat.add replicate].
  unfold Slice.store.
  cbn [length Nat.ltb Nat.leb bind insert list_insert].
  match goal with
  | |- context [Slice.copy_from (?x0 :: ?x1 :: ?x2 :: ?x3 :: ?x4 :: ?x5 ::
                  ?x6 :: ?x7 :: ?x8 :: ?x9 :: ?x10 :: ?x11 :: ?z) _ ?src] =>
      pose proof (copy_from_app
                    [x0; x1; x2; x3; x4; x5; x6; x7; x8; x9; x10; x11]
                    z src) as Hc
  end.
  cbn [app length] in Hc. rewrite Hc by apply length_replicate.
  reflexivity.
Qed.

Lemma ATAArg_UnmarshalBinary_bytes
    (x0 x1 x2 x3 x4 x5 x6 x7 x8 x9 : Z) (data : list Z) :
  ATAArg.UnmarshalBinary
    (x0 :: x1 :: x2 :: x3 :: x4 :: x5 :: x6 :: x7 :: x8 :: x9 :: 0 :: 0
        :: data)
  = Ok {| ATAArg.FlagLBA48Extended := negb (Z.land x0 0x40 =? 0);
          ATAArg.FlagATADeviceHeadRegister := negb (Z.land x0 0x10 =? 0);
          ATAArg.FlagAsynchronous := negb (Z.land x0 0x02 =? 0);
          ATAArg.FlagWrite := negb (Z.land x0 0x01 =? 0);
          ATAArg.ErrFeature := x1;
          ATAArg.SectorCount := x2;
          ATAArg.CmdStatus := x3;
          ATAArg.LBA := (x4, x5, x6, x7, x8, x9);
          ATAArg.Data := data |}.
Proof.
  unfold ATAArg.UnmarshalBinary.
  cbn [length Nat.ltb Nat.leb ataArgLen Nat.add].
  cbn [Slice.index lookup list_lookup bind Z.eqb negb orb].
  rewrite slice_from_ok by (cbn [length]; lia).
  cbn [bind drop]. rewrite drop_0, copy_make_all. reflexivity.
Qed.

Lemma ATAArg_roundtrip (a : ATAArg.t) :
  exists b, ATAArg.MarshalBinary a = Ok b /\ ATAArg.UnmarshalBinary b = Ok a.
Proof.
  eexists. split; [apply ATAArg_MarshalBinary_bytes |].
  destruct a as [f48 fdh fas fwr ef sc cs [[[[[l0 l1] l2] l3] l4] l5] data].
  cbn [ATAArg.LBA ATAArg.ErrFeature ATAArg.SectorCount ATAArg.CmdStatus
       ATAArg.Data app].
  rewrite ATAArg_UnmarshalBinary_bytes.
  destruct f48, fdh, fas, fwr; reflexivity.
Qed.

(** ** ConfigArg: wire image and round trip *)

Lemma PutUint16_at_app (pre post : list Z) (z0 z1 v : Z) (hi : nat) :
  hi = (length pre + 2)%nat ->
  binary.BigEndian_PutUint16_at (pre ++ z0 :: z1 :: post) (length pre) hi v
  = Ok (pre ++ u8 (Z.shiftr v 8) :: u8 v :: post).
Proof.
  intros ->. unfold binary.BigEndian_PutUint16_at.
  pose proof (slice_app pre [z0; z1] post) as Hs.
  cbn [app length] in Hs. rewrite Hs. cbn [bind].
  cbn [Slice.index lookup list_lookup bind].
  unfold Slice.store.
  cbn [length Nat.ltb Nat.leb bind insert list_insert].
  rewrite take_app_length.
  pose proof (drop_app_add pre (z0 :: z1 :: post) 2) as Hd.
  rewrite Hd. reflexivity.
Qed.

(** Rewrites the next [PutUint16] into a fresh (zeroed) part of a buffer
    whose prefix is known. *)
Ltac put_uint16 :=
  match goal with
  | |- context [binary.BigEndian_PutUint16_at ?b ?lo ?hi ?v] =>
      let H := fresh "Hput" in
      pose proof (PutUint16_at_app (take lo b) (drop hi b) 0 0 v hi eq_refl)
        as H;
      cbn [app length take drop] in H; rewrite ?drop_0 in H;
      rewrite H; clear H; cbn [bind]
  end.

Lemma ConfigArg_MarshalBinary_bytes (c : ConfigArg.t) :
  ConfigArg.encodable c ->
  ConfigArg.MarshalBinary c
  = Ok ([u8 (Z.shiftr (ConfigArg.BufferCount c) 8);
         u8 (ConfigArg.BufferCount c);
         u8 (Z.shiftr (ConfigArg.FirmwareVersion c) 8);
         u8 (ConfigArg.FirmwareVersion c);
         ConfigArg.SectorCount c;
         ConfigArg_vc c;
         u8 (Z.shiftr (ConfigArg.StringLength c) 8);
         u8 (ConfigArg.StringLength c)]
        ++ ConfigArg.String c).
Proof.
  intros (Hcmd & Hlen & Hmax).
  unfold ConfigArg.MarshalBinary, ConfigArg_vc.
  destruct (Z.ltb_spec 0xf (ConfigArg.Command c)); [lia |].
  rewrite Hlen at 1. rewrite Z.eqb_refl. cbn [negb].
  destruct (Z.ltb_spec 1024 (ConfigArg.StringLength c)); [lia |].
  rewrite Hlen, Nat2Z.id.
  cbn [Slice.make configArgLen Nat.add replicate].
  put_uint16. put_uint16.
  unfold Slice.store.
  cbn [length Nat.ltb Nat.leb bind insert list_insert].
  put_uint16.
  match goal with
  | |- context [Slice.copy_from (?x0 :: ?x1 :: ?x2 :: ?x3 :: ?x4 :: ?x5 ::
                  ?x6 :: ?x7 :: ?z) _ ?src] =>
      pose proof (copy_from_app [x0; x1; x2; x3; x4; x5; x6; x7] z src)
        as Hc
  end.
  cbn [app length] in Hc. rewrite Hc by apply length_replicate.
  reflexivity.
Qed.

Lemma ConfigArg_UnmarshalBinary_bytes
    (x0 x1 x2 x3 x4 x5 x6 x7 : Z) (str : list Z) :
  is_u8 x1 -> is_u8 x3 -> is_u8 x7 ->
  x6 * 256 + x7 = Z.of_nat (length str) ->
  Z.of_nat (length str) <= 1024 ->
  ConfigArg.UnmarshalBinary
    (x0 :: x1 :: x2 :: x3 :: x4 :: x5 :: x6 :: x7 :: str)
  = Ok {| ConfigArg.BufferCount := x0 * 256 + x1;
          ConfigArg.FirmwareVersion := x2 * 256 + x3;
          ConfigArg.SectorCount := x4;
          ConfigArg.Version := Z.shiftr x5 4;
          ConfigArg.Command := Z.land x5 0x0f;
          ConfigArg.StringLength := Z.of_nat (length str);
          ConfigArg.String := str |}.
Proof.
  intros H1 H3 H7 Hlen Hmax.
  unfold ConfigArg.UnmarshalBinary.
  cbn [length Nat.ltb Nat.leb configArgLen Nat.add].
  unfold Slice.slice.
  cbn [length Nat.leb andb bind take drop Nat.sub].
  rewrite !BigEndian_Uint16_pair by assumption.
  cbn [bind Slice.index lookup list_lookup].
  rewrite slice_from_ok by (cbn [length]; lia).
  cbn [bind drop]. rewrite drop_0, Hlen.
  rewrite Z.ltb_irrefl.
  destruct (Z.ltb_spec 1024 (Z.of_nat (length str))); [lia |].
  rewrite Nat2Z.id, copy_make_all. reflexivity.
Qed.

Lemma u16_split (v : Z) :
  is_u16 v ->
  is_u8 (u8 v) /\ u8 (Z.shiftr v 8) * 256 + u8 v = v.
Proof.
  unfold is_u16, is_u8, u8. intros H.
  rewrite Z.shiftr_div_pow2 by lia. change (2 ^ 8) with 256.
  pose proof (Z.mod_pos_bound v 256 ltac:(lia)).
  rewrite (Z.mod_small (v / 256)).
  - pose proof (Z.div_mod v 256). lia.
  - split; [apply Z.div_pos; lia | apply Z.div_lt_upper_bound; lia].
Qed.

(** What a ConfigArg becomes on the wire and back: everything is preserved
    but the version, of which the low nibble survives. *)
Lemma ConfigArg_roundtrip_mod16 (c : ConfigArg.t) :
  ConfigArg.well_typed c -> ConfigArg.encodable c ->
  exists b,
    ConfigArg.MarshalBinary c = Ok b
    /\ ConfigArg.UnmarshalBinary b
       = Ok {| ConfigArg.BufferCount := ConfigArg.BufferCount c;
               ConfigArg.FirmwareVersion := ConfigArg.FirmwareVersion c;
               ConfigArg.SectorCount := ConfigArg.SectorCount c;
               ConfigArg.Version := ConfigArg.Version c mod 16;
               ConfigArg.Command := ConfigArg.Command c;
               ConfigArg.StringLength := ConfigArg.StringLength c;
               ConfigArg.String := ConfigArg.String c |}.
Proof.
  intros (Hbc & Hfv & Hsc & Hv & Hcmd & Hsl & Hstr) Henc.
  eexists. split; [apply ConfigArg_MarshalBinary_bytes; exact Henc |].
  destruct Henc as (Hc15 & Hlen & Hmax).
  destruct (u16_split _ Hbc) as [Hb1 Hb2].
  destruct (u16_split _ Hfv) as [Hf1 Hf2].
  destruct (u16_split _ Hsl) as [Hs1 Hs2].
  cbn [app].
  rewrite ConfigArg_UnmarshalBinary_bytes; try assumption; try lia.
  destruct (nibbles (ConfigArg.Version c) (ConfigArg.Command c) Hv
              ltac:(unfold is_u8 in Hcmd; lia)) as (Hn1 & Hn2 & _).
  unfold ConfigArg_vc.
  rewrite Hn1, Hn2, Hb2, Hf2, <- Hlen. reflexivity.
Qed.

(** C10. For every ConfigArg that satisfies the documented encode
    preconditions, encoding succeeds (no check looks at the version), byte 5
    carries [Version << 4] truncated to 8 bits, decoding the encoding
    succeeds and yields the version modulo 16; so the version survives the
    round trip exactly when it is at most 15. *)
Theorem ConfigArg_version_low_nibble (c : ConfigArg.t) :
  ConfigArg.well_typed c -> ConfigArg.encodable c ->
  exists (b : list Z) (c' : ConfigArg.t),
    ConfigArg.MarshalBinary c = Ok b
    /\ b !! 5%nat
       = Some (Z.lor ((ConfigArg.Version c * 16) mod 256)
                     (ConfigArg.Command c))
    /\ ConfigArg.UnmarshalBinary b = Ok c'
    /\ ConfigArg.Version c' = ConfigArg.Version c mod 16
    /\ (ConfigArg.Version c' = ConfigArg.Version c
        <-> ConfigArg.Version c <= 15).
Proof.
  intros Hwt Henc.
  destruct (ConfigArg_roundtrip_mod16 c Hwt Henc) as (b & Hm & Hu).
  exists b. eexists. split; [exact Hm |].
  split.
  - rewrite (ConfigArg_MarshalBinary_bytes c Henc) in Hm.
    injection Hm as <-. cbn [app lookup list_lookup].
    unfold ConfigArg_vc, u8.
    rewrite Z.lor_0_l, Z.shiftl_mul_pow2 by lia. reflexivity.
  - split; [exact Hu |]. cbn [ConfigArg.Version].
    split; [reflexivity |].
    destruct Hwt as (_ & _ & _ & Hv & _). unfold is_u8 in Hv.
    pose proof (Z.mod_pos_bound (ConfigArg.Version c) 16 ltac:(lia)).
    split; intros H'.
    + lia.
    + apply Z.mod_small. lia.
Qed.

Lemma ConfigArg_version_low_nibble_witness :
  exists (b : list Z) (c' : ConfigArg.t),
    ConfigArg.MarshalBinary (ConfigArg.mk 10 1 2 0x21 2 3 [0x66; 0x6f; 0x6f])
    = Ok b
    /\ b !! 5%nat = Some (Z.lor ((0x21 * 16) mod 256) 2)
    /\ ConfigArg.UnmarshalBinary b = Ok c'
    /\ ConfigArg.Version c' = 0x21 mod 16
    /\ (ConfigArg.Version c' = 0x21 <-> 0x21 <= 15).
Proof.
  apply (ConfigArg_version_low_nibble
           (ConfigArg.mk 10 1 2 0x21 2 3 [0x66; 0x6f; 0x6f])).
  - unfold ConfigArg.well_typed, is_u16, is_u8, bytes_ok.
    cbn [ConfigArg.BufferCount ConfigArg.FirmwareVersion
         ConfigArg.SectorCount ConfigArg.Version ConfigArg.Command
         ConfigArg.StringLength ConfigArg.String].
    repeat split; try lia.
    repeat (constructor; [unfold is_u8; lia |]). constructor.
  - unfold ConfigArg.encodable.
    cbn [ConfigArg.Command ConfigArg.StringLength ConfigArg.String length].
    lia.
Defined.

(** ** Directive and MACMaskArg: wire image and round trip *)

Lemma Directive_MarshalBinary_bytes (d : Directive.t) :
  length (Directive.MAC d) = 6%nat ->
  Directive.MarshalBinary d = Ok (Directive_bytes d).
Proof.
  intros H. unfold Directive.MarshalBinary, Directive_bytes.
  rewrite H. cbn [Nat.eqb negb Slice.make directiveLen Nat.add replicate].
  unfold Slice.store.
  cbn [length Nat.ltb Nat.leb bind insert list_insert].
  pose proof (copy_from_app [0; Directive.Command d] [0; 0; 0; 0; 0; 0]
                (Directive.MAC d)) as Hc.
  cbn [app length] in Hc. rewrite Hc by (symmetry; exact H).
  reflexivity.
Qed.

Lemma Directive_UnmarshalBinary_bytes (d : Directive.t) :
  length (Directive.MAC d) = 6%nat ->
  Directive.UnmarshalBinary (Directive_bytes d) = Ok d.
Proof.
  intros H. unfold Directive.UnmarshalBinary, Directive_bytes.
  cbn [length]. rewrite H.
  cbn [Nat.eqb negb directiveLen Nat.add].
  cbn [Slice.index lookup list_lookup bind Z.eqb negb].
  rewrite slice_from_ok by (cbn [length]; lia).
  cbn [bind drop]. rewrite drop_0, <- H, copy_make_all.
  destruct d. reflexivity.
Qed.

Lemma length_Directive_bytes (d : Directive.t) :
  length (Directive.MAC d) = 6%nat -> length (Directive_bytes d) = 8%nat.
Proof. intros H. unfold Directive_bytes. cbn [length]. lia. Qed.

Lemma length_directives_bytes (ds : list Directive.t) :
  Forall Directive.encodable ds ->
  length (flat_map Directive_bytes ds) = (8 * length ds)%nat.
Proof.
  induction 1 as [| d ds Hd _ IH]; [reflexivity |].
  cbn [flat_map]. rewrite length_app, IH, length_Directive_bytes by exact Hd.
  cbn [length]. lia.
Qed.

(** The encoding loop, when the buffer has room for every directive that
    is left. *)
Lemma marshal_directives_bytes (ds : list Directive.t) :
  Forall Directive.encodable ds ->
  forall pre : list Z,
    MACMaskArg.marshal_directives ds
      (pre ++ replicate (8 * length ds) 0) (length pre)
    = Ok (pre ++ flat_map Directive_bytes ds).
Proof.
  induction 1 as [| d ds Hd _ IH]; intros pre.
  - cbn. reflexivity.
  - cbn [MACMaskArg.marshal_directives flat_map].
    rewrite Directive_MarshalBinary_bytes by exact Hd. cbn [bind].
    replace (8 * length (d :: ds))%nat with (8 + 8 * length ds)%nat
      by (cbn [length]; lia).
    rewrite replicate_add.
    replace (length pre + directiveLen)%nat
      with (length pre + length (replicate 8 0))%nat
      by (rewrite length_replicate; reflexivity).
    rewrite copy_at_app
      by (rewrite length_replicate, length_Directive_bytes; auto).
    cbn [bind]. rewrite length_replicate.
    rewrite app_assoc.
    replace (length pre + 8)%nat
      with (length (pre ++ Directive_bytes d))
      by (rewrite length_app, length_Directive_bytes; auto).
    rewrite IH. rewrite <- app_assoc. reflexivity.
Qed.

(** The decoding loop over the image of the directives. *)
Lemma unmarshal_directives_bytes (ds : list Directive.t) :
  Forall Directive.encodable ds ->
  forall (pre : list Z) (i : nat),
    length pre = (4 + i * directiveLen)%nat ->
    MACMaskArg.unmarshal_directives
      (pre ++ flat_map Directive_bytes ds) i (length ds)
    = Ok ds.
Proof.
  induction 1 as [| d ds Hd _ IH]; intros pre i Hpre.
  - reflexivity.
  - cbn [length MACMaskArg.unmarshal_directives flat_map].
    rewrite <- Hpre.
    replace (length pre + directiveLen)%nat
      with (length pre + length (Directive_bytes d))%nat
      by (rewrite length_Directive_bytes; auto).
    rewrite slice_app. cbn [bind].
    rewrite Directive_UnmarshalBinary_bytes by exact Hd. cbn [bind].
    rewrite app_assoc.
    rewrite (IH (pre ++ Directive_bytes d) (S i)).
    + reflexivity.
    + rewrite length_app, length_Directive_bytes, Hpre by exact Hd.
      unfold directiveLen. lia.
Qed.

Lemma MACMaskArg_MarshalBinary_bytes (m : MACMaskArg.t) :
  MACMaskArg.encodable m -> MACMaskArg.DirCount m <= 31 ->
  MACMaskArg.MarshalBinary m
  = Ok ([0; MACMaskArg.Command m; MACMaskArg.Error m; MACMaskArg.DirCount m]
        ++ flat_map Directive_bytes (MACMaskArg.Directives m)).
Proof.
  intros [Hcnt Hmac] Hmax. unfold MACMaskArg.MarshalBinary.
  rewrite Hcnt at 1. rewrite Z.eqb_refl. cbn [negb].
  assert (Hlen :
    Z.to_nat (u8 (Z.of_nat macMaskArgLen
                  + u8 (Z.of_nat directiveLen * MACMaskArg.DirCount m)))
    = (4 + 8 * length (MACMaskArg.Directives m))%nat).
  { unfold u8.
    change (Z.of_nat macMaskArgLen) with 4.
    change (Z.of_nat directiveLen) with 8.
    rewrite (Z.mod_small (8 * MACMaskArg.DirCount m)) by lia.
    rewrite Z.mod_small by lia. lia. }
  rewrite Hlen. unfold Slice.make. rewrite replicate_add.
  cbn [replicate app]. unfold Slice.store.
  cbn [length Nat.ltb Nat.leb bind insert list_insert].
  apply (marshal_directives_bytes _ Hmac
           [0; MACMaskArg.Command m; MACMaskArg.Error m;
            MACMaskArg.DirCount m]).
Qed.

Lemma MACMaskArg_roundtrip (m : MACMaskArg.t) :
  MACMaskArg_valid m ->
  exists b,
    MACMaskArg.MarshalBinary m = Ok b /\ MACMaskArg.UnmarshalBinary b = Ok m.
Proof.
  intros (Hwt & Henc & Hmax).
  eexists. split; [apply MACMaskArg_MarshalBinary_bytes; assumption |].
  destruct Henc as [Hcnt Hmac].
  unfold MACMaskArg.UnmarshalBinary.
  cbn [app length Nat.ltb Nat.leb macMaskArgLen Nat.add].
  cbn [Slice.index lookup list_lookup bind Z.eqb negb].
  rewrite slice_from_ok by (cbn [length]; lia).
  cbn [bind drop]. rewrite drop_0.
  rewrite length_directives_bytes by exact Hmac.
  replace (Z.of_nat (8 * length (MACMaskArg.Directives m))
           =? Z.of_nat directiveLen * MACMaskArg.DirCount m) with true
    by (symmetry; apply Z.eqb_eq; change (Z.of_nat directiveLen) with 8;
        lia).
  cbn [negb].
  replace (Z.to_nat (MACMaskArg.DirCount m))
    with (length (MACMaskArg.Directives m)) by lia.
  pose proof (unmarshal_directives_bytes _ Hmac
                [0; MACMaskArg.Command m; MACMaskArg.Error m;
                 MACMaskArg.DirCount m] 0%nat eq_refl) as Hu.
  cbn [app] in Hu. rewrite Hu.
  cbn [bind]. destruct m. reflexivity.
Qed.

(** ** ReserveReleaseArg: wire image and round trip *)

Lemma length_concat_macs (ms : list (list Z)) :
  Forall ReserveReleaseArg.mac_ok ms -> length (concat ms) = (6 * length ms)%nat.
Proof.
  induction 1 as [| m ms Hm _ IH]; [reflexivity |].
  unfold ReserveReleaseArg.mac_ok in Hm. cbn [concat]. rewrite length_app, IH, Hm. cbn [length]. lia.
Qed.

Lemma marshal_macs_bytes (ms : list (list Z)) :
  Forall ReserveReleaseArg.mac_ok ms ->
  forall pre : list Z,
    ReserveReleaseArg.marshal_macs ms
      (pre ++ replicate (6 * length ms) 0) (length pre)
    = Ok (pre ++ concat ms).
Proof.
  induction 1 as [| m ms Hm _ IH]; intros pre.
  - cbn. reflexivity.
  - unfold ReserveReleaseArg.mac_ok in Hm. cbn [ReserveReleaseArg.marshal_macs concat].
    rewrite Hm. cbn [Nat.eqb negb].
    replace (6 * length (m :: ms))%nat with (6 + 6 * length ms)%nat
      by (cbn [length]; lia).
    rewrite replicate_add.
    replace (length pre + 6)%nat
      with (length pre + length (replicate 6 0))%nat at 1
      by (rewrite length_replicate; reflexivity).
    rewrite copy_at_app by (rewrite length_replicate; auto).
    cbn [bind]. rewrite app_assoc.
    replace (length pre + 6)%nat with (length (pre ++ m))
      by (rewrite length_app, Hm; reflexivity).
    rewrite IH. rewrite <- app_assoc. reflexivity.
Qed.

Lemma unmarshal_macs_bytes (ms : list (list Z)) :
  Forall ReserveReleaseArg.mac_ok ms ->
  forall (pre : list Z) (i : nat),
    length pre = (2 + i * 6)%nat ->
    ReserveReleaseArg.unmarshal_macs (pre ++ concat ms) i (length ms)
    = Ok ms.
Proof.
  induction 1 as [| m ms Hm _ IH]; intros pre i Hpre.
  - reflexivity.
  - unfold ReserveReleaseArg.mac_ok in Hm.
    cbn [length ReserveReleaseArg.unmarshal_macs concat].
    rewrite <- Hpre.
    replace (length pre + 6)%nat with (length pre + length m)%nat
      by (rewrite Hm; reflexivity).
    rewrite slice_app. cbn [bind].
    replace (Slice.make 6) with (Slice.make (length m))
      by (rewrite Hm; reflexivity).
    rewrite copy_make_all, app_assoc.
    rewrite (IH (pre ++ m) (S i)).
    + reflexivity.
    + rewrite length_app, Hm, Hpre. lia.
Qed.

Lemma ReserveReleaseArg_MarshalBinary_bytes (r : ReserveReleaseArg.t) :
  ReserveReleaseArg.encodable r -> ReserveReleaseArg.NMACs r <= 42 ->
  ReserveReleaseArg.MarshalBinary r
  = Ok ([ReserveReleaseArg.Command r; ReserveReleaseArg.NMACs r]
        ++ concat (ReserveReleaseArg.MACs r)).
Proof.
  intros [Hcnt Hmac] Hmax. unfold ReserveReleaseArg.MarshalBinary.
  rewrite Hcnt at 1. rewrite Z.eqb_refl. cbn [negb].
  assert (Hlen :
    Z.to_nat (u8 (Z.of_nat reserveReleaseArgLen
                  + u8 (ReserveReleaseArg.NMACs r * 6)))
    = (2 + 6 * length (ReserveReleaseArg.MACs r))%nat).
  { unfold u8.
    change (Z.of_nat reserveReleaseArgLen) with 2.
    rewrite (Z.mod_small (ReserveReleaseArg.NMACs r * 6)) by lia.
    rewrite Z.mod_small by lia. lia. }
  rewrite Hlen. unfold Slice.make. rewrite replicate_add.
  cbn [replicate app]. unfold Slice.store.
  cbn [length Nat.ltb Nat.leb bind insert list_insert].
  apply (marshal_macs_bytes _ Hmac
           [ReserveReleaseArg.Command r; ReserveReleaseArg.NMACs r]).
Qed.

Lemma ReserveReleaseArg_roundtrip (r : ReserveReleaseArg.t) :
  ReserveReleaseArg_valid r ->
  exists b,
    ReserveReleaseArg.MarshalBinary r = Ok b
    /\ ReserveReleaseArg.UnmarshalBinary b = Ok r.
Proof.
  intros (Hwt & Henc & Hmax).
  eexists. split; [apply ReserveReleaseArg_MarshalBinary_bytes; assumption |].
  destruct Henc as [Hcnt Hmac].
  unfold ReserveReleaseArg.UnmarshalBinary.
  cbn [app length Nat.ltb Nat.leb reserveReleaseArgLen].
  cbn [Slice.index lookup list_lookup bind].
  rewrite slice_from_ok by (cbn [length]; lia).
  cbn [bind drop]. rewrite drop_0.
  rewrite length_concat_macs by exact Hmac.
  replace (Z.of_nat (6 * length (ReserveReleaseArg.MACs r))
           =? 6 * ReserveReleaseArg.NMACs r) with true
    by (symmetry; apply Z.eqb_eq; lia).
  cbn [negb].
  replace (Z.to_nat (ReserveReleaseArg.NMACs r))
    with (length (ReserveReleaseArg.MACs r)) by lia.
  pose proof (unmarshal_macs_bytes _ Hmac
                [ReserveReleaseArg.Command r; ReserveReleaseArg.NMACs r]
                0%nat eq_refl) as Hu.
  cbn [app] in Hu. rewrite Hu.
  cbn [bind]. destruct r. reflexivity.
Qed.

(** ** Encoders on large counts *)

Lemma length_copy_at (b : list Z) (lo hi : nat) (src b' : list Z) :
  Slice.copy_at b lo hi src = Ok b' -> length src = (hi - lo)%nat ->
  length b' = length b.
Proof.
  unfold Slice.copy_at, Slice.slice.
  destruct (lo <=? hi)%nat eqn:H1; [| discriminate].
  destruct (hi <=? length b)%nat eqn:H2; [| discriminate].
  apply Nat.leb_le in H1, H2. cbn [andb bind].
  intros Heq Hsrc. injection Heq as <-.
  rewrite copy_same_length
    by (rewrite length_take, length_drop; lia).
  rewrite !length_app, length_take, length_drop. lia.
Qed.

(** The address loop runs out of buffer: it panics at the first address
    that does not fit. *)
Lemma marshal_macs_overflow (ms : list (list Z)) :
  Forall ReserveReleaseArg.mac_ok ms ->
  forall (b : list Z) (n : nat),
    (n <= length b < n + 6 * length ms)%nat ->
    ReserveReleaseArg.marshal_macs ms b n = Panic.
Proof.
  induction 1 as [| m ms Hm _ IH]; intros b n Hb.
  - cbn [length] in Hb. lia.
  - unfold ReserveReleaseArg.mac_ok in Hm.
    cbn [ReserveReleaseArg.marshal_macs]. rewrite Hm. cbn [Nat.eqb negb].
    destruct (Slice.copy_at b n (n + 6) m) as [b' | e |] eqn:Hc.
    + cbn [bind].
      pose proof (length_copy_at _ _ _ _ _ Hc ltac:(lia)) as Hlen.
      assert (Hfit : (n + 6 <= length b)%nat).
      { unfold Slice.copy_at, Slice.slice in Hc.
        destruct (n + 6 <=? length b)%nat eqn:H2.
        - apply Nat.leb_le in H2. exact H2.
        - rewrite andb_false_r in Hc. discriminate. }
      apply IH. cbn [length] in Hb. lia.
    + unfold Slice.copy_at, Slice.slice in Hc.
      destruct ((n <=? n + 6)%nat && (n + 6 <=? length b)%nat)%bool;
        discriminate.
    + reflexivity.
Qed.

(** [ReserveReleaseArg.MarshalBinary] panics on every encodable value with
    43 addresses or more. *)
Lemma ReserveReleaseArg_MarshalBinary_panics (r : ReserveReleaseArg.t) :
  ReserveReleaseArg.encodable r ->
  43 <= ReserveReleaseArg.NMACs r <= 255 ->
  ReserveReleaseArg.MarshalBinary r = Panic.
Proof.
  intros [Hcnt Hmac] Hn. unfold ReserveReleaseArg.MarshalBinary.
  rewrite Hcnt at 1. rewrite Z.eqb_refl. cbn [negb].
  set (len := Z.to_nat (u8 (Z.of_nat reserveReleaseArgLen
                            + u8 (ReserveReleaseArg.NMACs r * 6)))).
  assert (Hlen : (len < 256)%nat).
  { subst len. unfold u8.
    pose proof (Z.mod_pos_bound
                  (Z.of_nat reserveReleaseArgLen
                   + (ReserveReleaseArg.NMACs r * 6) mod 256) 256
                  ltac:(lia)).
    lia. }
  destruct (Slice.store (Slice.make len) 0 (ReserveReleaseArg.Command r))
    as [b0 | e |] eqn:H0; cbn [bind]; [| | reflexivity].
  2:{ unfold Slice.store in H0.
      destruct (0 <? length (Slice.make len))%nat; discriminate. }
  destruct (Slice.store b0 1 (ReserveReleaseArg.NMACs r))
    as [b1 | e |] eqn:H1; cbn [bind]; [| | reflexivity].
  2:{ unfold Slice.store in H1.
      destruct (1 <? length b0)%nat; discriminate. }
  unfold Slice.store in H0, H1.
  destruct (0 <? length (Slice.make len))%nat; [| discriminate].
  injection H0 as <-.
  rewrite length_insert, length_make in H1.
  destruct (1 <? len)%nat eqn:Hl; [| discriminate].
  apply Nat.ltb_lt in Hl. injection H1 as <-.
  apply (marshal_macs_overflow _ Hmac).
  rewrite !length_insert, length_make. lia.
Qed.

Lemma marshal_directives_overflow (ds : list Directive.t) :
  Forall Directive.encodable ds ->
  forall (b : list Z) (n : nat),
    (n <= length b < n + 8 * length ds)%nat ->
    MACMaskArg.marshal_directives ds b n = Panic.
Proof.
  induction 1 as [| d ds Hd _ IH]; intros b n Hb.
  - cbn [length] in Hb. lia.
  - cbn [MACMaskArg.marshal_directives].
    rewrite Directive_MarshalBinary_bytes by exact Hd. cbn [bind].
    pose proof (length_Directive_bytes d Hd) as Hdb.
    change directiveLen with 8%nat.
    destruct (Slice.copy_at b n (n + 8) (Directive_bytes d))
      as [b' | e |] eqn:Hc.
    + cbn [bind].
      pose proof (length_copy_at _ _ _ _ _ Hc ltac:(lia)) as Hlen.
      assert (Hfit : (n + 8 <= length b)%nat).
      { unfold Slice.copy_at, Slice.slice in Hc.
        destruct (n + 8 <=? length b)%nat eqn:H2.
        - apply Nat.leb_le in H2. exact H2.
        - rewrite andb_false_r in Hc. discriminate. }
      apply IH. cbn [length] in Hb. lia.
    + unfold Slice.copy_at, Slice.slice in Hc.
      destruct ((n <=? n + 8)%nat && (n + 8 <=? length b)%nat)%bool;
        discriminate.
    + reflexivity.
Qed.

(** [MACMaskArg.MarshalBinary] panics on every encodable value with 32
    directives or more. *)
Lemma MACMaskArg_MarshalBinary_panics (m : MACMaskArg.t) :
  MACMaskArg.encodable m ->
  32 <= MACMaskArg.DirCount m <= 255 ->
  MACMaskArg.MarshalBinary m = Panic.
Proof.
  intros [Hcnt Hmac] Hn. unfold MACMaskArg.MarshalBinary.
  rewrite Hcnt at 1. rewrite Z.eqb_refl. cbn [negb].
  set (len := Z.to_nat (u8 (Z.of_nat macMaskArgLen
                            + u8 (Z.of_nat directiveLen
                                  * MACMaskArg.DirCount m)))).
  assert (Hlen : (len < 256)%nat).
  { subst len. unfold u8.
    pose proof (Z.mod_pos_bound
                  (Z.of_nat macMaskArgLen
                   + (Z.of_nat directiveLen * MACMaskArg.DirCount m)
                     mod 256) 256 ltac:(lia)).
    lia. }
  unfold Slice.store.
  repeat match goal with
         | |- context [(?i <? length ?b)%nat] =>
             destruct (i <? length b)%nat eqn:?; cbn [bind];
             [| reflexivity]
         end.
  apply (marshal_directives_overflow _ Hmac).
  rewrite !length_insert, length_make.
  match goal with
  | H : (3 <? _)%nat = true |- _ =>
      rewrite !length_insert, length_make in H; apply Nat.ltb_lt in H
  end.
  lia.
Qed.

(** ** Header: wire image and round trip *)

Lemma Header_MarshalBinary_bytes (h : Header.t) (a : Arg.t) (ab : list Z) :
  Header.Version h = aoe.Version -> Header.Arg h = Some a ->
  Arg.MarshalBinary a = Ok ab ->
  Header.MarshalBinary h = Ok (Header_prefix h ++ ab).
Proof.
  intros Hv Ha Hab.
  unfold Header.MarshalBinary, Header_prefix, Header_vf.
  rewrite Hv, Z.eqb_refl, Ha, Hab. cbn [negb bind].
  destruct (Header.Tag h) as [[[t0 t1] t2] t3].
  cbn [Slice.make headerLen Nat.add replicate].
  unfold Slice.store.
  cbn [length Nat.ltb Nat.leb bind insert list_insert].
  put_uint16.
  cbn [length Nat.ltb Nat.leb bind insert list_insert].
  match goal with
  | |- context [Slice.copy_at (?x0 :: ?x1 :: ?x2 :: ?x3 :: ?x4 :: ?x5 ::
                  ?z0 :: ?z1 :: ?z2 :: ?z3 :: ?post) 6 10 ?src] =>
      pose proof (copy_at_app [x0; x1; x2; x3; x4; x5] [z0; z1; z2; z3]
                    post src eq_refl) as Hc
  end.
  cbn [app length Nat.add] in Hc. rewrite Hc. cbn [bind app].
  match goal with
  | |- context [Slice.copy_from (?x0 :: ?x1 :: ?x2 :: ?x3 :: ?x4 :: ?x5 ::
                  ?x6 :: ?x7 :: ?x8 :: ?x9 :: ?z) _ ?src] =>
      pose proof (copy_from_app [x0; x1; x2; x3; x4; x5; x6; x7; x8; x9]
                    z src) as Hd
  end.
  cbn [app length] in Hd. rewrite Hd by apply length_replicate.
  reflexivity.
Qed.

Lemma Header_vf_decode (h : Header.t) :
  Header.Version h = aoe.Version ->
  Z.shiftr (Header_vf h) 4 = 1
  /\ negb (Z.land (Header_vf h) 0x08 =? 0) = Header.FlagResponse h
  /\ negb (Z.land (Header_vf h) 0x04 =? 0) = Header.FlagError h.
Proof.
  intros Hv. unfold Header_vf. rewrite Hv.
  destruct (Header.FlagResponse h), (Header.FlagError h);
    repeat split; reflexivity.
Qed.

Lemma Header_UnmarshalBinary_bytes (h : Header.t) (a : Arg.t)
    (ab : list Z) :
  Header.Version h = aoe.Version -> is_u16 (Header.Major h) ->
  Header.Arg h = Some a -> Header.Command h = Arg_command a ->
  Arg_UnmarshalBinary_as a ab = Ok a ->
  Header.UnmarshalBinary (Header_prefix h ++ ab) = Ok h.
Proof.
  intros Hv Hmaj Ha Hcmd Hdec.
  destruct (Header_vf_decode h Hv) as (Hv1 & Hfr & Hfe).
  destruct (u16_split _ Hmaj) as [Hm1 Hm2].
  unfold Header.UnmarshalBinary, Header_prefix.
  destruct h as [ver fr fe err maj mnr cmd [[[t0 t1] t2] t3] arg].
  cbn [Header.Version Header.FlagResponse Header.FlagError Header.Error
       Header.Major Header.Minor Header.Command Header.Tag Header.Arg] in *.
  cbn [app length Nat.ltb Nat.leb headerLen Nat.add].
  cbn [Slice.index lookup list_lookup bind].
  rewrite Hv1, Hfr, Hfe. cbn [aoe.Version Z.eqb Pos.eqb negb].
  unfold Slice.slice.
  cbn [length Nat.leb andb bind take drop Nat.sub].
  rewrite BigEndian_Uint16_pair by exact Hm1.
  cbn [bind Slice.index lookup list_lookup].
  rewrite slice_from_ok by (cbn [length]; lia).
  cbn [bind drop]. rewrite drop_0, Hm2.
  change (Slice.copy (Slice.make 4) [t0; t1; t2; t3]) with [t0; t1; t2; t3].
  cbn [lookup_total list_lookup_total].
  subst arg cmd ver.
  destruct a as [x | c | m | r]; cbn [Arg_command Arg_UnmarshalBinary_as] in *;
    cbn [CommandIssueATACommand CommandQueryConfigInformation
         CommandMACMaskList CommandReserveRelease Z.eqb Pos.eqb];
    rewrite Hdec; reflexivity.
Qed.

Lemma Arg_roundtrip (a : Arg.t) :
  Arg_valid a ->
  exists ab, Arg.MarshalBinary a = Ok ab /\ Arg_UnmarshalBinary_as a ab = Ok a.
Proof.
  destruct a as [x | c | m | r]; cbn [Arg_valid Arg.MarshalBinary
                                      Arg_UnmarshalBinary_as].
  - intros _. destruct (ATAArg_roundtrip x) as (b & Hm & Hu).
    exists b. rewrite Hu. auto.
  - intros (Hwt & Henc & Hv).
    destruct (ConfigArg_roundtrip_mod16 c Hwt Henc) as (b & Hm & Hu).
    exists b. rewrite Hu. split; [exact Hm |]. cbn [bind].
    destruct Hwt as (_ & _ & _ & Hv8 & _). unfold is_u8 in Hv8.
    rewrite Z.mod_small by lia. destruct c. reflexivity.
  - intros Hm. destruct (MACMaskArg_roundtrip m Hm) as (b & Hb & Hu).
    exists b. rewrite Hu. auto.
  - intros Hr. destruct (ReserveReleaseArg_roundtrip r Hr) as (b & Hb & Hu).
    exists b. rewrite Hu. auto.
Qed.

Lemma Header_roundtrip (h : Header.t) :
  Header_valid h ->
  exists b, Header.MarshalBinary h = Ok b /\ Header.UnmarshalBinary b = Ok h.
Proof.
  intros (Hv & _ & Hmaj & _ & _ & a & Ha & Hval & Hcmd).
  destruct (Arg_roundtrip a Hval) as (ab & Hm & Hu).
  exists (Header_prefix h ++ ab). split.
  - exact (Header_MarshalBinary_bytes h a ab Hv Ha Hm).
  - exact (Header_UnmarshalBinary_bytes h a ab Hv Hmaj Ha Hcmd Hu).
Qed.

(** C2, as the code has it. Decoding the encoding gives the value back:
    for every ATAArg; for every ConfigArg that meets the encode
    preconditions and whose version is at most 15; for every MACMaskArg
    with [DirCount] = number of directives, 6-byte addresses and at most 31
    directives; for every ReserveReleaseArg with [NMACs] = number of
    addresses, 6-byte addresses and at most 42 addresses; and for every
    Header of version 1 whose argument is valid in this sense and whose
    command is the code of the argument's variant. *)
Theorem codec_roundtrip :
  (forall a : ATAArg.t,
     exists b,
       ATAArg.MarshalBinary a = Ok b /\ ATAArg.UnmarshalBinary b = Ok a)
  /\ (forall c : ConfigArg.t,
        ConfigArg_valid c ->
        exists b,
          ConfigArg.MarshalBinary c = Ok b
          /\ ConfigArg.UnmarshalBinary b = Ok c)
  /\ (forall m : MACMaskArg.t,
        MACMaskArg_valid m ->
        exists b,
          MACMaskArg.MarshalBinary m = Ok b
          /\ MACMaskArg.UnmarshalBinary b = Ok m)
  /\ (forall r : ReserveReleaseArg.t,
        ReserveReleaseArg_valid r ->
        exists b,
          ReserveReleaseArg.MarshalBinary r = Ok b
          /\ ReserveReleaseArg.UnmarshalBinary b = Ok r)
  /\ (forall h : Header.t,
        Header_valid h ->
        exists b,
          Header.MarshalBinary h = Ok b /\ Header.UnmarshalBinary b = Ok h).
Proof.
  split; [exact ATAArg_roundtrip |].
  split.
  { intros c Hc. destruct (Arg_roundtrip (Arg.Config c) Hc) as (b & Hm & Hu).
    exists b. split; [exact Hm |].
    cbn [Arg_UnmarshalBinary_as] in Hu.
    destruct (ConfigArg.UnmarshalBinary b); cbn [bind] in Hu;
      congruence. }
  split; [exact MACMaskArg_roundtrip |].
  split; [exact ReserveReleaseArg_roundtrip | exact Header_roundtrip].
Qed.

(** Closes a validity goal about a concrete value. *)
Ltac solve_valid :=
  cbv [ConfigArg_valid MACMaskArg_valid ReserveReleaseArg_valid Header_valid
       Arg_valid ConfigArg.well_typed ConfigArg.encodable
       MACMaskArg.well_typed MACMaskArg.encodable Directive.well_typed
       Directive.encodable ReserveReleaseArg.well_typed
       ReserveReleaseArg.encodable ReserveReleaseArg.mac_ok
       ATAArg.well_typed array6_ok array4_ok bytes_ok is_u8 is_u16];
  repeat match goal with
         | |- _ /\ _ => split
         | |- Forall _ _ => constructor
         | |- exists _, _ => eexists
         | |- _ = _ => reflexivity
         | |- _ =>
             cbn;
             unfold aoe.Version, CommandIssueATACommand,
               CommandQueryConfigInformation, CommandMACMaskList,
               CommandReserveRelease;
             lia
         end.

Lemma codec_roundtrip_witness :
  (exists b,
     ConfigArg.MarshalBinary config_foo = Ok b
     /\ ConfigArg.UnmarshalBinary b = Ok config_foo)
  /\ (exists b,
        MACMaskArg.MarshalBinary mac_mask_one = Ok b
        /\ MACMaskArg.UnmarshalBinary b = Ok mac_mask_one)
  /\ (exists b,
        ReserveReleaseArg.MarshalBinary reserve_release_three = Ok b
        /\ ReserveReleaseArg.UnmarshalBinary b = Ok reserve_release_three)
  /\ (exists b,
        Header.MarshalBinary header_config = Ok b
        /\ Header.UnmarshalBinary b = Ok header_config).
Proof.
  split; [| split; [| split]].
  - apply (proj1 (proj2 codec_roundtrip) config_foo). solve_valid.
  - apply (proj1 (proj2 (proj2 codec_roundtrip)) mac_mask_one). solve_valid.
  - apply (proj1 (proj2 (proj2 (proj2 codec_roundtrip)))
             reserve_release_three).
    solve_valid.
  - apply (proj2 (proj2 (proj2 (proj2 codec_roundtrip))) header_config).
    solve_valid.
Defined.

(** The round trip of C2 as stated fails on values that the specification
    counts as valid. A ConfigArg with version 16 meets the documented
    preconditions and comes back with version 0. A Header of version 1 with
    a valid ATAArg and command code 1 comes back with a ConfigArg. *)
Lemma codec_roundtrip_counterexample :
  (ConfigArg.well_typed config_version_16
   /\ ConfigArg.encodable config_version_16
   /\ exists b c',
        ConfigArg.MarshalBinary config_version_16 = Ok b
        /\ ConfigArg.UnmarshalBinary b = Ok c'
        /\ ConfigArg.Version c' = 0
        /\ c' <> config_version_16)
  /\ (Header.Version header_mismatch = 1
      /\ exists b h',
           Header.MarshalBinary header_mismatch = Ok b
           /\ Header.UnmarshalBinary b = Ok h'
           /\ h' <> header_mismatch).
Proof.
  split.
  - split; [solve_valid |]. split; [solve_valid |].
    eexists. eexists.
    split; [vm_compute; reflexivity |].
    split; [vm_compute; reflexivity |].
    split; [reflexivity | discriminate].
  - split; [reflexivity |].
    eexists. eexists.
    split; [vm_compute; reflexivity |].
    split; [vm_compute; reflexivity | discriminate].
Qed.

(** ** What the decoders return *)

Lemma bytes_ok_lookup (b : list Z) (i : nat) (v : Z) :
  bytes_ok b -> b !! i = Some v -> is_u8 v.
Proof.
  unfold bytes_ok. rewrite Forall_lookup. intros H Hv. exact (H i v Hv).
Qed.

(** A decoded ConfigArg meets the encode preconditions. *)
Lemma ConfigArg_decoded_encodable (b : list Z) (c : ConfigArg.t) :
  bytes_ok b -> ConfigArg.UnmarshalBinary b = Ok c -> ConfigArg.encodable c.
Proof.
  intros Hb. unfold ConfigArg.UnmarshalBinary.
  destruct (length b <? configArgLen)%nat eqn:Hlen; [discriminate |].
  apply Nat.ltb_ge in Hlen. unfold configArgLen in Hlen. cbn in Hlen.
  open_slice b Hlen 8.
  assert (H1 : is_u8 z0) by (apply (bytes_ok_lookup _ 1 _ Hb); reflexivity).
  assert (H3 : is_u8 z2) by (apply (bytes_ok_lookup _ 3 _ Hb); reflexivity).
  assert (H6 : is_u8 z5) by (apply (bytes_ok_lookup _ 6 _ Hb); reflexivity).
  assert (H7 : is_u8 z6) by (apply (bytes_ok_lookup _ 7 _ Hb); reflexivity).
  unfold Slice.slice.
  cbn [length Nat.leb andb bind take drop Nat.sub].
  rewrite !BigEndian_Uint16_pair by assumption.
  cbn [bind Slice.index lookup list_lookup].
  rewrite slice_from_ok by (cbn [length]; lia).
  cbn [bind drop]. rewrite drop_0.
  destruct (Z.ltb_spec (Z.of_nat (length b)) (z5 * 256 + z6));
    [discriminate |].
  destruct (Z.ltb_spec 1024 (z5 * 256 + z6)); [discriminate |].
  intros Hc. injection Hc as <-.
  unfold ConfigArg.encodable, is_u8 in *.
  cbn [ConfigArg.Command ConfigArg.StringLength ConfigArg.String].
  rewrite copy_make by lia. rewrite length_take.
  assert (Hland : Z.land z4 0x0f = z4 mod 16).
  { change 0x0f with (Z.ones 4). rewrite Z.land_ones by lia. reflexivity. }
  rewrite Hland.
  pose proof (Z.mod_pos_bound z4 16 ltac:(lia)). lia.
Qed.

Lemma unmarshal_directives_encodable (b : list Z) :
  forall (k i : nat) (ds : list Directive.t),
    MACMaskArg.unmarshal_directives b i k = Ok ds ->
    length ds = k /\ Forall Directive.encodable ds.
Proof.
  induction k as [| k IH]; intros i ds.
  - cbn. intros H. injection H as <-. split; [reflexivity | constructor].
  - cbn [MACMaskArg.unmarshal_directives].
    destruct (Slice.slice b _ _) as [s | |] eqn:Hs; cbn [bind];
      [| discriminate | discriminate].
    destruct (Directive.UnmarshalBinary s) as [d | |] eqn:Hd; cbn [bind];
      [| discriminate | discriminate].
    destruct (MACMaskArg.unmarshal_directives b (S i) k) as [ds' | |] eqn:Hr;
      cbn [bind]; [| discriminate | discriminate].
    intros H. injection H as <-.
    destruct (IH _ _ Hr) as [Hlen Hall].
    split; [cbn [length]; lia |].
    constructor; [| exact Hall].
    unfold Directive.UnmarshalBinary in Hd.
    destruct (length s =? directiveLen)%nat eqn:Hl; [| discriminate].
    apply Nat.eqb_eq in Hl. cbn [negb] in Hd.
    destruct (Slice.index s 0) as [b0 | |]; cbn [bind] in Hd;
      [| discriminate | discriminate].
    destruct (negb (b0 =? 0)); [discriminate |].
    destruct (Slice.index s 1) as [b1 | |]; cbn [bind] in Hd;
      [| discriminate | discriminate].
    rewrite slice_from_ok in Hd by (unfold directiveLen in Hl; lia).
    cbn [bind] in Hd. injection Hd as <-.
    unfold Directive.encodable. cbn [Directive.MAC].
    rewrite copy_make by (rewrite length_drop; unfold directiveLen in Hl; lia).
    rewrite length_take, length_drop. unfold directiveLen in Hl. lia.
Qed.

(** A decoded MACMaskArg meets the encode preconditions, and its count is
    the byte that was read. *)
Lemma MACMaskArg_decoded_encodable (b : list Z) (m : MACMaskArg.t) :
  bytes_ok b -> MACMaskArg.UnmarshalBinary b = Ok m ->
  MACMaskArg.encodable m /\ is_u8 (MACMaskArg.DirCount m).
Proof.
  intros Hb. unfold MACMaskArg.UnmarshalBinary.
  destruct (length b <? macMaskArgLen)%nat eqn:Hlen; [discriminate |].
  apply Nat.ltb_ge in Hlen. unfold macMaskArgLen in Hlen. cbn in Hlen.
  destruct (b !! 3%nat) as [b3 |] eqn:H3;
    [| apply lookup_ge_None in H3; lia].
  pose proof (bytes_ok_lookup _ _ _ Hb H3) as Hu.
  destruct (Slice.index b 0) as [b0 | |]; cbn [bind];
    [| discriminate | discriminate].
  destruct (negb (b0 =? 0)); [discriminate |].
  destruct (Slice.index b 1) as [b1 | |]; cbn [bind];
    [| discriminate | discriminate].
  destruct (Slice.index b 2) as [b2 | |]; cbn [bind];
    [| discriminate | discriminate].
  rewrite (index_Some _ _ _ H3). cbn [bind].
  destruct (Slice.slice_from b 4) as [tl | |]; cbn [bind];
    [| discriminate | discriminate].
  destruct (negb _); [discriminate |].
  destruct (MACMaskArg.unmarshal_directives b 0 (Z.to_nat b3))
    as [ds | |] eqn:Hds; cbn [bind]; [| discriminate | discriminate].
  intros H. injection H as <-.
  destruct (unmarshal_directives_encodable _ _ _ _ Hds) as [Hl Hall].
  unfold MACMaskArg.encodable, is_u8 in *.
  cbn [MACMaskArg.DirCount MACMaskArg.Directives].
  repeat split; try assumption; lia.
Qed.

Lemma unmarshal_macs_encodable (b : list Z) :
  forall (k i : nat) (ms : list (list Z)),
    ReserveReleaseArg.unmarshal_macs b i k = Ok ms ->
    length ms = k /\ Forall ReserveReleaseArg.mac_ok ms.
Proof.
  induction k as [| k IH]; intros i ms.
  - cbn. intros H. injection H as <-. split; [reflexivity | constructor].
  - cbn [ReserveReleaseArg.unmarshal_macs].
    destruct (Slice.slice b (2 + i * 6) (2 + i * 6 + 6)) as [s | |] eqn:Hs;
      cbn [bind]; [| discriminate | discriminate].
    destruct (ReserveReleaseArg.unmarshal_macs b (S i) k)
      as [ms' | |] eqn:Hr; cbn [bind]; [| discriminate | discriminate].
    intros H. injection H as <-.
    destruct (IH _ _ Hr) as [Hlen Hall].
    split; [cbn [length]; lia |].
    constructor; [| exact Hall].
    unfold Slice.slice in Hs.
    destruct (2 + i * 6 <=? 2 + i * 6 + 6)%nat eqn:H1; [| discriminate].
    destruct (2 + i * 6 + 6 <=? length b)%nat eqn:H2; [| discriminate].
    apply Nat.leb_le in H2. cbn [andb] in Hs. injection Hs as <-.
    unfold ReserveReleaseArg.mac_ok.
    rewrite copy_make by (rewrite length_take, length_drop; lia).
    rewrite !length_take, length_drop. lia.
Qed.

Lemma ReserveReleaseArg_decoded_encodable (b : list Z)
    (r : ReserveReleaseArg.t) :
  bytes_ok b -> ReserveReleaseArg.UnmarshalBinary b = Ok r ->
  ReserveReleaseArg.encodable r /\ is_u8 (ReserveReleaseArg.NMACs r).
Proof.
  intros Hb. unfold ReserveReleaseArg.UnmarshalBinary.
  destruct (length b <? reserveReleaseArgLen)%nat eqn:Hlen; [discriminate |].
  apply Nat.ltb_ge in Hlen. unfold reserveReleaseArgLen in Hlen.
  destruct (b !! 1%nat) as [b1 |] eqn:H1;
    [| apply lookup_ge_None in H1; lia].
  pose proof (bytes_ok_lookup _ _ _ Hb H1) as Hu.
  destruct (Slice.index b 0) as [b0 | |]; cbn [bind];
    [| discriminate | discriminate].
  rewrite (index_Some _ _ _ H1). cbn [bind].
  destruct (Slice.slice_from b 2) as [tl | |]; cbn [bind];
    [| discriminate | discriminate].
  destruct (negb _); [discriminate |].
  destruct (ReserveReleaseArg.unmarshal_macs b 0 (Z.to_nat b1))
    as [ms | |] eqn:Hms; cbn [bind]; [| discriminate | discriminate].
  intros H. injection H as <-.
  destruct (unmarshal_macs_encodable _ _ _ _ Hms) as [Hl Hall].
  unfold ReserveReleaseArg.encodable, is_u8 in *.
  cbn [ReserveReleaseArg.NMACs ReserveReleaseArg.MACs].
  repeat split; try assumption; lia.
Qed.

(** A decoded Header has version 1 and an argument that the decoder of its
    variant returned for the bytes after the 10-byte prefix. *)
Lemma Header_decoded (b : list Z) (h : Header.t) :
  Header.UnmarshalBinary b = Ok h ->
  Header.Version h = aoe.Version
  /\ exists a, Header.Arg h = Some a
               /\ Arg_UnmarshalBinary_as a (drop 10 b) = Ok a.
Proof.
  unfold Header.UnmarshalBinary.
  destruct (length b <? headerLen)%nat eqn:Hlen; [discriminate |].
  apply Nat.ltb_ge in Hlen. unfold headerLen in Hlen. cbn in Hlen.
  rewrite slice_from_ok by lia.
  destruct (Slice.index b 0) as [b0 | |]; cbn [bind];
    [| discriminate | discriminate].
  destruct (Z.eqb_spec (Z.shiftr b0 4) aoe.Version) as [Hv |];
    [| discriminate].
  cbn [negb].
  destruct (Slice.index b 1) as [b1 | |]; cbn [bind];
    [| discriminate | discriminate].
  destruct (Slice.slice b 2 4) as [s | |]; cbn [bind];
    [| discriminate | discriminate].
  destruct (binary.BigEndian_Uint16 s) as [major | |]; cbn [bind];
    [| discriminate | discriminate].
  destruct (Slice.index b 4) as [minor | |]; cbn [bind];
    [| discriminate | discriminate].
  destruct (Slice.index b 5) as [command | |]; cbn [bind];
    [| discriminate | discriminate].
  destruct (Slice.slice b 6 10) as [s' | |]; cbn [bind];
    [| discriminate | discriminate].
  destruct (command =? CommandIssueATACommand);
    [| destruct (command =? CommandQueryConfigInformation);
       [| destruct (command =? CommandMACMaskList);
          [| destruct (command =? CommandReserveRelease);
             [| discriminate]]]].
  - destruct (ATAArg.UnmarshalBinary (drop 10 b)) as [x | |] eqn:Hx;
      cbn [bind]; [| discriminate | discriminate].
    intros H. injection H as <-. split; [exact Hv |].
    eexists. split; [reflexivity |].
    cbn [Arg_UnmarshalBinary_as]. rewrite Hx. reflexivity.
  - destruct (ConfigArg.UnmarshalBinary (drop 10 b)) as [x | |] eqn:Hx;
      cbn [bind]; [| discriminate | discriminate].
    intros H. injection H as <-. split; [exact Hv |].
    eexists. split; [reflexivity |].
    cbn [Arg_UnmarshalBinary_as]. rewrite Hx. reflexivity.
  - destruct (MACMaskArg.UnmarshalBinary (drop 10 b)) as [x | |] eqn:Hx;
      cbn [bind]; [| discriminate | discriminate].
    intros H. injection H as <-. split; [exact Hv |].
    eexists. split; [reflexivity |].
    cbn [Arg_UnmarshalBinary_as]. rewrite Hx. reflexivity.
  - destruct (ReserveReleaseArg.UnmarshalBinary (drop 10 b))
      as [x | |] eqn:Hx; cbn [bind]; [| discriminate | discriminate].
    intros H. injection H as <-. split; [exact Hv |].
    eexists. split; [reflexivity |].
    cbn [Arg_UnmarshalBinary_as]. rewrite Hx. reflexivity.
Qed.

(** Fuzz stability, as far as it goes: a header that was decoded from bytes
    encodes again, unless its argument is a MACMaskArg with 32 directives or
    more or a ReserveReleaseArg with 43 addresses or more, in which case
    the encoder panics. *)
Lemma decoded_header_encodes (b : list Z) (h : Header.t) :
  bytes_ok b -> Header.UnmarshalBinary b = Ok h ->
  (exists out, Header.MarshalBinary h = Ok out)
  \/ (Header.MarshalBinary h = Panic
      /\ ((exists m, Header.Arg h = Some (Arg.MACMask m)
                     /\ 32 <= MACMaskArg.DirCount m)
          \/ (exists r, Header.Arg h = Some (Arg.ReserveRelease r)
                        /\ 43 <= ReserveReleaseArg.NMACs r))).
Proof.
  intros Hb Hdec.
  destruct (Header_decoded b h Hdec) as (Hv & a & Ha & Hda).
  assert (Htl : bytes_ok (drop 10 b)).
  { unfold bytes_ok in *. apply Forall_drop. exact Hb. }
  assert (Hok : forall ab, Arg.MarshalBinary a = Ok ab ->
                           exists out, Header.MarshalBinary h = Ok out).
  { intros ab Hab. eexists.
    exact (Header_MarshalBinary_bytes h a ab Hv Ha Hab). }
  assert (Hpanic : Arg.MarshalBinary a = Panic ->
                   Header.MarshalBinary h = Panic).
  { intros Hp. unfold Header.MarshalBinary.
    rewrite Hv, Z.eqb_refl, Ha, Hp. reflexivity. }
  destruct a as [x | c | m | r]; cbn [Arg_UnmarshalBinary_as] in Hda.
  - left. apply (Hok _ (ATAArg_MarshalBinary_bytes x)).
  - left.
    destruct (ConfigArg.UnmarshalBinary (drop 10 b)) as [c' | |] eqn:Hc;
      cbn [bind] in Hda; [| discriminate | discriminate].
    injection Hda as ->.
    pose proof (ConfigArg_decoded_encodable _ _ Htl Hc) as Henc.
    apply (Hok _ (ConfigArg_MarshalBinary_bytes c Henc)).
  - destruct (MACMaskArg.UnmarshalBinary (drop 10 b)) as [m' | |] eqn:Hm;
      cbn [bind] in Hda; [| discriminate | discriminate].
    injection Hda as ->.
    destruct (MACMaskArg_decoded_encodable _ _ Htl Hm) as [Henc Hu].
    destruct (Z_le_gt_dec (MACMaskArg.DirCount m) 31) as [Hle | Hgt].
    + left. apply (Hok _ (MACMaskArg_MarshalBinary_bytes m Henc Hle)).
    + right. unfold is_u8 in Hu. split.
      * apply Hpanic. cbn [Arg.MarshalBinary].
        apply MACMaskArg_MarshalBinary_panics; [exact Henc | lia].
      * left. exists m. split; [exact Ha | lia].
  - destruct (ReserveReleaseArg.UnmarshalBinary (drop 10 b))
      as [r' | |] eqn:Hr; cbn [bind] in Hda; [| discriminate | discriminate].
    injection Hda as ->.
    destruct (ReserveReleaseArg_decoded_encodable _ _ Htl Hr) as [Henc Hu].
    destruct (Z_le_gt_dec (ReserveReleaseArg.NMACs r) 42) as [Hle | Hgt].
    + left.
      apply (Hok _ (ReserveReleaseArg_MarshalBinary_bytes r Henc Hle)).
    + right. unfold is_u8 in Hu. split.
      * apply Hpanic. cbn [Arg.MarshalBinary].
        apply ReserveReleaseArg_MarshalBinary_panics; [exact Henc | lia].
      * right. exists r. split; [exact Ha | lia].
Qed.

(** ** The ATA request handler *)

Section HandlerFacts.

Context {E W : Type}.
Implicit Types (w : ResponseSender E W) (rs : ReadSeeker E W) (st : W).
Implicit Types (r : Header.t) (arg : ATAArg.t).

(** A single [Send] from a state [st], with an empty trace. *)
Lemma run_call_Send w (h : Header.t) st :
  exists (n : Z) (err : option E) (st' : W),
    Send w h st = ((n, err), st')
    /\ run (call_Send w h) st
       = ((n, option_map Foreign err), (st', [EvSend h n err])).
Proof.
  unfold run, call_Send.
  destruct (Send w h st) as [[n err] st'] eqn:Hs.
  exists n, err, st'. split; reflexivity.
Qed.

(** The offset that the handler passes to [Seek] is [LBA * 512]: the
    product fits 64 bits. *)
Lemma handler_offset arg :
  array6_ok (ATAArg.LBA arg) ->
  i64 (calculateLBA (ATAArg.LBA arg) (ATAArg.FlagLBA48Extended arg) * 512)
  = byte_offset arg.
Proof.
  intros Hok. unfold byte_offset.
  pose proof (calculateLBA_range (ATAArg.LBA arg)
                (ATAArg.FlagLBA48Extended arg) Hok) as Hr.
  apply i64_small.
  destruct (ATAArg.FlagLBA48Extended arg); lia.
Qed.

(** C6. For every IssueATA request whose [CmdStatus] is [CheckPower] (0xE5)
    or [Flush] (0xE7), [ServeATA] makes exactly one call, a [Send] of a
    header whose ATAArg has [SectorCount] 0xFF and [CmdStatus] 0x40; it
    returns what that [Send] returned, so no error of its own; and it makes
    no call on the backing store. *)
Theorem ServeATA_check_power_flush w r rs arg st :
  issue_ata r arg ->
  ATAArg.CmdStatus arg = ATACmdStatusCheckPower
  \/ ATAArg.CmdStatus arg = ATACmdStatusFlush ->
  exists (h : Header.t) (a : ATAArg.t) (n : Z) (err : option E),
    trace_of (run (ServeATA w r rs) st) = [EvSend h n err]
    /\ Header.Arg h = Some (Arg.ATA a)
    /\ ATAArg.SectorCount a = 0xff
    /\ ATAArg.CmdStatus a = 0x40
    /\ result_of (run (ServeATA w r rs) st) = (n, option_map Foreign err)
    /\ (err = None -> snd (result_of (run (ServeATA w r rs) st)) = None)
    /\ store_calls (trace_of (run (ServeATA w r rs) st)) = [].
Proof.
  intros [Hcmd Harg] Hcs.
  destruct (run_call_Send w (reply_header (Some ready_arg)) st)
    as (n & err & st' & _ & Hrun).
  assert (Hserve : run (ServeATA w r rs) st
                   = run (call_Send w (reply_header (Some ready_arg))) st).
  { unfold run, ServeATA. rewrite Hcmd, Harg.
    destruct Hcs as [-> | ->]; reflexivity. }
  exists (reply_header (Some ready_arg)), ready_arg, n, err.
  rewrite Hserve, Hrun. cbn.
  repeat split. intros ->. reflexivity.
Qed.

Ltac handler_unfold :=
  unfold run, ServeATA, ataIdentify, ataRead, ataWrite, iobind, ret,
    call_Seek, call_Read, call_Write, call_Identify, call_Send.

Ltac handler_consts :=
  cbn [CommandIssueATACommand ATACmdStatusCheckPower ATACmdStatusFlush
       ATACmdStatusIdentify ATACmdStatusRead28Bit ATACmdStatusRead48Bit
       ATACmdStatusWrite28Bit ATACmdStatusWrite48Bit Z.eqb Pos.eqb
       negb andb orb fst snd is_errATAAbort option_map app].

(** Enters the handler of an IssueATA request and decides the tests on the
    opcode [cs], known by the equation [H]. *)
Ltac enter_handler Hcmd Harg H :=
  handler_unfold; rewrite Hcmd, Harg; rewrite ?H; handler_consts.

(** The dispatch on a write opcode goes to [ataWrite], whose own guard on
    the opcode passes. *)
Lemma ServeATA_dispatch_write w r rs arg st :
  issue_ata r arg -> is_write_opcode (ATAArg.CmdStatus arg) ->
  run (ServeATA w r rs) st
  = run ('(warg, err) <-- ataWrite arg rs ;;
         match err with
         | Some e =>
             if negb (is_errATAAbort e) then ret (0, Some e)
             else call_Send w (reply_header (Some abort_arg))
         | None => call_Send w (reply_header warg)
         end) st.
Proof.
  intros [Hcmd Harg] Hop. unfold run, ServeATA. rewrite Hcmd, Harg.
  destruct Hop as [Hop | Hop]; rewrite Hop; reflexivity.
Qed.

(** A write request that fails one of the three preconditions is answered
    with the abort reply, and nothing else happens. *)
Lemma ServeATA_write_rejected w r rs arg st :
  issue_ata r arg -> is_write_opcode (ATAArg.CmdStatus arg) ->
  ~ (ATAArg.FlagWrite arg = true
     /\ sectors_of (Z.of_nat (length (ATAArg.Data arg)))
        = ATAArg.SectorCount arg
     /\ Writer rs <> None) ->
  run (ServeATA w r rs) st
  = run (call_Send w (reply_header (Some abort_arg))) st.
Proof.
  intros Hreq Hop Hpre.
  rewrite (ServeATA_dispatch_write w r rs arg st Hreq Hop).
  handler_unfold.
  destruct Hop as [Hop | Hop]; rewrite Hop; handler_consts.
  all: destruct (ATAArg.FlagWrite arg); handler_consts; [| reflexivity].
  all: unfold sectors_of in Hpre; unfold sectorSize.
  all: destruct (Z.eqb_spec
                   (Z.of_nat (length (ATAArg.Data arg)) `quot` 512)
                   (ATAArg.SectorCount arg)); handler_consts;
         [| reflexivity].
  all: destruct (Writer rs); [| reflexivity].
  all: exfalso; apply Hpre; repeat split; auto; discriminate.
Qed.

(** A write request that passes them seeks, then writes, then replies. *)
Lemma ServeATA_write_accepted w r rs arg st
    (write : list Z -> W -> (Z * option E) * W) :
  issue_ata r arg -> is_write_opcode (ATAArg.CmdStatus arg) ->
  array6_ok (ATAArg.LBA arg) ->
  ATAArg.FlagWrite arg = true ->
  sectors_of (Z.of_nat (length (ATAArg.Data arg))) = ATAArg.SectorCount arg ->
  Writer rs = Some write ->
  run (ServeATA w r rs) st
  = let '((_, serr), st1) := Seek rs (byte_offset arg) SEEK_SET st in
    let tr1 := [EvSeek (byte_offset arg) SEEK_SET serr] in
    match serr with
    | Some e => ((0, Some (Foreign e)), (st1, tr1))
    | None =>
        let '((n, werr), st2) := write (ATAArg.Data arg) st1 in
        let tr2 := tr1 ++ [EvWrite (ATAArg.Data arg) werr] in
        match werr with
        | Some e => ((0, Some (Foreign e)), (st2, tr2))
        | None =>
            call_Send w
              (reply_header
                 (Some (if sectors_of n =? ATAArg.SectorCount arg
                        then write_done_arg else abort_arg)))
              (st2, tr2)
        end
    end.
Proof.
  intros Hreq Hop Hlba Hfw Hlen Hwr.
  rewrite (ServeATA_dispatch_write w r rs arg st Hreq Hop).
  handler_unfold.
  unfold sectors_of in *. unfold sectorSize.
  destruct Hop as [Hop | Hop]; rewrite Hop; handler_consts.
  all: rewrite Hfw, Hlen, Z.eqb_refl, Hwr, (handler_offset arg Hlba).
  all: handler_consts.
  all: destruct (Seek rs (byte_offset arg) SEEK_SET st)
         as [[pos [e |]] st1]; handler_consts; [reflexivity |].
  all: destruct (write (ATAArg.Data arg) st1) as [[n [e |]] st2];
         handler_consts; [reflexivity |].
  all: destruct (Z.eqb_spec (n `quot` 512) (ATAArg.SectorCount arg));
         handler_consts; reflexivity.
Qed.

(** C4. For every IssueATA request with [cmd_status] Write28 (0x30) or
    Write48 (0x34): unless [write_flag] is set, [len(Data)/512] is the
    sector count and the backing store can write, the handler only sends
    the abort reply. Otherwise it seeks to the byte offset [LBA * 512] and
    returns a seek error to the caller; then writes [Data] once and returns
    a write error to the caller; then sends the abort reply if the byte
    count written, divided by 512, is not the sector count, and else a reply
    with [CmdStatus] 0x40 and no data. In particular Write28 with sector
    count 2 and 1023 bytes of data gets the abort reply. *)
Theorem ServeATA_write w r rs arg st :
  issue_ata r arg -> is_write_opcode (ATAArg.CmdStatus arg) ->
  array6_ok (ATAArg.LBA arg) ->
  let out := run (ServeATA w r rs) st in
  let off := byte_offset arg in
  let data := ATAArg.Data arg in
  (~ (ATAArg.FlagWrite arg = true
      /\ sectors_of (Z.of_nat (length data)) = ATAArg.SectorCount arg
      /\ Writer rs <> None) ->
   exists n err,
     trace_of out = [EvSend (reply_header (Some abort_arg)) n err]
     /\ result_of out = (n, option_map Foreign err))
  /\ (forall write pos serr st1,
        ATAArg.FlagWrite arg = true ->
        sectors_of (Z.of_nat (length data)) = ATAArg.SectorCount arg ->
        Writer rs = Some write ->
        Seek rs off SEEK_SET st = ((pos, serr), st1) ->
        match serr with
        | Some e =>
            trace_of out = [EvSeek off SEEK_SET (Some e)]
            /\ result_of out = (0, Some (Foreign e))
        | None =>
            forall n werr st2,
              write data st1 = ((n, werr), st2) ->
              match werr with
              | Some e =>
                  trace_of out
                  = [EvSeek off SEEK_SET None; EvWrite data (Some e)]
                  /\ result_of out = (0, Some (Foreign e))
              | None =>
                  exists k err,
                    trace_of out
                    = [EvSeek off SEEK_SET None; EvWrite data None;
                       EvSend
                         (reply_header
                            (Some (if sectors_of n =? ATAArg.SectorCount arg
                                   then write_done_arg else abort_arg)))
                         k err]
                    /\ result_of out = (k, option_map Foreign err)
              end
        end)
  /\ ATAArg.CmdStatus write_done_arg = 0x40
  /\ ATAArg.Data write_done_arg = []
  /\ (ATAArg.CmdStatus arg = ATACmdStatusWrite28Bit ->
      ATAArg.SectorCount arg = 2 -> length data = 1023%nat ->
      exists n err,
        trace_of out = [EvSend (reply_header (Some abort_arg)) n err]).
Proof.
  intros Hreq Hop Hlba out off data.
  assert (Hrej :
    ~ (ATAArg.FlagWrite arg = true
       /\ sectors_of (Z.of_nat (length data)) = ATAArg.SectorCount arg
       /\ Writer rs <> None) ->
    exists n err,
      trace_of out = [EvSend (reply_header (Some abort_arg)) n err]
      /\ result_of out = (n, option_map Foreign err)).
  { intros Hpre. subst out.
    rewrite (ServeATA_write_rejected w r rs arg st Hreq Hop Hpre).
    destruct (run_call_Send w (reply_header (Some abort_arg)) st)
      as (n & err & st' & _ & ->).
    exists n, err. split; reflexivity. }
  split; [exact Hrej |].
  split; [| split; [reflexivity | split; [reflexivity |]]].
  - intros write pos serr st1 Hfw Hlen Hwr Hseek. subst out.
    rewrite (ServeATA_write_accepted w r rs arg st write
               Hreq Hop Hlba Hfw Hlen Hwr).
    fold off. fold data. rewrite Hseek.
    destruct serr as [e |]; [split; reflexivity |].
    intros n werr st2 Hwrite. rewrite Hwrite.
    destruct werr as [e |]; [split; reflexivity |].
    unfold call_Send.
    destruct (Send w _ st2) as [[k err] st3].
    exists k, err. split; reflexivity.
  - intros Hcs Hsc Hlen.
    destruct Hrej as (n & err & Htr & _); [| exists n, err; exact Htr].
    intros (_ & Hsec & _). subst data. rewrite Hlen, Hsc in Hsec.
    discriminate Hsec.
Qed.

(** Sending the abort reply after calls on the backing store only: the
    trace then holds exactly one reply, the abort reply, and the result of
    the run is the result of that [Send]. *)
Lemma abort_reply_from w st (tr : list (event E)) :
  replies tr = [] ->
  let out := call_Send w (reply_header (Some abort_arg)) (st, tr) in
  exists (h : Header.t) (a : ATAArg.t) (n : Z) (err : option E),
    replies (trace_of out) = [EvSend h n err]
    /\ Header.Arg h = Some (Arg.ATA a)
    /\ ATAArg.CmdStatus a = 0x01
    /\ ATAArg.ErrFeature a = 0x04
    /\ result_of out = (n, option_map Foreign err)
    /\ (err = None -> snd (result_of out) = None).
Proof.
  intros Htr out. subst out. unfold call_Send.
  destruct (Send w _ st) as [[n err] st'].
  exists (reply_header (Some abort_arg)), abort_arg, n, err.
  unfold trace_of, result_of, replies in *. cbn [fst snd].
  rewrite List.filter_app, Htr. cbn.
  repeat split. intros ->. reflexivity.
Qed.

Lemma ServeATA_unknown_opcode w r rs arg st :
  issue_ata r arg -> ~ known_opcode (ATAArg.CmdStatus arg) ->
  run (ServeATA w r rs) st
  = call_Send w (reply_header (Some abort_arg)) (st, []).
Proof.
  intros [Hcmd Harg] Hunk.
  unfold known_opcode, is_read_opcode, is_write_opcode in Hunk.
  unfold run, ServeATA. rewrite Hcmd, Harg. handler_consts.
  repeat match goal with
         | |- context [ATAArg.CmdStatus arg =? ?c] =>
             destruct (Z.eqb_spec (ATAArg.CmdStatus arg) c);
             [exfalso; apply Hunk; tauto |]
         end.
  reflexivity.
Qed.

Lemma ServeATA_read_with_write_flag w r rs arg st :
  issue_ata r arg -> is_read_opcode (ATAArg.CmdStatus arg) ->
  ATAArg.FlagWrite arg = true ->
  run (ServeATA w r rs) st
  = call_Send w (reply_header (Some abort_arg)) (st, []).
Proof.
  intros [Hcmd Harg] Hop Hfw.
  destruct Hop as [Hop | Hop]; enter_handler Hcmd Harg Hop;
    rewrite Hfw; reflexivity.
Qed.

Lemma ServeATA_identify_sector_count w r rs arg st :
  issue_ata r arg -> ATAArg.CmdStatus arg = ATACmdStatusIdentify ->
  ATAArg.SectorCount arg <> 1 ->
  run (ServeATA w r rs) st
  = call_Send w (reply_header (Some abort_arg)) (st, []).
Proof.
  intros [Hcmd Harg] Hop Hsc.
  enter_handler Hcmd Harg Hop.
  apply Z.eqb_neq in Hsc. rewrite Hsc. reflexivity.
Qed.

Lemma ServeATA_short_read w r rs arg st (pos n : Z) (buf : list Z)
    (st1 st2 : W) :
  issue_ata r arg -> is_read_opcode (ATAArg.CmdStatus arg) ->
  ATAArg.FlagWrite arg = false -> array6_ok (ATAArg.LBA arg) ->
  Seek rs (byte_offset arg) SEEK_SET st = ((pos, None), st1) ->
  Read rs (Slice.make (Z.to_nat (ATAArg.SectorCount arg * 512))) st1
  = ((buf, n, None), st2) ->
  sectors_of n <> ATAArg.SectorCount arg ->
  run (ServeATA w r rs) st
  = call_Send w (reply_header (Some abort_arg))
      (st2,
       [EvSeek (byte_offset arg) SEEK_SET None;
        EvRead (Z.to_nat (ATAArg.SectorCount arg * 512)) None]).
Proof.
  intros [Hcmd Harg] Hop Hfw Hlba Hseek Hread Hn.
  unfold sectors_of in Hn. apply Z.eqb_neq in Hn.
  destruct Hop as [Hop | Hop]; enter_handler Hcmd Harg Hop;
    unfold sectorSize;
    rewrite Hfw, (handler_offset arg Hlba), Hseek; handler_consts;
    rewrite Hread; handler_consts; rewrite Hn; handler_consts;
    rewrite length_make; reflexivity.
Qed.

Lemma ServeATA_short_write w r rs arg st
    (write : list Z -> W -> (Z * option E) * W) (pos n : Z) (st1 st2 : W) :
  issue_ata r arg -> is_write_opcode (ATAArg.CmdStatus arg) ->
  ATAArg.FlagWrite arg = true ->
  sectors_of (Z.of_nat (length (ATAArg.Data arg))) = ATAArg.SectorCount arg ->
  Writer rs = Some write -> array6_ok (ATAArg.LBA arg) ->
  Seek rs (byte_offset arg) SEEK_SET st = ((pos, None), st1) ->
  write (ATAArg.Data arg) st1 = ((n, None), st2) ->
  sectors_of n <> ATAArg.SectorCount arg ->
  run (ServeATA w r rs) st
  = call_Send w (reply_header (Some abort_arg))
      (st2,
       [EvSeek (byte_offset arg) SEEK_SET None;
        EvWrite (ATAArg.Data arg) None]).
Proof.
  intros Hreq Hop Hfw Hlen Hwr Hlba Hseek Hwrite Hn.
  rewrite (ServeATA_write_accepted w r rs arg st write
             Hreq Hop Hlba Hfw Hlen Hwr).
  rewrite Hseek, Hwrite. apply Z.eqb_neq in Hn. rewrite Hn. reflexivity.
Qed.

(** Every recoverable failure ends in the abort reply. *)
Lemma ServeATA_aborts w r rs arg st :
  issue_ata r arg -> recoverable_failure arg rs st ->
  exists (st' : W) (tr : list (event E)),
    replies tr = []
    /\ run (ServeATA w r rs) st
       = call_Send w (reply_header (Some abort_arg)) (st', tr).
Proof.
  intros Hreq Hfail.
  destruct Hfail as [Hunk | Hop Hfw | Hop Hfw | Hop Hlen | Hop Hwr | Hop Hsc
                     | pos n buf st1 st2 Hop Hfw Hlba Hseek Hread Hn
                     | write pos n st1 st2 Hop Hfw Hlen Hwr Hlba Hseek
                         Hwrite Hn].
  - exists st, []. split; [reflexivity |].
    apply (ServeATA_unknown_opcode w r rs arg st); assumption.
  - exists st, []. split; [reflexivity |].
    apply (ServeATA_read_with_write_flag w r rs arg st); assumption.
  - exists st, []. split; [reflexivity |].
    apply (ServeATA_write_rejected w r rs arg st Hreq Hop).
    intros (Hfw' & _). congruence.
  - exists st, []. split; [reflexivity |].
    apply (ServeATA_write_rejected w r rs arg st Hreq Hop).
    intros (_ & Hlen' & _). contradiction.
  - exists st, []. split; [reflexivity |].
    apply (ServeATA_write_rejected w r rs arg st Hreq Hop).
    intros (_ & _ & Hwr'). contradiction.
  - exists st, []. split; [reflexivity |].
    apply (ServeATA_identify_sector_count w r rs arg st); assumption.
  - eexists st2, _. split; [| eapply ServeATA_short_read; eassumption].
    reflexivity.
  - eexists st2, _. split; [| eapply ServeATA_short_write; eassumption].
    reflexivity.
Qed.

(** An error of the backing store ends the run: it is the error of the
    result, and no reply was sent. *)
Lemma ServeATA_store_error w r rs arg st :
  issue_ata r arg ->
  forall (ev : event E) (e : E),
    In ev (trace_of (run (ServeATA w r rs) st)) ->
    store_error ev = Some e ->
    result_of (run (ServeATA w r rs) st) = (0, Some (Foreign e))
    /\ replies (trace_of (run (ServeATA w r rs) st)) = [].
Proof.
  intros [Hcmd Harg] ev e.
  unfold trace_of, result_of, replies.
  handler_unfold. rewrite Hcmd, Harg. handler_consts.
  repeat first
    [ match goal with
      | |- context [if ?b then _ else _] => destruct b
      end; handler_consts
    | match goal with
      | |- context [Identifier rs] => destruct (Identifier rs) as [identify |]
      | |- context [Writer rs] => destruct (Writer rs) as [write |]
      | |- context [Seek rs ?o ?k ?s] =>
          destruct (Seek rs o k s) as [[? [? |]] ?]
      | |- context [Read rs ?p ?s] =>
          destruct (Read rs p s) as [[[? ?] [? |]] ?]
      | |- context [Send w ?h ?s] => destruct (Send w h s) as [[? ?] ?]
      | identify : W -> (list Z * option E) * W
        |- context [?f ?s] =>
          constr_eq f identify; destruct (identify s) as [[? [? |]] ?]
      | write : list Z -> W -> (Z * option E) * W
        |- context [?f ?p ?s] =>
          constr_eq f write; destruct (write p s) as [[? [? |]] ?]
      end; handler_consts ].
  all: cbn [List.filter is_send In store_error].
  all: intros Hin Herr.
  all: repeat (destruct Hin as [<- | Hin];
               [cbn [store_error] in Herr; try discriminate Herr |]).
  all: try contradiction.
  all: injection Herr as ->; split; reflexivity.
Qed.

(** C3, as the code has it. For every IssueATA request with a recoverable
    precondition failure (unknown opcode, read opcode with the write flag,
    write opcode without it, data length and sector count in disagreement,
    write without write capability, identify with a sector count other than
    1, or a transfer whose byte count divided by 512 is not the sector
    count), [ServeATA] sends exactly one reply, whose ATAArg has
    [CmdStatus] 0x01 and [ErrFeature] 0x04, and returns what that [Send]
    returned: no error of its own, and no error at all when [Send] succeeds.
    And every error returned by [Seek], [Read], [Write] or [Identify] of the
    backing store is returned to the caller, and no reply is sent. *)
Theorem ServeATA_abort_or_error w r rs arg st :
  issue_ata r arg ->
  let out := run (ServeATA w r rs) st in
  (recoverable_failure arg rs st ->
   exists (h : Header.t) (a : ATAArg.t) (n : Z) (err : option E),
     replies (trace_of out) = [EvSend h n err]
     /\ Header.Arg h = Some (Arg.ATA a)
     /\ ATAArg.CmdStatus a = 0x01
     /\ ATAArg.ErrFeature a = 0x04
     /\ result_of out = (n, option_map Foreign err)
     /\ (err = None -> snd (result_of out) = None))
  /\ (forall (ev : event E) (e : E),
        In ev (trace_of out) -> store_error ev = Some e ->
        result_of out = (0, Some (Foreign e))
        /\ replies (trace_of out) = []).
Proof.
  intros Hreq out. split.
  - intros Hfail. subst out.
    destruct (ServeATA_aborts w r rs arg st Hreq Hfail)
      as (st' & tr & Htr & ->).
    exact (abort_reply_from w st' tr Htr).
  - subst out. exact (ServeATA_store_error w r rs arg st Hreq).
Qed.

End HandlerFacts.

Lemma unknown_command_fails :
  recoverable_failure unknown_command_arg noopReadWriteSeeker tt.
Proof.
  apply unknown_opcode.
  unfold known_opcode, is_read_opcode, is_write_opcode.
  cbn. intros H. decompose [or] H; discriminate.
Qed.

Lemma ServeATA_abort_or_error_witness :
  exists (h : Header.t) (a : ATAArg.t) (n : Z) (err : option unit),
    replies (trace_of (run (ServeATA captureHeaderResponseSender
                              (ata_request unknown_command_arg)
                              noopReadWriteSeeker) tt))
    = [EvSend h n err]
    /\ Header.Arg h = Some (Arg.ATA a)
    /\ ATAArg.CmdStatus a = 0x01
    /\ ATAArg.ErrFeature a = 0x04
    /\ result_of (run (ServeATA captureHeaderResponseSender
                         (ata_request unknown_command_arg)
                         noopReadWriteSeeker) tt)
       = (n, option_map Foreign err)
    /\ (err = None ->
        snd (result_of (run (ServeATA captureHeaderResponseSender
                               (ata_request unknown_command_arg)
                               noopReadWriteSeeker) tt)) = None).
Proof.
  apply (proj1 (ServeATA_abort_or_error captureHeaderResponseSender
                  (ata_request unknown_command_arg) noopReadWriteSeeker
                  unknown_command_arg tt (conj eq_refl eq_refl))).
  exact unknown_command_fails.
Defined.

(** The claim of C3 as stated fails when the transport fails: the request
    has an unknown opcode, a recoverable failure, and [ServeATA] returns the
    error of [Send]. *)
Lemma ServeATA_abort_or_error_counterexample :
  issue_ata (ata_request unknown_command_arg) unknown_command_arg
  /\ recoverable_failure unknown_command_arg noopReadWriteSeeker tt
  /\ snd (result_of (run (ServeATA failingResponseSender
                            (ata_request unknown_command_arg)
                            noopReadWriteSeeker) tt))
     = Some (Foreign tt)
  /\ snd (result_of (run (ServeATA failingResponseSender
                            (ata_request unknown_command_arg)
                            noopReadWriteSeeker) tt))
     <> None.
Proof.
  split; [split; reflexivity |].
  split; [exact unknown_command_fails |].
  split; [reflexivity | discriminate].
Qed.

Lemma ServeATA_write_witness :
  exists (n : Z) (err : option unit),
    trace_of (run (ServeATA captureHeaderResponseSender
                     (ata_request write28_1023_arg)
                     noopReadWriteSeeker) tt)
    = [EvSend (reply_header (Some abort_arg)) n err].
Proof.
  apply (ServeATA_write captureHeaderResponseSender
           (ata_request write28_1023_arg) noopReadWriteSeeker
           write28_1023_arg tt).
  - split; reflexivity.
  - left. reflexivity.
  - cbn. unfold is_u8. lia.
  - reflexivity.
  - reflexivity.
  - reflexivity.
Defined.

Lemma ServeATA_check_power_flush_witness :
  exists (h : Header.t) (a : ATAArg.t) (n : Z) (err : option unit),
    trace_of (run (ServeATA captureHeaderResponseSender
                     (ata_request check_power_arg)
                     noopReadWriteSeeker) tt)
    = [EvSend h n err]
    /\ Header.Arg h = Some (Arg.ATA a)
    /\ ATAArg.SectorCount a = 0xff
    /\ ATAArg.CmdStatus a = 0x40
    /\ result_of (run (ServeATA captureHeaderResponseSender
                         (ata_request check_power_arg)
                         noopReadWriteSeeker) tt)
       = (n, option_map Foreign err)
    /\ (err = None ->
        snd (result_of (run (ServeATA captureHeaderResponseSender
                               (ata_request check_power_arg)
                               noopReadWriteSeeker) tt)) = None)
    /\ store_calls (trace_of (run (ServeATA captureHeaderResponseSender
                                     (ata_request check_power_arg)
                                     noopReadWriteSeeker) tt)) = [].
Proof.
  apply (ServeATA_check_power_flush captureHeaderResponseSender
           (ata_request check_power_arg) noopReadWriteSeeker
           check_power_arg tt).
  - split; reflexivity.
  - left. reflexivity.
Defined.

(** * Further properties of the handler *)

Ltac ata_unfold :=
  unfold run, ServeATA, ataIdentify, ataRead, ataWrite, iobind, ret,
    call_Seek, call_Read, call_Write, call_Identify, call_Send.

Ltac ata_consts :=
  cbn [CommandIssueATACommand ATACmdStatusCheckPower ATACmdStatusFlush
       ATACmdStatusIdentify ATACmdStatusRead28Bit ATACmdStatusRead48Bit
       ATACmdStatusWrite28Bit ATACmdStatusWrite48Bit Z.eqb Pos.eqb
       negb andb orb fst snd is_errATAAbort option_map app].

(** Case analysis along the control flow of the handler: every test, every
    capability probe and every outcome of a call. *)
Ltac ata_cases :=
  repeat first
    [ match goal with
      | |- context [if ?b then _ else _] => destruct b eqn:?
      end; ata_consts
    | match goal with
      | |- context [Identifier ?rs] =>
          destruct (Identifier rs) as [?identify |] eqn:?
      | |- context [Writer ?rs] => destruct (Writer rs) as [?write |] eqn:?
      | |- context [Seek ?rs ?o ?k ?s] =>
          destruct (Seek rs o k s) as [[? [? |]] ?] eqn:?
      | |- context [Read ?rs ?p ?s] =>
          destruct (Read rs p s) as [[[? ?] [? |]] ?] eqn:?
      | |- context [Send ?w ?h ?s] =>
          destruct (Send w h s) as [[? ?] ?] eqn:?
      | f : ?W -> (list Z * option ?E) * ?W |- context [?g ?s] =>
          constr_eq f g; destruct (f s) as [[? [? |]] ?] eqn:?
      | f : list Z -> ?W -> (Z * option ?E) * ?W |- context [?g ?p ?s] =>
          constr_eq f g; destruct (f p s) as [[? [? |]] ?] eqn:?
      end; ata_consts ].

Section HandlerInvariants.

Context {E W : Type}.
Implicit Types (w : ResponseSender E W) (rs : ReadSeeker E W) (st : W).
Implicit Types (r : Header.t) (arg : ATAArg.t).

(** Opens the guard of [ServeATA]: a request that is not an IssueATA
    request with an ATAArg is left to the first tactic. *)
Ltac ata_guard r tac :=
  destruct (Header.Command r =? CommandIssueATACommand) eqn:?; ata_consts;
    [| tac];
  [destruct (Header.Arg r) as [[?arg | ?c | ?m | ?x] |] eqn:?;
   [| tac | tac | tac | tac]].

(** X1. How a run of [ServeATA] ends. It never returns the abort sentinel.
    Either it sends no reply and returns 0 bytes and an error, or its last
    call is its only [Send], of a header that carries an ATAArg and nothing
    else, and it returns what that [Send] returned. It makes at most two
    calls on the backing store. *)
Theorem ServeATA_reply_discipline w r rs st :
  let out := run (ServeATA w r rs) st in
  snd (result_of out) <> Some errATAAbort
  /\ ((replies (trace_of out) = []
       /\ exists e, result_of out = (0, Some e))
      \/ (exists pre a n err,
            trace_of out = pre ++ [EvSend (reply_header (Some a)) n err]
            /\ replies pre = []
            /\ result_of out = (n, option_map Foreign err)))
  /\ (length (store_calls (trace_of out)) <= 2)%nat.
Proof.
  cbv zeta. unfold result_of, trace_of, replies, store_calls. ata_unfold.
  ata_guard r ltac:(cbn; repeat split;
                    [discriminate | left; split; eauto | lia]).
  ata_cases.
  all: cbn [List.filter is_send is_store_call negb length fst snd].
  all: split;
    [ try discriminate;
      match goal with
      | |- option_map _ ?o <> _ => destruct o; discriminate
      end
    | split; [| lia] ].
  all: first
    [ left; split; [reflexivity | eexists; reflexivity]
    | right; exists []; do 3 eexists; repeat split; reflexivity
    | right;
      match goal with
      | |- context [?x :: EvSend _ _ _ :: nil] => exists [x]
      end; do 3 eexists; repeat split; reflexivity
    | right;
      match goal with
      | |- context [?x :: ?y :: EvSend _ _ _ :: nil] => exists [x; y]
      end; do 3 eexists; repeat split; reflexivity ].
Qed.

(** Turns the boolean facts that the case analysis left in the context
    into propositions. *)
Ltac ata_facts :=
  repeat match goal with
         | H : negb _ = true |- _ => apply negb_true_iff in H
         | H : negb _ = false |- _ => apply negb_false_iff in H
         | H : (_ || _)%bool = true |- _ => apply orb_true_iff in H
         | H : (_ && _)%bool = false |- _ => apply andb_false_iff in H
         | H : (_ =? _) = true |- _ => apply Z.eqb_eq in H
         | H : (_ =? _) = false |- _ => apply Z.eqb_neq in H
         end.


(** X3. What the handler does to the backing store, for every request and every
    store. A call on the store belongs to an IssueATA request of the
    matching kind: [Identify] to an identify request for one sector; [Read]
    to a read request without the write flag, with a buffer of
    [SectorCount * 512] bytes; [Write] to a write request with the write
    flag whose data holds [SectorCount] sectors, and what is written is the
    request's data; [Seek] to a read or write request, from the start of
    the store to the offset computed from the LBA. *)
Theorem ServeATA_store_discipline w r rs st (ev : event E) :
  In ev (trace_of (run (ServeATA w r rs) st)) ->
  is_store_call ev = true ->
  exists arg,
    issue_ata r arg
    /\ match ev with
       | EvSeek off whence _ =>
           whence = SEEK_SET
           /\ off = i64 (calculateLBA (ATAArg.LBA arg)
                           (ATAArg.FlagLBA48Extended arg) * 512)
           /\ (is_read_opcode (ATAArg.CmdStatus arg)
               \/ is_write_opcode (ATAArg.CmdStatus arg))
       | EvRead len _ =>
           is_read_opcode (ATAArg.CmdStatus arg)
           /\ ATAArg.FlagWrite arg = false
           /\ len = Z.to_nat (ATAArg.SectorCount arg * 512)
       | EvWrite p _ =>
           is_write_opcode (ATAArg.CmdStatus arg)
           /\ ATAArg.FlagWrite arg = true
           /\ p = ATAArg.Data arg
           /\ sectors_of (Z.of_nat (length p)) = ATAArg.SectorCount arg
       | EvIdentify _ =>
           ATAArg.CmdStatus arg = ATACmdStatusIdentify
           /\ ATAArg.SectorCount arg = 1
       | EvSend _ _ _ => False
       end.
Proof.
  unfold trace_of, issue_ata, is_read_opcode, is_write_opcode, sectors_of.
  ata_unfold. unfold sectorSize.
  ata_guard r ltac:(cbn; contradiction).
  ata_cases.
  all: cbn [In]; intros Hin Hst.
  all: repeat (destruct Hin as [<- | Hin]);
    try contradiction; try discriminate Hst.
  all: exists arg; ata_facts; split; [split; [assumption | reflexivity] |].
  all: rewrite ?length_make.
  all: repeat match goal with
              | H : _ \/ _ |- _ => destruct H
              end; ata_facts.
  all: repeat split; auto; try congruence; try tauto.
Qed.

(** X4. An identify request for one sector. Without the identify capability the
    handler returns [ErrNotImplemented] and calls nothing. With it, the
    handler calls [Identify] once; an error of that call is returned and no
    reply is sent; otherwise the only reply carries [ReadyStatus] and the
    identity as data. The store is neither sought, read nor written. *)
Theorem ServeATA_identify w r rs arg st :
  issue_ata r arg ->
  ATAArg.CmdStatus arg = ATACmdStatusIdentify ->
  ATAArg.SectorCount arg = 1 ->
  let out := run (ServeATA w r rs) st in
  match Identifier rs with
  | None => out = ((0, Some ErrNotImplemented), (st, []))
  | Some identify =>
      let '((id, err), st1) := identify st in
      match err with
      | Some e =>
          out = ((0, Some (Foreign e)), (st1, [EvIdentify (Some e)]))
      | None =>
          exists n serr st2,
            Send w (reply_header (Some (data_reply_arg id))) st1
            = ((n, serr), st2)
            /\ out = ((n, option_map Foreign serr),
                      (st2,
                       [EvIdentify None;
                        EvSend (reply_header (Some (data_reply_arg id)))
                          n serr]))
      end
  end.
Proof.
  intros [Hcmd Harg] Hcs Hsc. cbv zeta.
  ata_unfold. rewrite Hcmd, Harg, Hcs, Hsc. ata_consts.
  destruct (Identifier rs) as [identify |]; [| reflexivity].
  destruct (identify st) as [[id [e |]] st1]; ata_consts; [reflexivity |].
  fold (data_reply_arg id).
  destruct (Send w (reply_header (Some (data_reply_arg id))) st1)
    as [[n serr] st2].
  exists n, serr, st2. split; reflexivity.
Qed.

(** X5. A read request without the write flag. The handler seeks from the start
    of the store to [LBA * 512] and returns a seek error to the caller;
    then reads once into a buffer of [SectorCount * 512] bytes and returns
    a read error to the caller; then sends the abort reply if the byte count
    read, divided by 512, is not the sector count, and else a reply with
    [ReadyStatus] and the buffer as data. Nothing is written. *)
Theorem ServeATA_read w r rs arg st :
  issue_ata r arg -> is_read_opcode (ATAArg.CmdStatus arg) ->
  ATAArg.FlagWrite arg = false -> array6_ok (ATAArg.LBA arg) ->
  let out := run (ServeATA w r rs) st in
  let off := byte_offset arg in
  let size := Z.to_nat (ATAArg.SectorCount arg * 512) in
  let '((_, serr), st1) := Seek rs off SEEK_SET st in
  match serr with
  | Some e =>
      out = ((0, Some (Foreign e)), (st1, [EvSeek off SEEK_SET (Some e)]))
  | None =>
      let '((buf, n, rerr), st2) := Read rs (replicate size 0) st1 in
      match rerr with
      | Some e =>
          out = ((0, Some (Foreign e)),
                 (st2, [EvSeek off SEEK_SET None; EvRead size (Some e)]))
      | None =>
          out = call_Send w
                  (reply_header
                     (Some (if sectors_of n =? ATAArg.SectorCount arg
                            then data_reply_arg buf else abort_arg)))
                  (st2, [EvSeek off SEEK_SET None; EvRead size None])
      end
  end.
Proof.
  intros [Hcmd Harg] Hop Hfw Hlba. cbv zeta.
  ata_unfold. unfold sectors_of, sectorSize, Slice.make.
  rewrite Hcmd, Harg.
  destruct Hop as [Hop | Hop]; rewrite Hop; ata_consts.
  all: rewrite Hfw, (handler_offset arg Hlba).
  all: destruct (Seek rs (byte_offset arg) SEEK_SET st)
         as [[pos [e |]] st1]; ata_consts; [reflexivity |].
  all: destruct (Read rs _ st1) as [[[buf n] [e |]] st2]; ata_consts;
         rewrite ?length_replicate; [reflexivity |].
  all: destruct (Z.eqb_spec (n `quot` 512) (ATAArg.SectorCount arg));
         ata_consts; reflexivity.
Qed.

End HandlerInvariants.


Lemma ServeATA_store_discipline_witness :
  exists arg,
    issue_ata (ata_request read28_arg) arg
    /\ SEEK_SET = SEEK_SET
    /\ 0 = i64 (calculateLBA (ATAArg.LBA arg)
                  (ATAArg.FlagLBA48Extended arg) * 512)
    /\ (is_read_opcode (ATAArg.CmdStatus arg)
        \/ is_write_opcode (ATAArg.CmdStatus arg)).
Proof.
  apply (ServeATA_store_discipline captureHeaderResponseSender
           (ata_request read28_arg) noopReadWriteSeeker tt
           (EvSeek 0 SEEK_SET None)).
  - left. reflexivity.
  - reflexivity.
Defined.

Lemma ServeATA_identify_witness :
  run (ServeATA captureHeaderResponseSender (ata_request identify_arg)
         noopReadWriteSeeker) tt
  = ((0, Some ErrNotImplemented), (tt, [])).
Proof.
  apply (ServeATA_identify captureHeaderResponseSender
           (ata_request identify_arg) noopReadWriteSeeker identify_arg tt).
  - split; reflexivity.
  - reflexivity.
  - reflexivity.
Defined.

Lemma ServeATA_read_witness :
  run (ServeATA captureHeaderResponseSender (ata_request read28_arg)
         noopReadWriteSeeker) tt
  = ((0, None),
     (tt, [EvSeek 0 SEEK_SET None; EvRead 512 None;
           EvSend (reply_header (Some abort_arg)) 0 None])).
Proof.
  apply (ServeATA_read captureHeaderResponseSender
           (ata_request read28_arg) noopReadWriteSeeker read28_arg tt).
  - split; reflexivity.
  - left. reflexivity.
  - reflexivity.
  - cbn. unfold is_u8. lia.
Defined.

(** * Further properties of the codec *)

(** A property of bytes that a check of the 256 values decides. *)
Lemma forall_u8 (P : Z -> bool) :
  forallb P (map Z.of_nat (seq 0 256)) = true ->
  forall x, is_u8 x -> P x = true.
Proof.
  intros Hall x Hx. rewrite forallb_forall in Hall. apply Hall.
  replace x with (Z.of_nat (Z.to_nat x)) by (unfold is_u8 in Hx; lia).
  apply in_map, in_seq. unfold is_u8 in Hx. lia.
Qed.

(** ** ATAArg *)

(** X6. What [ATAArg.UnmarshalBinary] accepts. It never panics. It fails with
    [UnexpectedEOF] exactly on inputs shorter than 12 bytes and with
    [BadArgumentParameter] exactly on longer inputs whose byte 10 or byte 11
    is not zero; on every other input it succeeds, and the data of the
    result is the input from byte 12 on (empty for a 12-byte input). *)
Theorem ATAArg_UnmarshalBinary_accepts (b : list Z) :
  match ATAArg.UnmarshalBinary b with
  | Ok a =>
      (12 <= length b)%nat /\ b !! 10%nat = Some 0 /\ b !! 11%nat = Some 0
      /\ ATAArg.Data a = drop 12 b
  | Err e =>
      (e = io_ErrUnexpectedEOF /\ (length b < 12)%nat)
      \/ (e = error_of ErrorBadArgumentParameter /\ (12 <= length b)%nat
          /\ (b !! 10%nat <> Some 0 \/ b !! 11%nat <> Some 0))
  | Panic => False
  end.
Proof.
  unfold ATAArg.UnmarshalBinary.
  destruct (length b <? ataArgLen)%nat eqn:Hlen.
  - apply Nat.ltb_lt in Hlen. left. split; [reflexivity | exact Hlen].
  - apply Nat.ltb_ge in Hlen. change ataArgLen with 12%nat in Hlen.
    pose proof Hlen as Hlen'.
    open_slice b Hlen 12.
    cbn [Slice.index lookup list_lookup bind].
    destruct (Z.eqb_spec z9 0) as [-> |]; cbn [negb orb].
    + destruct (Z.eqb_spec z10 0) as [-> |]; cbn [negb].
      * rewrite slice_from_ok by (cbn [length]; lia).
        cbn [bind drop ATAArg.Data]. rewrite drop_0, copy_make_all.
        repeat split. exact Hlen'.
      * right. repeat split; [exact Hlen' |]. right. congruence.
    + right. repeat split; [exact Hlen' |]. left. congruence.
Qed.

(** The flag byte that the encoder builds from the four flags that the
    decoder reads is the input flag byte with its reserved bits cleared. *)
Lemma ATAArg_flags_mask (x0 : Z) :
  is_u8 x0 ->
  ATAArg_flags
    {| ATAArg.FlagLBA48Extended := negb (Z.land x0 0x40 =? 0);
       ATAArg.FlagATADeviceHeadRegister := negb (Z.land x0 0x10 =? 0);
       ATAArg.FlagAsynchronous := negb (Z.land x0 0x02 =? 0);
       ATAArg.FlagWrite := negb (Z.land x0 0x01 =? 0);
       ATAArg.ErrFeature := 0;
       ATAArg.SectorCount := 0;
       ATAArg.CmdStatus := 0;
       ATAArg.LBA := (0, 0, 0, 0, 0, 0);
       ATAArg.Data := [] |}
  = Z.land x0 0x53.
Proof.
  intros Hx. apply Z.eqb_eq.
  apply (forall_u8
           (fun x =>
              ATAArg_flags
                {| ATAArg.FlagLBA48Extended := negb (Z.land x 0x40 =? 0);
                   ATAArg.FlagATADeviceHeadRegister :=
                     negb (Z.land x 0x10 =? 0);
                   ATAArg.FlagAsynchronous := negb (Z.land x 0x02 =? 0);
                   ATAArg.FlagWrite := negb (Z.land x 0x01 =? 0);
                   ATAArg.ErrFeature := 0;
                   ATAArg.SectorCount := 0;
                   ATAArg.CmdStatus := 0;
                   ATAArg.LBA := (0, 0, 0, 0, 0, 0);
                   ATAArg.Data := [] |}
              =? Z.land x 0x53)); [| exact Hx].
  vm_compute. reflexivity.
Qed.

(** X7. Encoding a decoded ATAArg returns the input with the reserved bits of
    the flag byte cleared: byte 0 is masked with 0x53 and every other byte,
    the data included, is unchanged. *)
Theorem ATAArg_decode_encode (b : list Z) (a : ATAArg.t) :
  bytes_ok b -> ATAArg.UnmarshalBinary b = Ok a ->
  exists b0 tl,
    b = b0 :: tl /\ ATAArg.MarshalBinary a = Ok (Z.land b0 0x53 :: tl).
Proof.
  intros Hb Hdec.
  assert (Hlen : (12 <= length b)%nat).
  { unfold ATAArg.UnmarshalBinary in Hdec.
    destruct (length b <? ataArgLen)%nat eqn:Hl; [discriminate |].
    apply Nat.ltb_ge in Hl. exact Hl. }
  open_slice b Hlen 12.
  assert (H10 : z9 = 0 /\ z10 = 0).
  { unfold ATAArg.UnmarshalBinary in Hdec.
    cbn [length Nat.ltb Nat.leb ataArgLen Slice.index lookup list_lookup bind]
      in Hdec.
    destruct (Z.eqb_spec z9 0); [| discriminate].
    destruct (Z.eqb_spec z10 0); [| discriminate].
    split; assumption. }
  destruct H10 as [-> ->].
  rewrite ATAArg_UnmarshalBinary_bytes in Hdec. injection Hdec as <-.
  exists z, (z0 :: z1 :: z2 :: z3 :: z4 :: z5 :: z6 :: z7 :: z8 :: 0 :: 0
               :: b).
  split; [reflexivity |].
  rewrite ATAArg_MarshalBinary_bytes.
  cbn [ATAArg.LBA ATAArg.ErrFeature ATAArg.SectorCount ATAArg.CmdStatus
       ATAArg.Data app].
  assert (Hz : is_u8 z) by (apply (bytes_ok_lookup _ 0 _ Hb); reflexivity).
  rewrite <- (ATAArg_flags_mask z Hz). reflexivity.
Qed.

Lemma ATAArg_decode_encode_witness :
  exists b0 tl,
    [0xff; 1; 2; 3; 6; 6; 6; 6; 6; 6; 0; 0; 0x66] = b0 :: tl
    /\ ATAArg.MarshalBinary
         (ATAArg.mk true true true true 1 2 3 (6, 6, 6, 6, 6, 6) [0x66])
       = Ok (Z.land b0 0x53 :: tl).
Proof.
  apply (ATAArg_decode_encode
           [0xff; 1; 2; 3; 6; 6; 6; 6; 6; 6; 0; 0; 0x66]).
  - unfold bytes_ok. repeat (constructor; [unfold is_u8; lia |]).
    constructor.
  - reflexivity.
Defined.

(** ** ConfigArg *)

(** X8. What [ConfigArg.MarshalBinary] accepts. It never panics, it succeeds
    exactly on the values that meet its three documented preconditions, with
    an output of 8 bytes plus the string, and it fails with
    [BadArgumentParameter] on all others. The version is not looked at. *)
Theorem ConfigArg_MarshalBinary_accepts (c : ConfigArg.t) :
  match ConfigArg.MarshalBinary c with
  | Ok b =>
      ConfigArg.encodable c
      /\ length b = (8 + length (ConfigArg.String c))%nat
  | Err e =>
      e = error_of ErrorBadArgumentParameter /\ ~ ConfigArg.encodable c
  | Panic => False
  end.
Proof.
  destruct (Z.ltb_spec 0xf (ConfigArg.Command c)) as [Hc | Hc].
  { unfold ConfigArg.MarshalBinary.
    destruct (Z.ltb_spec 0xf (ConfigArg.Command c)); [| lia].
    split; [reflexivity |]. intros (H' & _). lia. }
  destruct (Z.eqb_spec (ConfigArg.StringLength c)
              (Z.of_nat (length (ConfigArg.String c)))) as [Hl | Hl].
  2:{ unfold ConfigArg.MarshalBinary.
      destruct (Z.ltb_spec 0xf (ConfigArg.Command c)); [lia |].
      apply Z.eqb_neq in Hl. rewrite Hl. cbn [negb].
      split; [reflexivity |]. intros (_ & H' & _).
      apply Z.eqb_neq in Hl. contradiction. }
  destruct (Z.ltb_spec 1024 (ConfigArg.StringLength c)) as [Hm | Hm].
  { unfold ConfigArg.MarshalBinary.
    destruct (Z.ltb_spec 0xf (ConfigArg.Command c)); [lia |].
    replace (ConfigArg.StringLength c
             =? Z.of_nat (length (ConfigArg.String c))) with true
      by (symmetry; apply Z.eqb_eq; exact Hl).
    cbn [negb].
    destruct (Z.ltb_spec 1024 (ConfigArg.StringLength c)); [| lia].
    split; [reflexivity |]. intros (_ & _ & H'). lia. }
  assert (Henc : ConfigArg.encodable c) by (repeat split; assumption).
  rewrite (ConfigArg_MarshalBinary_bytes c Henc).
  split; [exact Henc |]. rewrite length_app. reflexivity.
Qed.

(** The decoder on an input that has its 8-byte prefix. *)
Lemma ConfigArg_UnmarshalBinary_open
    (x0 x1 x2 x3 x4 x5 x6 x7 : Z) (tl : list Z) :
  is_u8 x1 -> is_u8 x3 -> is_u8 x7 ->
  ConfigArg.UnmarshalBinary
    (x0 :: x1 :: x2 :: x3 :: x4 :: x5 :: x6 :: x7 :: tl)
  = if Z.of_nat (length tl) <? x6 * 256 + x7 then Err io_ErrUnexpectedEOF
    else if 1024 <? x6 * 256 + x7
         then Err (error_of ErrorBadArgumentParameter)
         else Ok {| ConfigArg.BufferCount := x0 * 256 + x1;
                    ConfigArg.FirmwareVersion := x2 * 256 + x3;
                    ConfigArg.SectorCount := x4;
                    ConfigArg.Version := Z.shiftr x5 4;
                    ConfigArg.Command := Z.land x5 0x0f;
                    ConfigArg.StringLength := x6 * 256 + x7;
                    ConfigArg.String :=
                      take (Z.to_nat (x6 * 256 + x7)) tl |}.
Proof.
  intros H1 H3 H7.
  unfold ConfigArg.UnmarshalBinary.
  cbn [length Nat.ltb Nat.leb configArgLen Nat.add].
  unfold Slice.slice.
  cbn [length Nat.leb andb bind take drop Nat.sub].
  rewrite !BigEndian_Uint16_pair by assumption.
  cbn [bind Slice.index lookup list_lookup].
  rewrite slice_from_ok by (cbn [length]; lia).
  cbn [bind drop]. rewrite drop_0.
  destruct (Z.ltb_spec (Z.of_nat (length tl)) (x6 * 256 + x7));
    [reflexivity |].
  destruct (Z.ltb_spec 1024 (x6 * 256 + x7)); [reflexivity |].
  rewrite copy_make by lia. reflexivity.
Qed.

(** X9. What [ConfigArg.UnmarshalBinary] accepts, on bytes. It never panics. It
    succeeds exactly when the input has 8 bytes and a [string_length] field
    that is at most 1024 and at most the number of bytes after the prefix;
    the string is then the first [string_length] bytes after the prefix and
    the bytes that follow are ignored. It fails with [UnexpectedEOF] when
    the input is shorter than 8 bytes or than the field says, and with
    [BadArgumentParameter] when the field exceeds 1024 and the bytes are
    there. *)
Theorem ConfigArg_UnmarshalBinary_accepts (b : list Z) :
  bytes_ok b ->
  match ConfigArg.UnmarshalBinary b with
  | Ok c =>
      string_length_field b = Some (ConfigArg.StringLength c)
      /\ ConfigArg.StringLength c <= Z.of_nat (length b) - 8
      /\ ConfigArg.StringLength c <= 1024
      /\ ConfigArg.String c
         = take (Z.to_nat (ConfigArg.StringLength c)) (drop 8 b)
  | Err e =>
      (e = io_ErrUnexpectedEOF
       /\ ((length b < 8)%nat
           \/ exists n, string_length_field b = Some n
                        /\ Z.of_nat (length b) - 8 < n))
      \/ (e = error_of ErrorBadArgumentParameter
          /\ exists n, string_length_field b = Some n
                       /\ n <= Z.of_nat (length b) - 8 /\ 1024 < n)
  | Panic => False
  end.
Proof.
  intros Hb.
  destruct (Nat.lt_ge_cases (length b) 8) as [Hlen | Hlen].
  { unfold ConfigArg.UnmarshalBinary.
    replace (length b <? configArgLen)%nat with true
      by (symmetry; apply Nat.ltb_lt; exact Hlen).
    left. split; [reflexivity | left; exact Hlen]. }
  open_slice b Hlen 8.
  assert (H1 : is_u8 z0) by (apply (bytes_ok_lookup _ 1 _ Hb); reflexivity).
  assert (H3 : is_u8 z2) by (apply (bytes_ok_lookup _ 3 _ Hb); reflexivity).
  assert (H7 : is_u8 z6) by (apply (bytes_ok_lookup _ 7 _ Hb); reflexivity).
  rewrite ConfigArg_UnmarshalBinary_open by assumption.
  cbn [string_length_field lookup list_lookup length drop].
  rewrite drop_0.
  destruct (Z.ltb_spec (Z.of_nat (length b)) (z5 * 256 + z6)).
  - left. split; [reflexivity |]. right. eexists. split; [reflexivity | lia].
  - destruct (Z.ltb_spec 1024 (z5 * 256 + z6)).
    + right. split; [reflexivity |]. eexists.
      split; [reflexivity | lia].
    + cbn [ConfigArg.StringLength ConfigArg.String].
      repeat split; try reflexivity; lia.
Qed.

Lemma ConfigArg_UnmarshalBinary_accepts_witness :
  exists c,
    ConfigArg.UnmarshalBinary
      [0; 10; 0; 1; 2; 0x12; 0; 3; 0x66; 0x6f; 0x6f; 0; 0] = Ok c
    /\ ConfigArg.String c = [0x66; 0x6f; 0x6f].
Proof.
  pose proof (ConfigArg_UnmarshalBinary_accepts
                [0; 10; 0; 1; 2; 0x12; 0; 3; 0x66; 0x6f; 0x6f; 0; 0]
                ltac:(unfold bytes_ok;
                      repeat (constructor; [unfold is_u8; lia |]);
                      constructor)) as H.
  destruct (ConfigArg.UnmarshalBinary
              [0; 10; 0; 1; 2; 0x12; 0; 3; 0x66; 0x6f; 0x6f; 0; 0])
    as [c | e |] eqn:Hc; [| discriminate Hc | discriminate Hc].
  exists c. split; [reflexivity |].
  destruct H as (_ & _ & _ & ->).
  injection Hc as <-. reflexivity.
Defined.

(** A byte is the high and the low byte of the 16-bit value that it forms
    with another byte, and a byte is made of its two nibbles. *)
Lemma u16_of_bytes (hi lo : Z) :
  is_u8 hi -> is_u8 lo ->
  u8 (Z.shiftr (hi * 256 + lo) 8) = hi /\ u8 (hi * 256 + lo) = lo.
Proof.
  unfold is_u8, u8. intros Hhi Hlo.
  rewrite Z.shiftr_div_pow2 by lia. change (2 ^ 8) with 256.
  rewrite (Z.add_comm (hi * 256) lo), Z.div_add, Z_mod_plus_full by lia.
  rewrite (Z.div_small lo), !Z.mod_small by lia. lia.
Qed.

Lemma byte_of_nibbles (x : Z) :
  is_u8 x ->
  Z.lor (Z.lor 0 (u8 (Z.shiftl (Z.shiftr x 4) 4))) (Z.land x 0x0f) = x.
Proof.
  intros Hx. apply Z.eqb_eq.
  apply (forall_u8
           (fun x =>
              Z.lor (Z.lor 0 (u8 (Z.shiftl (Z.shiftr x 4) 4)))
                    (Z.land x 0x0f) =? x)); [| exact Hx].
  vm_compute. reflexivity.
Qed.

(** X10. Encoding a decoded ConfigArg returns the 8-byte prefix and the string,
    that is the input without the bytes after the string: the first
    [8 + string_length] bytes of the input, unchanged. *)
Theorem ConfigArg_decode_encode (b : list Z) (c : ConfigArg.t) :
  bytes_ok b -> ConfigArg.UnmarshalBinary b = Ok c ->
  ConfigArg.MarshalBinary c
  = Ok (take (8 + Z.to_nat (ConfigArg.StringLength c)) b).
Proof.
  intros Hb Hdec.
  pose proof (ConfigArg_decoded_encodable b c Hb Hdec) as Henc.
  rewrite (ConfigArg_MarshalBinary_bytes c Henc).
  assert (Hlen : (8 <= length b)%nat).
  { unfold ConfigArg.UnmarshalBinary in Hdec.
    destruct (length b <? configArgLen)%nat eqn:Hl; [discriminate |].
    apply Nat.ltb_ge in Hl. exact Hl. }
  open_slice b Hlen 8.
  assert (H0 : is_u8 z) by (apply (bytes_ok_lookup _ 0 _ Hb); reflexivity).
  assert (H1 : is_u8 z0) by (apply (bytes_ok_lookup _ 1 _ Hb); reflexivity).
  assert (H2 : is_u8 z1) by (apply (bytes_ok_lookup _ 2 _ Hb); reflexivity).
  assert (H3 : is_u8 z2) by (apply (bytes_ok_lookup _ 3 _ Hb); reflexivity).
  assert (H5 : is_u8 z4) by (apply (bytes_ok_lookup _ 5 _ Hb); reflexivity).
  assert (H6 : is_u8 z5) by (apply (bytes_ok_lookup _ 6 _ Hb); reflexivity).
  assert (H7 : is_u8 z6) by (apply (bytes_ok_lookup _ 7 _ Hb); reflexivity).
  rewrite ConfigArg_UnmarshalBinary_open in Hdec by assumption.
  destruct (Z.of_nat (length b) <? z5 * 256 + z6); [discriminate |].
  destruct (1024 <? z5 * 256 + z6); [discriminate |].
  injection Hdec as <-.
  unfold ConfigArg_vc.
  cbn [ConfigArg.BufferCount ConfigArg.FirmwareVersion
       ConfigArg.SectorCount ConfigArg.Version ConfigArg.Command
       ConfigArg.StringLength ConfigArg.String].
  destruct (u16_of_bytes z z0 H0 H1) as [-> ->].
  destruct (u16_of_bytes z1 z2 H2 H3) as [-> ->].
  destruct (u16_of_bytes z5 z6 H6 H7) as [-> ->].
  rewrite (byte_of_nibbles z4 H5).
  reflexivity.
Qed.

Lemma ConfigArg_decode_encode_witness :
  exists c,
    ConfigArg.UnmarshalBinary
      [0; 10; 0; 1; 2; 0x12; 0; 3; 0x66; 0x6f; 0x6f; 0; 0] = Ok c
    /\ ConfigArg.MarshalBinary c
       = Ok [0; 10; 0; 1; 2; 0x12; 0; 3; 0x66; 0x6f; 0x6f].
Proof.
  eexists. split; [reflexivity |].
  apply (ConfigArg_decode_encode
           [0; 10; 0; 1; 2; 0x12; 0; 3; 0x66; 0x6f; 0x6f; 0; 0]).
  - unfold bytes_ok. repeat (constructor; [unfold is_u8; lia |]).
    constructor.
  - reflexivity.
Defined.

(** ** Directive *)

(** The decoder of a directive, case by case. *)
Lemma Directive_UnmarshalBinary_cases (b : list Z) :
  match Directive.UnmarshalBinary b with
  | Ok d => length b = 8%nat /\ b !! 0%nat = Some 0 /\ Directive_bytes d = b
  | Err e =>
      (e = io_ErrUnexpectedEOF /\ length b <> 8%nat)
      \/ (e = error_of ErrorBadArgumentParameter
          /\ length b = 8%nat /\ b !! 0%nat <> Some 0)
  | Panic => False
  end.
Proof.
  unfold Directive.UnmarshalBinary.
  destruct (length b =? directiveLen)%nat eqn:Hl; cbn [negb].
  2:{ apply Nat.eqb_neq in Hl. left. split; [reflexivity | exact Hl]. }
  apply Nat.eqb_eq in Hl. change directiveLen with 8%nat in Hl.
  do 8 (destruct b as [| ? b]; [discriminate |]).
  destruct b; [| discriminate].
  cbn [Slice.index lookup list_lookup bind].
  destruct (Z.eqb_spec z 0) as [-> | Hz]; cbn [negb].
  - repeat split.
  - right. repeat split. congruence.
Qed.

(** X11. What [Directive.UnmarshalBinary] accepts. It never panics. It succeeds
    exactly on the 8-byte inputs whose reserved byte 0 is zero, and encoding
    the directive that it returns gives the input back. It fails with
    [UnexpectedEOF] on every input that does not have 8 bytes and with
    [BadArgumentParameter] on an 8-byte input whose byte 0 is not zero. *)
Theorem Directive_UnmarshalBinary_accepts (b : list Z) :
  match Directive.UnmarshalBinary b with
  | Ok d =>
      length b = 8%nat /\ b !! 0%nat = Some 0
      /\ Directive.MarshalBinary d = Ok b
  | Err e =>
      (e = io_ErrUnexpectedEOF /\ length b <> 8%nat)
      \/ (e = error_of ErrorBadArgumentParameter
          /\ length b = 8%nat /\ b !! 0%nat <> Some 0)
  | Panic => False
  end.
Proof.
  unfold Directive.UnmarshalBinary.
  destruct (length b =? directiveLen)%nat eqn:Hl; cbn [negb].
  2:{ apply Nat.eqb_neq in Hl. left. split; [reflexivity | exact Hl]. }
  apply Nat.eqb_eq in Hl. change directiveLen with 8%nat in Hl.
  do 8 (destruct b as [| ? b]; [discriminate |]).
  destruct b; [| discriminate].
  cbn [Slice.index lookup list_lookup bind].
  destruct (Z.eqb_spec z 0) as [-> | Hz]; cbn [negb].
  - repeat split.
  - right. repeat split. congruence.
Qed.

(** X12. What [Directive.MarshalBinary] accepts. It never panics. It succeeds
    exactly when the address has 6 bytes, with the 8 bytes: zero, command,
    address; otherwise it fails with [BadArgumentParameter]. *)
Theorem Directive_MarshalBinary_accepts (d : Directive.t) :
  match Directive.MarshalBinary d with
  | Ok b =>
      length (Directive.MAC d) = 6%nat
      /\ b = 0 :: Directive.Command d :: Directive.MAC d
  | Err e =>
      e = error_of ErrorBadArgumentParameter
      /\ length (Directive.MAC d) <> 6%nat
  | Panic => False
  end.
Proof.
  destruct (Nat.eq_dec (length (Directive.MAC d)) 6%nat) as [H | H].
  - rewrite (Directive_MarshalBinary_bytes d H). split; [exact H | reflexivity].
  - unfold Directive.MarshalBinary.
    apply Nat.eqb_neq in H. rewrite H. cbn [negb].
    split; [reflexivity |]. apply Nat.eqb_neq. exact H.
Qed.

(** ** MACMaskArg *)

(** The decoding loop on an input that holds every directive that is asked
    for: it cannot run out of bytes, so it succeeds, with the directives
    whose bytes are the input, or stops at the first directive whose
    reserved byte is not zero. *)
Lemma unmarshal_directives_outcome (b : list Z) :
  forall (k i : nat),
    (4 + 8 * (i + k) <= length b)%nat ->
    match MACMaskArg.unmarshal_directives b i k with
    | Ok ds =>
        flat_map Directive_bytes ds = take (8 * k) (drop (4 + 8 * i) b)
        /\ forall j : nat,
             (i <= j < i + k)%nat -> b !! (4 + 8 * j)%nat = Some 0
    | Err e =>
        e = error_of ErrorBadArgumentParameter
        /\ exists j : nat,
             (i <= j < i + k)%nat /\ b !! (4 + 8 * j)%nat <> Some 0
    | Panic => False
    end.
Proof.
  induction k as [| k IH]; intros i Hb.
  - cbn [MACMaskArg.unmarshal_directives].
    rewrite Nat.mul_0_r, take_0. split; [reflexivity | intros; lia].
  - cbn [MACMaskArg.unmarshal_directives]. change directiveLen with 8%nat.
    rewrite slice_ok by lia. cbn [bind].
    replace (4 + i * 8 + 8 - (4 + i * 8))%nat with 8%nat by lia.
    replace (4 + i * 8)%nat with (4 + 8 * i)%nat by lia.
    set (s := take 8 (drop (4 + 8 * i) b)).
    assert (Hs0 : s !! 0%nat = b !! (4 + 8 * i)%nat).
    { subst s. rewrite lookup_take_lt by lia. rewrite lookup_drop.
      f_equal. lia. }
    assert (Hsl : length s = 8%nat)
      by (subst s; rewrite length_take, length_drop; lia).
    pose proof (Directive_UnmarshalBinary_cases s) as Hd.
    destruct (Directive.UnmarshalBinary s) as [d | e |]; cbn [bind].
    + destruct Hd as (_ & H0 & Hbytes).
      specialize (IH (S i) ltac:(lia)).
      destruct (MACMaskArg.unmarshal_directives b (S i) k) as [ds | e |];
        cbn [bind].
      * destruct IH as [IHb IHz]. split.
        -- cbn [flat_map]. rewrite Hbytes, IHb. subst s.
           replace (4 + 8 * S i)%nat with (4 + 8 * i + 8)%nat by lia.
           rewrite <- (drop_drop b 8 (4 + 8 * i)), take_take_drop. f_equal. lia.
        -- intros j Hj. destruct (Nat.eq_dec j i) as [-> |];
             [rewrite <- Hs0; exact H0 | apply IHz; lia].
      * destruct IH as [-> (j & Hj & Hne)]. split; [reflexivity |].
        exists j. split; [lia | exact Hne].
      * exact IH.
    + destruct Hd as [[_ Hne] | (-> & _ & Hne)]; [contradiction |].
      split; [reflexivity |]. exists i. split; [lia |].
      rewrite <- Hs0. exact Hne.
    + exact Hd.
Qed.

(** X13. What [MACMaskArg.UnmarshalBinary] accepts. It never panics. The checks
    come in this order: an input shorter than 4 bytes fails with
    [UnexpectedEOF]; a reserved byte 0 that is not zero fails with
    [BadArgumentParameter], whatever the length; a length other than
    [4 + 8 * dir_count] fails with [UnexpectedEOF]; a directive whose
    reserved byte is not zero fails with [BadArgumentParameter]. On every
    other input it succeeds, and the directives that it returns are the
    bytes after the 4-byte prefix, 8 for each. *)
Theorem MACMaskArg_UnmarshalBinary_accepts (b : list Z) :
  match MACMaskArg.UnmarshalBinary b with
  | Ok m =>
      b !! 0%nat = Some 0
      /\ b !! 3%nat = Some (MACMaskArg.DirCount m)
      /\ Z.of_nat (length b) = 4 + 8 * MACMaskArg.DirCount m
      /\ (forall j : nat,
            Z.of_nat j < MACMaskArg.DirCount m ->
            b !! (4 + 8 * j)%nat = Some 0)
      /\ flat_map Directive_bytes (MACMaskArg.Directives m) = drop 4 b
  | Err e =>
      (e = io_ErrUnexpectedEOF
       /\ ((length b < 4)%nat
           \/ (b !! 0%nat = Some 0
               /\ exists n, b !! 3%nat = Some n
                            /\ Z.of_nat (length b) <> 4 + 8 * n)))
      \/ (e = error_of ErrorBadArgumentParameter
          /\ (4 <= length b)%nat
          /\ (b !! 0%nat <> Some 0
              \/ exists (n : Z) (j : nat),
                   b !! 3%nat = Some n
                   /\ Z.of_nat (length b) = 4 + 8 * n
                   /\ Z.of_nat j < n
                   /\ b !! (4 + 8 * j)%nat <> Some 0))
  | Panic => False
  end.
Proof.
  unfold MACMaskArg.UnmarshalBinary.
  destruct (length b <? macMaskArgLen)%nat eqn:Hlen.
  { apply Nat.ltb_lt in Hlen. left. split; [reflexivity | left; exact Hlen]. }
  apply Nat.ltb_ge in Hlen. change macMaskArgLen with 4%nat in Hlen.
  pose proof Hlen as Hlen'.
  open_slice b Hlen 4.
  cbn [Slice.index lookup list_lookup bind].
  destruct (Z.eqb_spec z 0) as [-> | Hz]; cbn [negb].
  2:{ right. repeat split; [exact Hlen' |]. left. congruence. }
  rewrite slice_from_ok by (cbn [length]; lia).
  cbn [bind drop]. rewrite drop_0. change (Z.of_nat directiveLen) with 8.
  destruct (Z.eqb_spec (Z.of_nat (length b)) (8 * z2)) as [Hl | Hl];
    cbn [negb].
  2:{ left. split; [reflexivity |]. right. split; [reflexivity |].
      exists z2. split; [reflexivity |]. cbn [length]. lia. }
  pose proof (unmarshal_directives_outcome (0 :: z0 :: z1 :: z2 :: b)
                (Z.to_nat z2) 0 ltac:(cbn [length]; lia)) as Hu.
  destruct (MACMaskArg.unmarshal_directives (0 :: z0 :: z1 :: z2 :: b) 0
              (Z.to_nat z2)) as [ds | e |]; cbn [bind].
  - destruct Hu as [Hbytes Hz].
    cbn [MACMaskArg.DirCount MACMaskArg.Directives].
    repeat split.
    + cbn [length]. lia.
    + intros j Hj. apply Hz. lia.
    + rewrite Hbytes. cbn [Nat.mul Nat.add drop]. rewrite drop_0.
      apply take_ge. lia.
  - destruct Hu as [-> (j & Hj & Hne)].
    right. repeat split; [exact Hlen' |]. right.
    exists z2, j. repeat split; [cbn [length]; lia | lia | exact Hne].
  - exact Hu.
Qed.

(** A decoded MACMaskArg on the wire: the input. *)
Lemma MACMaskArg_decoded_bytes (b : list Z) (m : MACMaskArg.t) :
  MACMaskArg.UnmarshalBinary b = Ok m ->
  b = [0; MACMaskArg.Command m; MACMaskArg.Error m; MACMaskArg.DirCount m]
      ++ flat_map Directive_bytes (MACMaskArg.Directives m).
Proof.
  unfold MACMaskArg.UnmarshalBinary.
  destruct (length b <? macMaskArgLen)%nat eqn:Hlen; [discriminate |].
  apply Nat.ltb_ge in Hlen. change macMaskArgLen with 4%nat in Hlen.
  open_slice b Hlen 4.
  cbn [Slice.index lookup list_lookup bind].
  destruct (Z.eqb_spec z 0) as [-> | Hz]; cbn [negb]; [| discriminate].
  rewrite slice_from_ok by (cbn [length]; lia).
  cbn [bind drop]. rewrite drop_0. change (Z.of_nat directiveLen) with 8.
  destruct (Z.eqb_spec (Z.of_nat (length b)) (8 * z2)) as [Hl | Hl];
    cbn [negb]; [| discriminate].
  pose proof (unmarshal_directives_outcome (0 :: z0 :: z1 :: z2 :: b)
                (Z.to_nat z2) 0 ltac:(cbn [length]; lia)) as Hu.
  destruct (MACMaskArg.unmarshal_directives (0 :: z0 :: z1 :: z2 :: b) 0
              (Z.to_nat z2)) as [ds | e |]; cbn [bind];
    [| discriminate | discriminate].
  intros H. injection H as <-.
  cbn [MACMaskArg.Command MACMaskArg.Error MACMaskArg.DirCount
       MACMaskArg.Directives app].
  destruct Hu as [-> _]. cbn [Nat.mul Nat.add drop]. rewrite drop_0.
  rewrite take_ge by lia. reflexivity.
Qed.

(** X14. Encoding a decoded MACMaskArg: with at most 31 directives the encoder
    returns the input, byte for byte; with 32 directives or more it
    panics. *)
Theorem MACMaskArg_decode_encode (b : list Z) (m : MACMaskArg.t) :
  bytes_ok b -> MACMaskArg.UnmarshalBinary b = Ok m ->
  MACMaskArg.MarshalBinary m
  = if MACMaskArg.DirCount m <=? 31 then Ok b else Panic.
Proof.
  intros Hb Hdec.
  destruct (MACMaskArg_decoded_encodable b m Hb Hdec) as [Henc Hu].
  pose proof (MACMaskArg_decoded_bytes b m Hdec) as Hbytes.
  unfold is_u8 in Hu.
  destruct (Z.leb_spec (MACMaskArg.DirCount m) 31) as [Hle | Hgt].
  - rewrite (MACMaskArg_MarshalBinary_bytes m Henc Hle), <- Hbytes.
    reflexivity.
  - apply MACMaskArg_MarshalBinary_panics; [exact Henc | lia].
Qed.

Lemma MACMaskArg_decode_encode_witness :
  MACMaskArg.MarshalBinary
    (MACMaskArg.mk 1 2 1 [Directive.mk 1 [0xde; 0xad; 0xbe; 0xef; 0xde; 0xad]])
  = Ok [0; 1; 2; 1; 0; 1; 0xde; 0xad; 0xbe; 0xef; 0xde; 0xad].
Proof.
  apply (MACMaskArg_decode_encode
           [0; 1; 2; 1; 0; 1; 0xde; 0xad; 0xbe; 0xef; 0xde; 0xad]).
  - unfold bytes_ok. repeat (constructor; [unfold is_u8; lia |]).
    constructor.
  - reflexivity.
Defined.
(** The encoding loop on any buffer: what each outcome says about the
    directives and about the room that was left. *)
Lemma marshal_directives_outcome (ds : list Directive.t) :
  forall (b : list Z) (n : nat),
    (n <= length b)%nat ->
    match MACMaskArg.marshal_directives ds b n with
    | Ok b' =>
        Forall Directive.encodable ds
        /\ (n + 8 * length ds <= length b)%nat
    | Err e =>
        e = error_of ErrorBadArgumentParameter
        /\ ~ Forall Directive.encodable ds
    | Panic => (length b < n + 8 * length ds)%nat
    end.
Proof.
  induction ds as [| d ds IH]; intros b n Hn.
  - cbn [MACMaskArg.marshal_directives length]. split; [constructor | lia].
  - cbn [MACMaskArg.marshal_directives length].
    destruct (Nat.eq_dec (length (Directive.MAC d)) 6%nat) as [Hd | Hd].
    2:{ unfold Directive.MarshalBinary.
        apply Nat.eqb_neq in Hd. rewrite Hd. cbn [negb bind].
        split; [reflexivity |]. intros Hall. inversion Hall as [| ? ? H1 H2].
        apply Nat.eqb_neq in Hd. contradiction. }
    rewrite (Directive_MarshalBinary_bytes d Hd). cbn [bind].
    change directiveLen with 8%nat.
    destruct (Nat.le_gt_cases (n + 8) (length b)) as [Hfit | Hfit].
    + destruct (Slice.copy_at b n (n + 8) (Directive_bytes d))
        as [b' | e |] eqn:Hc; cbn [bind].
      * pose proof (length_copy_at _ _ _ _ _ Hc
                      ltac:(rewrite length_Directive_bytes by exact Hd; lia))
          as Hlen.
        specialize (IH b' (n + 8)%nat ltac:(lia)).
        destruct (MACMaskArg.marshal_directives ds b' (n + 8)) as [b2 | e |].
        -- destruct IH as [Hall Hroom].
           split; [constructor; assumption | lia].
        -- destruct IH as [-> Hno]. split; [reflexivity |].
           intros Hall. inversion Hall. contradiction.
        -- lia.
      * unfold Slice.copy_at in Hc. rewrite slice_ok in Hc by lia.
        discriminate.
      * unfold Slice.copy_at in Hc. rewrite slice_ok in Hc by lia.
        discriminate.
    + unfold Slice.copy_at. rewrite slice_beyond by lia. cbn [bind]. lia.
Qed.

(** The length of the buffer that [MACMaskArg.MarshalBinary] makes: the
    count is taken modulo 32. *)
Lemma MACMaskArg_buffer_length (n : Z) :
  u8 (Z.of_nat macMaskArgLen + u8 (Z.of_nat directiveLen * n))
  = 4 + 8 * (n mod 32).
Proof.
  unfold u8. change (Z.of_nat macMaskArgLen) with 4.
  change (Z.of_nat directiveLen) with 8.
  change 256 with (8 * 32).
  rewrite Zmult_mod_distr_l.
  pose proof (Z.mod_pos_bound n 32 ltac:(lia)).
  apply Z.mod_small. lia.
Qed.

(** X15. Every outcome of [MACMaskArg.MarshalBinary]. When it returns bytes, the
    count is the number of directives, every address has 6 bytes, there are
    at most 31 directives and the output has [4 + 8 * dir_count] bytes. Its
    only error is [BadArgumentParameter], and then the count is not the
    number of directives or an address does not have 6 bytes. When it
    panics, the count is the number of directives and is 32 or more. *)
Theorem MACMaskArg_MarshalBinary_outcomes (m : MACMaskArg.t) :
  match MACMaskArg.MarshalBinary m with
  | Ok b =>
      MACMaskArg.encodable m /\ MACMaskArg.DirCount m <= 31
      /\ length b = (4 + 8 * length (MACMaskArg.Directives m))%nat
  | Err e =>
      e = error_of ErrorBadArgumentParameter /\ ~ MACMaskArg.encodable m
  | Panic =>
      MACMaskArg.DirCount m = Z.of_nat (length (MACMaskArg.Directives m))
      /\ 32 <= MACMaskArg.DirCount m
  end.
Proof.
  destruct (Z.eqb_spec (MACMaskArg.DirCount m)
              (Z.of_nat (length (MACMaskArg.Directives m)))) as [Hc | Hc].
  2:{ unfold MACMaskArg.MarshalBinary.
      apply Z.eqb_neq in Hc. rewrite Hc. cbn [negb].
      split; [reflexivity |]. intros [H' _].
      apply Z.eqb_neq in Hc. contradiction. }
  pose proof (Z.mod_pos_bound (MACMaskArg.DirCount m) 32 ltac:(lia)) as Hmod.
  assert (Hloop : exists buf,
             length buf
             = Z.to_nat (4 + 8 * (MACMaskArg.DirCount m mod 32))
             /\ MACMaskArg.MarshalBinary m
                = MACMaskArg.marshal_directives (MACMaskArg.Directives m)
                    buf 4).
  { unfold MACMaskArg.MarshalBinary.
    replace (MACMaskArg.DirCount m
             =? Z.of_nat (length (MACMaskArg.Directives m))) with true
      by (symmetry; apply Z.eqb_eq; exact Hc).
    cbn [negb]. rewrite MACMaskArg_buffer_length.
    rewrite store_lt by (rewrite length_make; lia). cbn [bind].
    rewrite store_lt by (rewrite length_insert, length_make; lia).
    cbn [bind].
    rewrite store_lt by (rewrite !length_insert, length_make; lia).
    cbn [bind]. eexists. split; [| reflexivity].
    rewrite !length_insert, length_make. reflexivity. }
  destruct Hloop as (buf & Hbuf & Hm).
  pose proof (marshal_directives_outcome (MACMaskArg.Directives m) buf 4
                ltac:(lia)) as Hout.
  rewrite <- Hm in Hout.
  destruct (MACMaskArg.MarshalBinary m) as [out | e |] eqn:Hres.
  - destruct Hout as [Hall Hroom].
    assert (Hle : MACMaskArg.DirCount m <= 31) by lia.
    assert (Henc : MACMaskArg.encodable m) by (split; assumption).
    repeat split; try assumption.
    rewrite (MACMaskArg_MarshalBinary_bytes m Henc Hle) in Hres.
    injection Hres as <-.
    cbn [app length]. rewrite length_directives_bytes by exact Hall.
    reflexivity.
  - destruct Hout as [-> Hno]. split; [reflexivity |].
    intros [_ Hall]. contradiction.
  - split; [exact Hc |].
    destruct (Z_le_gt_dec 32 (MACMaskArg.DirCount m)) as [| Hlt];
      [assumption |].
    exfalso. rewrite Z.mod_small in Hbuf by lia. lia.
Qed.

(** ** ReserveReleaseArg *)

(** The decoding loop on an input that holds every address that is asked
    for: it succeeds, and the addresses are the input, 6 bytes each. *)
Lemma unmarshal_macs_outcome (b : list Z) :
  forall (k i : nat),
    (2 + 6 * (i + k) <= length b)%nat ->
    exists ms,
      ReserveReleaseArg.unmarshal_macs b i k = Ok ms
      /\ concat ms = take (6 * k) (drop (2 + 6 * i) b).
Proof.
  induction k as [| k IH]; intros i Hb.
  - exists []. rewrite Nat.mul_0_r, take_0. split; reflexivity.
  - cbn [ReserveReleaseArg.unmarshal_macs].
    rewrite slice_ok by lia. cbn [bind].
    replace (2 + i * 6 + 6 - (2 + i * 6))%nat with 6%nat by lia.
    replace (2 + i * 6)%nat with (2 + 6 * i)%nat by lia.
    destruct (IH (S i) ltac:(lia)) as (ms & -> & Hms). cbn [bind].
    eexists. split; [reflexivity |].
    cbn [concat]. rewrite Hms.
    rewrite copy_make by (rewrite length_take, length_drop; lia).
    rewrite take_take. replace (6 `min` 6)%nat with 6%nat by reflexivity.
    replace (2 + 6 * S i)%nat with (2 + 6 * i + 6)%nat by lia.
    rewrite <- (drop_drop b 6 (2 + 6 * i)), take_take_drop. f_equal. lia.
Qed.

(** X16. What [ReserveReleaseArg.UnmarshalBinary] accepts. It never panics and
    its only error is [UnexpectedEOF]: it fails exactly on the inputs
    shorter than 2 bytes and on those whose length is not [2 + 6 * nmacs].
    On every other input it succeeds: byte 0 is the command, byte 1 the
    count, and the addresses are the bytes after the prefix. No byte of the
    input is rejected for its value. *)
Theorem ReserveReleaseArg_UnmarshalBinary_accepts (b : list Z) :
  match ReserveReleaseArg.UnmarshalBinary b with
  | Ok r =>
      b !! 0%nat = Some (ReserveReleaseArg.Command r)
      /\ b !! 1%nat = Some (ReserveReleaseArg.NMACs r)
      /\ Z.of_nat (length b) = 2 + 6 * ReserveReleaseArg.NMACs r
      /\ concat (ReserveReleaseArg.MACs r) = drop 2 b
  | Err e =>
      e = io_ErrUnexpectedEOF
      /\ ((length b < 2)%nat
          \/ exists n, b !! 1%nat = Some n
                       /\ Z.of_nat (length b) <> 2 + 6 * n)
  | Panic => False
  end.
Proof.
  unfold ReserveReleaseArg.UnmarshalBinary.
  destruct (length b <? reserveReleaseArgLen)%nat eqn:Hlen.
  { apply Nat.ltb_lt in Hlen. split; [reflexivity | left; exact Hlen]. }
  apply Nat.ltb_ge in Hlen. change reserveReleaseArgLen with 2%nat in Hlen.
  open_slice b Hlen 2.
  cbn [Slice.index lookup list_lookup bind].
  rewrite slice_from_ok by (cbn [length]; lia).
  cbn [bind drop]. rewrite drop_0.
  destruct (Z.eqb_spec (Z.of_nat (length b)) (6 * z0)) as [Hl | Hl];
    cbn [negb].
  2:{ split; [reflexivity |]. right.
      exists z0. split; [reflexivity |]. cbn [length]. lia. }
  destruct (unmarshal_macs_outcome (z :: z0 :: b) (Z.to_nat z0) 0
              ltac:(cbn [length]; lia)) as (ms & -> & Hms).
  cbn [bind ReserveReleaseArg.Command ReserveReleaseArg.NMACs
       ReserveReleaseArg.MACs].
  repeat split.
  - cbn [length]. lia.
  - rewrite Hms. cbn [Nat.mul Nat.add drop]. rewrite drop_0.
    apply take_ge. lia.
Qed.

(** A decoded ReserveReleaseArg on the wire: the input. *)
Lemma ReserveReleaseArg_decoded_bytes (b : list Z)
    (r : ReserveReleaseArg.t) :
  ReserveReleaseArg.UnmarshalBinary b = Ok r ->
  b = [ReserveReleaseArg.Command r; ReserveReleaseArg.NMACs r]
      ++ concat (ReserveReleaseArg.MACs r).
Proof.
  unfold ReserveReleaseArg.UnmarshalBinary.
  destruct (length b <? reserveReleaseArgLen)%nat eqn:Hlen; [discriminate |].
  apply Nat.ltb_ge in Hlen. change reserveReleaseArgLen with 2%nat in Hlen.
  open_slice b Hlen 2.
  cbn [Slice.index lookup list_lookup bind].
  rewrite slice_from_ok by (cbn [length]; lia).
  cbn [bind drop]. rewrite drop_0.
  destruct (Z.eqb_spec (Z.of_nat (length b)) (6 * z0)) as [Hl | Hl];
    cbn [negb]; [| discriminate].
  destruct (unmarshal_macs_outcome (z :: z0 :: b) (Z.to_nat z0) 0
              ltac:(cbn [length]; lia)) as (ms & -> & Hms).
  cbn [bind]. intros H. injection H as <-.
  cbn [ReserveReleaseArg.Command ReserveReleaseArg.NMACs
       ReserveReleaseArg.MACs app].
  rewrite Hms. cbn [Nat.mul Nat.add drop]. rewrite drop_0.
  rewrite take_ge by lia. reflexivity.
Qed.

(** X17. Encoding a decoded ReserveReleaseArg: with at most 42 addresses the
    encoder returns the input, byte for byte; with 43 addresses or more it
    panics. *)
Theorem ReserveReleaseArg_decode_encode (b : list Z)
    (r : ReserveReleaseArg.t) :
  bytes_ok b -> ReserveReleaseArg.UnmarshalBinary b = Ok r ->
  ReserveReleaseArg.MarshalBinary r
  = if ReserveReleaseArg.NMACs r <=? 42 then Ok b else Panic.
Proof.
  intros Hb Hdec.
  destruct (ReserveReleaseArg_decoded_encodable b r Hb Hdec) as [Henc Hu].
  pose proof (ReserveReleaseArg_decoded_bytes b r Hdec) as Hbytes.
  unfold is_u8 in Hu.
  destruct (Z.leb_spec (ReserveReleaseArg.NMACs r) 42) as [Hle | Hgt].
  - rewrite (ReserveReleaseArg_MarshalBinary_bytes r Henc Hle), <- Hbytes.
    reflexivity.
  - apply ReserveReleaseArg_MarshalBinary_panics; [exact Henc | lia].
Qed.

Lemma ReserveReleaseArg_decode_encode_witness :
  ReserveReleaseArg.MarshalBinary
    (ReserveReleaseArg.mk 1 1 [[0xde; 0xad; 0xbe; 0xef; 0xde; 0xad]])
  = Ok [1; 1; 0xde; 0xad; 0xbe; 0xef; 0xde; 0xad].
Proof.
  apply (ReserveReleaseArg_decode_encode
           [1; 1; 0xde; 0xad; 0xbe; 0xef; 0xde; 0xad]).
  - unfold bytes_ok. repeat (constructor; [unfold is_u8; lia |]).
    constructor.
  - reflexivity.
Defined.

(** The address loop on any buffer: what each outcome says about the
    addresses and about the room that was left. *)
Lemma marshal_macs_outcome (ms : list (list Z)) :
  forall (b : list Z) (n : nat),
    (n <= length b)%nat ->
    match ReserveReleaseArg.marshal_macs ms b n with
    | Ok b' =>
        Forall ReserveReleaseArg.mac_ok ms
        /\ (n + 6 * length ms <= length b)%nat
    | Err e =>
        e = error_of ErrorBadArgumentParameter
        /\ ~ Forall ReserveReleaseArg.mac_ok ms
    | Panic => (length b < n + 6 * length ms)%nat
    end.
Proof.
  induction ms as [| m ms IH]; intros b n Hn.
  - cbn [ReserveReleaseArg.marshal_macs length]. split; [constructor | lia].
  - cbn [ReserveReleaseArg.marshal_macs length].
    destruct (Nat.eq_dec (length m) 6%nat) as [Hd | Hd].
    2:{ apply Nat.eqb_neq in Hd. rewrite Hd. cbn [negb].
        split; [reflexivity |]. intros Hall. inversion Hall as [| ? ? H1 H2].
        apply Nat.eqb_neq in Hd. contradiction. }
    rewrite Hd. cbn [Nat.eqb negb].
    destruct (Nat.le_gt_cases (n + 6) (length b)) as [Hfit | Hfit].
    + destruct (Slice.copy_at b n (n + 6) m) as [b' | e |] eqn:Hc;
        cbn [bind].
      * pose proof (length_copy_at _ _ _ _ _ Hc ltac:(lia)) as Hlen.
        specialize (IH b' (n + 6)%nat ltac:(lia)).
        destruct (ReserveReleaseArg.marshal_macs ms b' (n + 6))
          as [b2 | e |].
        -- destruct IH as [Hall Hroom].
           split; [constructor; assumption | lia].
        -- destruct IH as [-> Hno]. split; [reflexivity |].
           intros Hall. inversion Hall. contradiction.
        -- lia.
      * unfold Slice.copy_at in Hc. rewrite slice_ok in Hc by lia.
        discriminate.
      * unfold Slice.copy_at in Hc. rewrite slice_ok in Hc by lia.
        discriminate.
    + unfold Slice.copy_at. rewrite slice_beyond by lia. cbn [bind]. lia.
Qed.

(** X18. Every outcome of [ReserveReleaseArg.MarshalBinary]. When it returns
    bytes, the count is the number of addresses, every address has 6 bytes,
    there are at most 42 addresses and the output has [2 + 6 * nmacs] bytes.
    Its only error is [BadArgumentParameter], and then the count is not the
    number of addresses or an address does not have 6 bytes. When it panics,
    the count is the number of addresses and is 43 or more. *)
Theorem ReserveReleaseArg_MarshalBinary_outcomes (r : ReserveReleaseArg.t) :
  match ReserveReleaseArg.MarshalBinary r with
  | Ok b =>
      ReserveReleaseArg.encodable r /\ ReserveReleaseArg.NMACs r <= 42
      /\ length b = (2 + 6 * length (ReserveReleaseArg.MACs r))%nat
  | Err e =>
      e = error_of ErrorBadArgumentParameter
      /\ ~ ReserveReleaseArg.encodable r
  | Panic =>
      ReserveReleaseArg.NMACs r
      = Z.of_nat (length (ReserveReleaseArg.MACs r))
      /\ 43 <= ReserveReleaseArg.NMACs r
  end.
Proof.
  destruct (Z.eqb_spec (ReserveReleaseArg.NMACs r)
              (Z.of_nat (length (ReserveReleaseArg.MACs r)))) as [Hc | Hc].
  2:{ unfold ReserveReleaseArg.MarshalBinary.
      apply Z.eqb_neq in Hc. rewrite Hc. cbn [negb].
      split; [reflexivity |]. intros [H' _].
      apply Z.eqb_neq in Hc. contradiction. }
  set (L := Z.to_nat (u8 (Z.of_nat reserveReleaseArgLen
                          + u8 (ReserveReleaseArg.NMACs r * 6)))).
  assert (HL : (L < 256)%nat).
  { subst L. unfold u8.
    pose proof (Z.mod_pos_bound
                  (Z.of_nat reserveReleaseArgLen
                   + (ReserveReleaseArg.NMACs r * 6) mod 256) 256
                  ltac:(lia)).
    lia. }
  assert (HLs : ReserveReleaseArg.NMACs r <= 42 ->
                L = (2 + 6 * length (ReserveReleaseArg.MACs r))%nat).
  { intros Hle. subst L. unfold u8.
    change (Z.of_nat reserveReleaseArgLen) with 2.
    rewrite (Z.mod_small (ReserveReleaseArg.NMACs r * 6)) by lia.
    rewrite Z.mod_small by lia. lia. }
  assert (Hloop :
    (L < 2)%nat /\ ReserveReleaseArg.MarshalBinary r = Panic
    \/ exists buf,
         (2 <= length buf)%nat /\ length buf = L
         /\ ReserveReleaseArg.MarshalBinary r
            = ReserveReleaseArg.marshal_macs (ReserveReleaseArg.MACs r)
                buf 2).
  { unfold ReserveReleaseArg.MarshalBinary.
    replace (ReserveReleaseArg.NMACs r
             =? Z.of_nat (length (ReserveReleaseArg.MACs r))) with true
      by (symmetry; apply Z.eqb_eq; exact Hc).
    cbn [negb]. fold L.
    destruct (Nat.lt_ge_cases L 2) as [Hlt | Hge].
    - left. split; [exact Hlt |].
      destruct (Nat.lt_ge_cases 0 L) as [H0 | H0].
      + rewrite store_lt by (rewrite length_make; lia). cbn [bind].
        rewrite store_ge by (rewrite length_insert, length_make; lia).
        reflexivity.
      + rewrite store_ge by (rewrite length_make; lia). reflexivity.
    - right.
      rewrite store_lt by (rewrite length_make; lia). cbn [bind].
      rewrite store_lt by (rewrite length_insert, length_make; lia).
      cbn [bind]. eexists.
      split; [| split; [| reflexivity]];
        rewrite !length_insert, length_make; [exact Hge | reflexivity]. }
  destruct Hloop as [[Hlt Hp] | (buf & Hge & Hbuf & Hm)].
  { rewrite Hp. split; [exact Hc |].
    destruct (Z_le_gt_dec 43 (ReserveReleaseArg.NMACs r)) as [| Hlt'];
      [assumption |].
    exfalso. specialize (HLs ltac:(lia)). lia. }
  pose proof (marshal_macs_outcome (ReserveReleaseArg.MACs r) buf 2
                ltac:(lia)) as Hout.
  rewrite <- Hm in Hout.
  destruct (ReserveReleaseArg.MarshalBinary r) as [out | e |] eqn:Hres.
  - destruct Hout as [Hall Hroom].
    assert (Hle : ReserveReleaseArg.NMACs r <= 42) by lia.
    assert (Henc : ReserveReleaseArg.encodable r) by (split; assumption).
    repeat split; try assumption.
    rewrite (ReserveReleaseArg_MarshalBinary_bytes r Henc Hle) in Hres.
    injection Hres as <-.
    cbn [app length]. rewrite length_concat_macs by exact Hall.
    reflexivity.
  - destruct Hout as [-> Hno]. split; [reflexivity |].
    intros [_ Hall]. contradiction.
  - split; [exact Hc |].
    destruct (Z_le_gt_dec 43 (ReserveReleaseArg.NMACs r)) as [| Hlt];
      [assumption |].
    exfalso. specialize (HLs ltac:(lia)). lia.
Qed.

(** ** Header *)

(** X19. Every outcome of [Header.MarshalBinary]. The version is checked first: a
    version other than 1 fails with [UnsupportedVersion], also when there is
    no argument. Then a nil argument fails with [BadArgumentParameter]. Then
    the argument is encoded: its error is returned as it is and its panic is
    the panic of the header. Otherwise the output is the 10-byte prefix
    followed by the bytes of the argument. The command is written and never
    compared with the variant of the argument. *)
Theorem Header_MarshalBinary_outcomes (h : Header.t) :
  match Header.MarshalBinary h with
  | Ok b =>
      Header.Version h = aoe.Version
      /\ exists a ab,
           Header.Arg h = Some a /\ Arg.MarshalBinary a = Ok ab
           /\ b = Header_prefix h ++ ab
  | Err e =>
      (e = error_of ErrorUnsupportedVersion
       /\ Header.Version h <> aoe.Version)
      \/ (e = error_of ErrorBadArgumentParameter
          /\ Header.Version h = aoe.Version /\ Header.Arg h = None)
      \/ (Header.Version h = aoe.Version
          /\ exists a,
               Header.Arg h = Some a /\ Arg.MarshalBinary a = Err e)
  | Panic =>
      Header.Version h = aoe.Version
      /\ exists a, Header.Arg h = Some a /\ Arg.MarshalBinary a = Panic
  end.
Proof.
  destruct (Z.eqb_spec (Header.Version h) aoe.Version) as [Hv | Hv].
  2:{ unfold Header.MarshalBinary.
      apply Z.eqb_neq in Hv. rewrite Hv. cbn [negb].
      left. split; [reflexivity |]. apply Z.eqb_neq. exact Hv. }
  destruct (Header.Arg h) as [a |] eqn:Ha.
  2:{ unfold Header.MarshalBinary. rewrite Hv, Z.eqb_refl, Ha. cbn [negb].
      right. left. repeat split. }
  destruct (Arg.MarshalBinary a) as [ab | e |] eqn:Hab.
  - rewrite (Header_MarshalBinary_bytes h a ab Hv Ha Hab).
    split; [exact Hv |]. exists a, ab. repeat split. exact Hab.
  - unfold Header.MarshalBinary.
    rewrite Hv, Z.eqb_refl, Ha, Hab. cbn [negb bind].
    right. right. split; [reflexivity |]. exists a.
    split; [reflexivity | exact Hab].
  - unfold Header.MarshalBinary.
    rewrite Hv, Z.eqb_refl, Ha, Hab. cbn [negb bind].
    split; [reflexivity |]. exists a. split; [reflexivity | exact Hab].
Qed.

(** The bytes of an opened input, one fact for each. *)
Ltac open_bytes H :=
  unfold bytes_ok in H;
  repeat match type of H with
         | Forall is_u8 (_ :: _) =>
             let Hx := fresh "Hu" in
             pose proof (Forall_inv H) as Hx; apply Forall_inv_tail in H
         end.

(** Byte 0 of a version 1 header, as the encoder builds it from what the
    decoder reads: the two low bits are cleared. *)
Lemma Header_vf_mask (x : Z) (e : Z) (maj mnr cmd : Z) (tag : array4)
    (arg : option Arg.t) :
  is_u8 x -> Z.shiftr x 4 = aoe.Version ->
  Header_vf
    {| Header.Version := Z.shiftr x 4;
       Header.FlagResponse := negb (Z.land x 0x08 =? 0);
       Header.FlagError := negb (Z.land x 0x04 =? 0);
       Header.Error := e;
       Header.Major := maj;
       Header.Minor := mnr;
       Header.Command := cmd;
       Header.Tag := tag;
       Header.Arg := arg |}
  = Z.land x 0xfc.
Proof.
  intros Hx Hv. unfold Header_vf.
  cbn [Header.Version Header.FlagResponse Header.FlagError].
  revert Hv.
  pose proof (forall_u8
    (fun x =>
       implb (Z.shiftr x 4 =? aoe.Version)
         ((let vf := 0 in
           let vf := Z.lor vf (u8 (Z.shiftl (Z.shiftr x 4) 4)) in
           let vf := if negb (Z.land x 0x08 =? 0)
                     then Z.lor vf (Z.shiftl 1 3) else vf in
           if negb (Z.land x 0x04 =? 0) then Z.lor vf (Z.shiftl 1 2)
           else vf) =? Z.land x 0xfc))
    ltac:(vm_compute; reflexivity) x Hx) as H.
  cbv beta in H. intros Hv.
  apply Z.eqb_eq in Hv. rewrite Hv in H. cbn [implb] in H.
  apply Z.eqb_eq in H. exact H.
Qed.

(** The prefix of a decoded header on the wire: the first 10 bytes of the
    input, without the two low bits of byte 0. *)
Lemma Header_decoded_prefix (b : list Z) (h : Header.t) :
  bytes_ok b -> Header.UnmarshalBinary b = Ok h ->
  exists b0, b !! 0%nat = Some b0
             /\ Header_prefix h = Z.land b0 0xfc :: take 9 (drop 1 b).
Proof.
  intros Hb. unfold Header.UnmarshalBinary.
  destruct (length b <? headerLen)%nat eqn:Hlen; [discriminate |].
  apply Nat.ltb_ge in Hlen. unfold headerLen in Hlen. cbn in Hlen.
  open_slice b Hlen 10. open_bytes Hb.
  cbn [Slice.index lookup list_lookup bind].
  destruct (Z.eqb_spec (Z.shiftr z 4) aoe.Version) as [Hv |];
    [| discriminate].
  cbn [negb]. unfold Slice.slice.
  cbn [length Nat.leb andb bind take drop Nat.sub].
  rewrite BigEndian_Uint16_pair by assumption.
  cbn [bind Slice.index lookup list_lookup].
  rewrite slice_from_ok by (cbn [length]; lia).
  cbn [bind drop]. rewrite take_0.
  change (Slice.copy (Slice.make 4) [z5; z6; z7; z8]) with [z5; z6; z7; z8].
  cbn [lookup_total list_lookup_total].
  intros Hdec. exists z. split; [reflexivity |].
  assert (Hp : forall a,
    Header_prefix
      {| Header.Version := Z.shiftr z 4;
         Header.FlagResponse := negb (Z.land z 0x08 =? 0);
         Header.FlagError := negb (Z.land z 0x04 =? 0);
         Header.Error := z0;
         Header.Major := z1 * 256 + z2;
         Header.Minor := z3;
         Header.Command := z4;
         Header.Tag := (z5, z6, z7, z8);
         Header.Arg := Some a |}
    = [Z.land z 0xfc; z0; z1; z2; z3; z4; z5; z6; z7; z8]).
  { intros a. unfold Header_prefix.
    rewrite Header_vf_mask by assumption.
    cbn [Header.Tag Header.Error Header.Major Header.Minor Header.Command].
    destruct (u16_of_bytes z1 z2) as [-> ->]; try assumption.
    reflexivity. }
  destruct (z4 =? CommandIssueATACommand);
    [| destruct (z4 =? CommandQueryConfigInformation);
       [| destruct (z4 =? CommandMACMaskList);
          [| destruct (z4 =? CommandReserveRelease); [| discriminate]]]].
  - destruct (ATAArg.UnmarshalBinary _) as [x | |];
      cbn [bind] in Hdec; [| discriminate | discriminate].
    injection Hdec as <-. apply Hp.
  - destruct (ConfigArg.UnmarshalBinary _) as [x | |];
      cbn [bind] in Hdec; [| discriminate | discriminate].
    injection Hdec as <-. apply Hp.
  - destruct (MACMaskArg.UnmarshalBinary _) as [x | |];
      cbn [bind] in Hdec; [| discriminate | discriminate].
    injection Hdec as <-. apply Hp.
  - destruct (ReserveReleaseArg.UnmarshalBinary _) as [x | |];
      cbn [bind] in Hdec; [| discriminate | discriminate].
    injection Hdec as <-. apply Hp.
Qed.

(** X20. Encoding a decoded Header. When the encoder returns bytes, they are the
    first 10 bytes of the input with the two low bits of byte 0 cleared,
    followed by the encoding of the argument, which is what the decoder of
    its variant returned for the input from byte 10 on. *)
Theorem Header_decode_encode (b out : list Z) (h : Header.t) :
  bytes_ok b -> Header.UnmarshalBinary b = Ok h ->
  Header.MarshalBinary h = Ok out ->
  exists b0 a ab,
    b !! 0%nat = Some b0 /\ Header.Arg h = Some a
    /\ Arg_UnmarshalBinary_as a (drop 10 b) = Ok a
    /\ Arg.MarshalBinary a = Ok ab
    /\ out = Z.land b0 0xfc :: take 9 (drop 1 b) ++ ab.
Proof.
  intros Hb Hdec Henc.
  destruct (Header_decoded b h Hdec) as (Hv & a & Ha & Hda).
  destruct (Header_decoded_prefix b h Hb Hdec) as (b0 & H0 & Hp).
  exists b0, a.
  destruct (Arg.MarshalBinary a) as [ab | e |] eqn:Hab.
  - exists ab. rewrite (Header_MarshalBinary_bytes h a ab Hv Ha Hab) in Henc.
    injection Henc as <-. rewrite Hp. repeat split; assumption.
  - unfold Header.MarshalBinary in Henc.
    rewrite Hv, Z.eqb_refl, Ha, Hab in Henc. discriminate.
  - unfold Header.MarshalBinary in Henc.
    rewrite Hv, Z.eqb_refl, Ha, Hab in Henc. discriminate.
Qed.

Lemma Header_decode_encode_witness :
  exists b0 a ab,
    header_config_padded !! 0%nat = Some b0
    /\ Header.Arg header_config = Some a
    /\ Arg_UnmarshalBinary_as a (drop 10 header_config_padded) = Ok a
    /\ Arg.MarshalBinary a = Ok ab
    /\ [0x10; 0; 0; 1; 2; 1; 0; 0; 0; 10;
        0; 10; 0; 1; 2; 0x12; 0; 3; 0x66; 0x6f; 0x6f]
       = Z.land b0 0xfc :: take 9 (drop 1 header_config_padded) ++ ab.
Proof.
  apply (Header_decode_encode header_config_padded _ header_config).
  - unfold bytes_ok, header_config_padded.
    repeat (constructor; [unfold is_u8; lia |]). constructor.
  - vm_compute. reflexivity.
  - vm_compute. reflexivity.
Defined.

(** ** Fuzz *)

(** A decoded ConfigArg is a value of its Go type, with a version of 4
    bits. *)
Lemma ConfigArg_decoded_well_typed (b : list Z) (c : ConfigArg.t) :
  bytes_ok b -> ConfigArg.UnmarshalBinary b = Ok c ->
  ConfigArg.well_typed c /\ ConfigArg.Version c <= 15.
Proof.
  intros Hb Hdec.
  assert (Hlen : (8 <= length b)%nat).
  { unfold ConfigArg.UnmarshalBinary in Hdec.
    destruct (length b <? configArgLen)%nat eqn:Hl; [discriminate |].
    apply Nat.ltb_ge in Hl. exact Hl. }
  open_slice b Hlen 8. open_bytes Hb.
  rewrite ConfigArg_UnmarshalBinary_open in Hdec by assumption.
  destruct (Z.of_nat (length b) <? z5 * 256 + z6); [discriminate |].
  destruct (1024 <? z5 * 256 + z6); [discriminate |].
  injection Hdec as <-.
  unfold ConfigArg.well_typed, is_u16, is_u8 in *.
  cbn [ConfigArg.BufferCount ConfigArg.FirmwareVersion
       ConfigArg.SectorCount ConfigArg.Version ConfigArg.Command
       ConfigArg.StringLength ConfigArg.String].
  assert (Hs : 0 <= Z.shiftr z4 4 <= 15).
  { rewrite Z.shiftr_div_pow2 by lia. change (2 ^ 4) with 16.
    split; [apply Z.div_pos; lia |].
    assert (z4 / 16 < 16) by (apply Z.div_lt_upper_bound; lia). lia. }
  assert (Hl : 0 <= Z.land z4 0x0f < 16).
  { change 0x0f with (Z.ones 4). rewrite Z.land_ones by lia.
    apply Z.mod_pos_bound. lia. }
  repeat split; try lia.
  apply Forall_take. exact Hb.
Qed.

(** Decoding is stable under encoding, for the argument: the encoding of a
    decoded argument decodes to the same argument. *)
Lemma Arg_decode_stable (a : Arg.t) (tl ab : list Z) :
  bytes_ok tl -> Arg_UnmarshalBinary_as a tl = Ok a ->
  Arg.MarshalBinary a = Ok ab ->
  Arg_UnmarshalBinary_as a ab = Ok a.
Proof.
  intros Hb Hdec Henc.
  destruct a as [x | c | m | r];
    cbn [Arg_UnmarshalBinary_as Arg.MarshalBinary] in *.
  - destruct (ATAArg_roundtrip x) as (b & Hm & Hu).
    rewrite Hm in Henc. injection Henc as <-. rewrite Hu. reflexivity.
  - destruct (ConfigArg.UnmarshalBinary tl) as [c' | |] eqn:Hc;
      cbn [bind] in Hdec; [| discriminate | discriminate].
    injection Hdec as ->.
    destruct (ConfigArg_decoded_well_typed _ _ Hb Hc) as [Hwt Hv].
    pose proof (ConfigArg_decoded_encodable _ _ Hb Hc) as Hen.
    destruct (ConfigArg_roundtrip_mod16 c Hwt Hen) as (b & Hm & Hu).
    rewrite Hm in Henc. injection Henc as <-. rewrite Hu. cbn [bind].
    destruct Hwt as (_ & _ & _ & Hv8 & _). unfold is_u8 in Hv8.
    rewrite Z.mod_small by lia. destruct c. reflexivity.
  - destruct (MACMaskArg.UnmarshalBinary tl) as [m' | |] eqn:Hm;
      cbn [bind] in Hdec; [| discriminate | discriminate].
    injection Hdec as ->.
    destruct (MACMaskArg_decoded_encodable _ _ Hb Hm) as [Hen Hu].
    unfold is_u8 in Hu.
    destruct (Z_le_gt_dec (MACMaskArg.DirCount m) 31) as [Hle | Hgt].
    + rewrite (MACMaskArg_MarshalBinary_bytes m Hen Hle) in Henc.
      rewrite <- (MACMaskArg_decoded_bytes tl m Hm) in Henc.
      injection Henc as <-. rewrite Hm. reflexivity.
    + rewrite MACMaskArg_MarshalBinary_panics in Henc by (auto; lia).
      discriminate.
  - destruct (ReserveReleaseArg.UnmarshalBinary tl) as [r' | |] eqn:Hr;
      cbn [bind] in Hdec; [| discriminate | discriminate].
    injection Hdec as ->.
    destruct (ReserveReleaseArg_decoded_encodable _ _ Hb Hr) as [Hen Hu].
    unfold is_u8 in Hu.
    destruct (Z_le_gt_dec (ReserveReleaseArg.NMACs r) 42) as [Hle | Hgt].
    + rewrite (ReserveReleaseArg_MarshalBinary_bytes r Hen Hle) in Henc.
      rewrite <- (ReserveReleaseArg_decoded_bytes tl r Hr) in Henc.
      injection Henc as <-. rewrite Hr. reflexivity.
    + rewrite ReserveReleaseArg_MarshalBinary_panics in Henc by (auto; lia).
      discriminate.
Qed.
(** The major number of a decoded header is a 16-bit value, and its command
    is the code of the variant of its argument. *)
Lemma Header_decoded_command (b : list Z) (h : Header.t) :
  bytes_ok b -> Header.UnmarshalBinary b = Ok h ->
  is_u16 (Header.Major h)
  /\ exists a, Header.Arg h = Some a /\ Header.Command h = Arg_command a.
Proof.
  intros Hb. unfold Header.UnmarshalBinary.
  destruct (length b <? headerLen)%nat eqn:Hlen; [discriminate |].
  apply Nat.ltb_ge in Hlen. unfold headerLen in Hlen. cbn in Hlen.
  open_slice b Hlen 10. open_bytes Hb.
  cbn [Slice.index lookup list_lookup bind].
  destruct (Z.eqb_spec (Z.shiftr z 4) aoe.Version) as [Hv |];
    [| discriminate].
  cbn [negb]. unfold Slice.slice.
  cbn [length Nat.leb andb bind take drop Nat.sub].
  rewrite BigEndian_Uint16_pair by assumption.
  cbn [bind Slice.index lookup list_lookup].
  rewrite slice_from_ok by (cbn [length]; lia).
  cbn [bind drop].
  assert (Hmaj : is_u16 (z1 * 256 + z2)) by (unfold is_u16, is_u8 in *; lia).
  destruct (Z.eqb_spec z4 CommandIssueATACommand) as [-> |];
    [| destruct (Z.eqb_spec z4 CommandQueryConfigInformation) as [-> |];
       [| destruct (Z.eqb_spec z4 CommandMACMaskList) as [-> |];
          [| destruct (Z.eqb_spec z4 CommandReserveRelease) as [-> |];
             [| discriminate]]]].
  - destruct (ATAArg.UnmarshalBinary _) as [x | |];
      cbn [bind]; [| discriminate | discriminate].
    intros H. injection H as <-. split; [exact Hmaj |].
    eexists. split; reflexivity.
  - destruct (ConfigArg.UnmarshalBinary _) as [x | |];
      cbn [bind]; [| discriminate | discriminate].
    intros H. injection H as <-. split; [exact Hmaj |].
    eexists. split; reflexivity.
  - destruct (MACMaskArg.UnmarshalBinary _) as [x | |];
      cbn [bind]; [| discriminate | discriminate].
    intros H. injection H as <-. split; [exact Hmaj |].
    eexists. split; reflexivity.
  - destruct (ReserveReleaseArg.UnmarshalBinary _) as [x | |];
      cbn [bind]; [| discriminate | discriminate].
    intros H. injection H as <-. split; [exact Hmaj |].
    eexists. split; reflexivity.
Qed.

(** Decoding is stable under encoding, for the header. *)
Lemma Header_decode_stable (b out : list Z) (h : Header.t) :
  bytes_ok b -> Header.UnmarshalBinary b = Ok h ->
  Header.MarshalBinary h = Ok out ->
  Header.UnmarshalBinary out = Ok h.
Proof.
  intros Hb Hdec Henc.
  destruct (Header_decoded b h Hdec) as (Hv & a & Ha & Hda).
  destruct (Header_decoded_command b h Hb Hdec) as (Hmaj & a' & Ha' & Hcmd).
  rewrite Ha in Ha'. injection Ha' as <-.
  assert (Htl : bytes_ok (drop 10 b)).
  { unfold bytes_ok in *. apply Forall_drop. exact Hb. }
  destruct (Arg.MarshalBinary a) as [ab | e |] eqn:Hab.
  - rewrite (Header_MarshalBinary_bytes h a ab Hv Ha Hab) in Henc.
    injection Henc as <-.
    apply (Header_UnmarshalBinary_bytes h a ab Hv Hmaj Ha Hcmd).
    exact (Arg_decode_stable a (drop 10 b) ab Htl Hda Hab).
  - unfold Header.MarshalBinary in Henc.
    rewrite Hv, Z.eqb_refl, Ha, Hab in Henc. discriminate.
  - unfold Header.MarshalBinary in Henc.
    rewrite Hv, Z.eqb_refl, Ha, Hab in Henc. discriminate.
Qed.
(** No decoder indexes its input out of range. *)
Lemma ATAArg_UnmarshalBinary_total (b : list Z) :
  ATAArg.UnmarshalBinary b <> Panic.
Proof.
  unfold ATAArg.UnmarshalBinary.
  destruct (length b <? ataArgLen)%nat eqn:Hlen; [discriminate |].
  apply Nat.ltb_ge in Hlen. change ataArgLen with 12%nat in Hlen.
  open_slice b Hlen 12.
  cbn [Slice.index lookup list_lookup bind].
  destruct (negb (z9 =? 0) || negb (z10 =? 0))%bool; [discriminate |].
  rewrite slice_from_ok by (cbn [length]; lia). discriminate.
Qed.

Lemma ConfigArg_UnmarshalBinary_total (b : list Z) :
  ConfigArg.UnmarshalBinary b <> Panic.
Proof.
  unfold ConfigArg.UnmarshalBinary.
  destruct (length b <? configArgLen)%nat eqn:Hlen; [discriminate |].
  apply Nat.ltb_ge in Hlen. change configArgLen with 8%nat in Hlen.
  open_slice b Hlen 8.
  unfold Slice.slice, binary.BigEndian_Uint16.
  cbn [length Nat.leb andb bind take drop Nat.sub Slice.index lookup
       list_lookup].
  rewrite slice_from_ok by (cbn [length]; lia). cbn [bind].
  repeat match goal with
         | |- context [if ?c then _ else _] => destruct c
         end; discriminate.
Qed.

Lemma MACMaskArg_UnmarshalBinary_total (b : list Z) :
  MACMaskArg.UnmarshalBinary b <> Panic.
Proof.
  unfold MACMaskArg.UnmarshalBinary.
  destruct (length b <? macMaskArgLen)%nat eqn:Hlen; [discriminate |].
  apply Nat.ltb_ge in Hlen. change macMaskArgLen with 4%nat in Hlen.
  open_slice b Hlen 4.
  cbn [Slice.index lookup list_lookup bind].
  destruct (negb (z =? 0)); [discriminate |].
  rewrite slice_from_ok by (cbn [length]; lia).
  cbn [bind drop]. rewrite drop_0. change (Z.of_nat directiveLen) with 8.
  destruct (Z.eqb_spec (Z.of_nat (length b)) (8 * z2)) as [Hl | Hl];
    cbn [negb]; [| discriminate].
  pose proof (unmarshal_directives_outcome (z :: z0 :: z1 :: z2 :: b)
                (Z.to_nat z2) 0 ltac:(cbn [length]; lia)) as Hu.
  destruct (MACMaskArg.unmarshal_directives (z :: z0 :: z1 :: z2 :: b) 0
              (Z.to_nat z2)); [discriminate | discriminate | contradiction].
Qed.

Lemma ReserveReleaseArg_UnmarshalBinary_total (b : list Z) :
  ReserveReleaseArg.UnmarshalBinary b <> Panic.
Proof.
  unfold ReserveReleaseArg.UnmarshalBinary.
  destruct (length b <? reserveReleaseArgLen)%nat eqn:Hlen; [discriminate |].
  apply Nat.ltb_ge in Hlen. change reserveReleaseArgLen with 2%nat in Hlen.
  open_slice b Hlen 2.
  cbn [Slice.index lookup list_lookup bind].
  rewrite slice_from_ok by (cbn [length]; lia).
  cbn [bind drop]. rewrite drop_0.
  destruct (Z.eqb_spec (Z.of_nat (length b)) (6 * z0)) as [Hl | Hl];
    cbn [negb]; [| discriminate].
  destruct (unmarshal_macs_outcome (z :: z0 :: b) (Z.to_nat z0) 0
              ltac:(cbn [length]; lia)) as (ms & -> & _).
  discriminate.
Qed.

Lemma Header_UnmarshalBinary_total (b : list Z) :
  Header.UnmarshalBinary b <> Panic.
Proof.
  unfold Header.UnmarshalBinary.
  destruct (length b <? headerLen)%nat eqn:Hlen; [discriminate |].
  apply Nat.ltb_ge in Hlen. unfold headerLen in Hlen. cbn in Hlen.
  open_slice b Hlen 10.
  cbn [Slice.index lookup list_lookup bind].
  destruct (negb (Z.shiftr z 4 =? aoe.Version)); [discriminate |].
  unfold Slice.slice, binary.BigEndian_Uint16.
  cbn [length Nat.leb andb bind take drop Nat.sub Slice.index lookup
       list_lookup].
  rewrite slice_from_ok by (cbn [length]; lia).
  cbn [bind drop]. rewrite drop_0.
  destruct (z4 =? CommandIssueATACommand);
    [| destruct (z4 =? CommandQueryConfigInformation);
       [| destruct (z4 =? CommandMACMaskList);
          [| destruct (z4 =? CommandReserveRelease); [| discriminate]]]].
  - pose proof (ATAArg_UnmarshalBinary_total b).
    destruct (ATAArg.UnmarshalBinary b); cbn [bind];
      [discriminate .. | contradiction].
  - pose proof (ConfigArg_UnmarshalBinary_total b).
    destruct (ConfigArg.UnmarshalBinary b); cbn [bind];
      [discriminate .. | contradiction].
  - pose proof (MACMaskArg_UnmarshalBinary_total b).
    destruct (MACMaskArg.UnmarshalBinary b); cbn [bind];
      [discriminate .. | contradiction].
  - pose proof (ReserveReleaseArg_UnmarshalBinary_total b).
    destruct (ReserveReleaseArg.UnmarshalBinary b); cbn [bind];
      [discriminate .. | contradiction].
Qed.

(** X21. Every outcome of [Fuzz] on an input of bytes. The decoder never panics.
    When it rejects the input, [Fuzz] returns 0. When it accepts it, the
    encoder never returns an error, so the explicit [panic(err)] of [Fuzz]
    is never reached: either the encoder returns bytes, which decode to the
    same header, and [Fuzz] returns 1, or the encoder itself panics, and
    then the argument is a MACMaskArg with 32 directives or more or a
    ReserveReleaseArg with 43 addresses or more. *)
Theorem Fuzz_outcomes (data : list Z) :
  bytes_ok data ->
  match Header.UnmarshalBinary data with
  | Err _ => Fuzz data = Some 0
  | Ok h =>
      (Fuzz data = Some 1
       /\ exists out,
            Header.MarshalBinary h = Ok out
            /\ Header.UnmarshalBinary out = Ok h)
      \/ (Fuzz data = None
          /\ Header.MarshalBinary h = Panic
          /\ ((exists m, Header.Arg h = Some (Arg.MACMask m)
                         /\ 32 <= MACMaskArg.DirCount m)
              \/ (exists r, Header.Arg h = Some (Arg.ReserveRelease r)
                            /\ 43 <= ReserveReleaseArg.NMACs r)))
  | Panic => False
  end.
Proof.
  intros Hb. unfold Fuzz.
  pose proof (Header_UnmarshalBinary_total data) as Htot.
  destruct (Header.UnmarshalBinary data) as [h | e |] eqn:Hdec;
    [| reflexivity | contradiction].
  destruct (decoded_header_encodes data h Hb Hdec) as [[out Hout] | [Hp Hl]].
  - left. rewrite Hout. split; [reflexivity |].
    exists out. split; [reflexivity |].
    exact (Header_decode_stable data out h Hb Hdec Hout).
  - right. rewrite Hp. repeat split. exact Hl.
Qed.

Lemma Fuzz_outcomes_witness :
  bytes_ok fuzz_crasher /\ Fuzz fuzz_crasher = Some 1.
Proof.
  assert (Hb : bytes_ok fuzz_crasher).
  { unfold bytes_ok, fuzz_crasher.
    repeat (constructor; [unfold is_u8; lia |]). constructor. }
  split; [exact Hb |].
  pose proof (Fuzz_outcomes fuzz_crasher Hb) as H.
  destruct (Header.UnmarshalBinary fuzz_crasher) as [h | e |] eqn:Hd.
  - destruct H as [[H _] | [H _]]; [exact H |].
    vm_compute in H. discriminate H.
  - vm_compute in Hd. discriminate Hd.
  - contradiction.
Defined.

(** * Properties of the server *)

(** The flags and the byte-sized fields of a decoded header are read from
    the first six bytes of the input. *)
Lemma Header_decoded_flags (b : list Z) (h : Header.t) :
  Header.UnmarshalBinary b = Ok h ->
  exists b0,
    b !! 0%nat = Some b0
    /\ Header.FlagResponse h = negb (Z.land b0 0x08 =? 0)
    /\ Header.FlagError h = negb (Z.land b0 0x04 =? 0).
Proof.
  unfold Header.UnmarshalBinary.
  destruct (length b <? headerLen)%nat eqn:Hlen; [discriminate |].
  apply Nat.ltb_ge in Hlen. unfold headerLen in Hlen. cbn in Hlen.
  open_slice b Hlen 10.
  cbn [Slice.index lookup list_lookup bind].
  destruct (negb (Z.shiftr z 4 =? aoe.Version)); [discriminate |].
  destruct (Slice.slice _ 2 4) as [s | |]; cbn [bind];
    [| discriminate | discriminate].
  destruct (binary.BigEndian_Uint16 s) as [major | |]; cbn [bind];
    [| discriminate | discriminate].
  destruct (Slice.slice _ 6 10) as [s' | |]; cbn [bind];
    [| discriminate | discriminate].
  destruct (Slice.slice_from _ 10) as [tl | |]; cbn [bind];
    [| repeat match goal with
              | |- context [if ?c then _ else _] => destruct c
              end; discriminate ..].
  intros Hdec. exists z. split; [reflexivity |].
  destruct (z4 =? CommandIssueATACommand);
    [| destruct (z4 =? CommandQueryConfigInformation);
       [| destruct (z4 =? CommandMACMaskList);
          [| destruct (z4 =? CommandReserveRelease); [| discriminate]]]].
  - destruct (ATAArg.UnmarshalBinary _) as [x | |];
      cbn [bind] in Hdec; [| discriminate | discriminate].
    injection Hdec as <-. split; reflexivity.
  - destruct (ConfigArg.UnmarshalBinary _) as [x | |];
      cbn [bind] in Hdec; [| discriminate | discriminate].
    injection Hdec as <-. split; reflexivity.
  - destruct (MACMaskArg.UnmarshalBinary _) as [x | |];
      cbn [bind] in Hdec; [| discriminate | discriminate].
    injection Hdec as <-. split; reflexivity.
  - destruct (ReserveReleaseArg.UnmarshalBinary _) as [x | |];
      cbn [bind] in Hdec; [| discriminate | discriminate].
    injection Hdec as <-. split; reflexivity.
Qed.

(** An encoded header whose response flag is set does not decode to a
    request. *)
Lemma Header_response_flag_kept (h h' : Header.t) (hb : list Z) :
  Header.MarshalBinary h = Ok hb -> Header.UnmarshalBinary hb = Ok h' ->
  Header.FlagResponse h' = Header.FlagResponse h.
Proof.
  intros Henc Hdec.
  destruct (Header_decoded_flags hb h' Hdec) as (b0 & H0 & -> & _).
  destruct (Z.eqb_spec (Header.Version h) aoe.Version) as [Hv | Hv].
  2:{ unfold Header.MarshalBinary in Henc.
      apply Z.eqb_neq in Hv. rewrite Hv in Henc. discriminate. }
  destruct (Header.Arg h) as [a |] eqn:Ha.
  2:{ unfold Header.MarshalBinary in Henc.
      rewrite Hv, Z.eqb_refl, Ha in Henc. discriminate. }
  destruct (Arg.MarshalBinary a) as [ab | e |] eqn:Hab.
  2:{ unfold Header.MarshalBinary in Henc.
      rewrite Hv, Z.eqb_refl, Ha, Hab in Henc. discriminate. }
  2:{ unfold Header.MarshalBinary in Henc.
      rewrite Hv, Z.eqb_refl, Ha, Hab in Henc. discriminate. }
  rewrite (Header_MarshalBinary_bytes h a ab Hv Ha Hab) in Henc.
  injection Henc as <-.
  unfold Header_prefix in H0.
  destruct (Header.Tag h) as [[[t0 t1] t2] t3].
  cbn in H0. injection H0 as <-.
  apply (Header_vf_decode h Hv).
Qed.

Section ServerFacts.

Context {E W H : Type}.
Variable net : Network E W.
Implicit Types (s : Server.t H) (w : response.t H) (h : Header.t).
Implicit Types (st : wire E W) (c : conn.t H).

(** [send] of a version 1 header: the outcome of the argument's encoder
    decides, and the payload of the frame is the prefix and the argument. *)
Lemma Server_send_version1 s h (source target : list Z) st :
  Header.Version h = aoe.Version ->
  Server_send net s h source target st
  = match Header.Arg h with
    | None =>
        Some ((0, Some (CodecError (error_of ErrorBadArgumentParameter))),
              st)
    | Some a =>
        match Arg.MarshalBinary a with
        | Panic => None
        | Err e => Some ((0, Some (CodecError e)), st)
        | Ok ab =>
            Some (write_frame net
                    {| Frame.Destination := target;
                       Frame.Source := source;
                       Frame.EtherType := EtherType;
                       Frame.Payload := Header_prefix h ++ ab |} st)
        end
    end.
Proof.
  intros Hv. unfold Server_send.
  destruct (Header.Arg h) as [a |] eqn:Ha.
  2:{ unfold Header.MarshalBinary. rewrite Hv, Z.eqb_refl, Ha.
      reflexivity. }
  destruct (Arg.MarshalBinary a) as [ab | e |] eqn:Hab.
  - rewrite (Header_MarshalBinary_bytes h a ab Hv Ha Hab).
    unfold write_frame. cbn [Frame.Destination].
    destruct (Frame_MarshalBinary net _) as [fb | e]; [| reflexivity].
    destruct (WriteTo net fb target (fst st)) as [[n err] w'].
    reflexivity.
  - unfold Header.MarshalBinary. rewrite Hv, Z.eqb_refl, Ha, Hab.
    reflexivity.
  - unfold Header.MarshalBinary. rewrite Hv, Z.eqb_refl, Ha, Hab.
    reflexivity.
Qed.

(** X22. Every outcome of [response.Send]. The version, the response flag, the
    major and minor numbers, the command and the tag of the header that the
    handler passes are not looked at, so a header of any version is sent
    and [UnsupportedVersion] is never returned. Without an argument the
    call returns 0 and [BadArgumentParameter] and nothing is written; an
    error of the argument's encoder is returned in the same way, and its
    panic is a panic of [Send]. Otherwise one frame goes from the local to
    the remote address with EtherType 0x88a2; its payload starts with 0x18,
    or 0x1c when the error flag is set, the error byte of the handler, the
    major and minor numbers of the server and the command and tag of the
    request, and ends with the bytes of the argument. *)
Theorem response_Send_outcomes w h st :
  response_Send net w h st
  = match Header.Arg h with
    | None =>
        Some ((0, Some (CodecError (error_of ErrorBadArgumentParameter))),
              st)
    | Some a =>
        match Arg.MarshalBinary a with
        | Panic => None
        | Err e => Some ((0, Some (CodecError e)), st)
        | Ok ab =>
            let '(t0, t1, t2, t3) := Header.Tag (response.r w) in
            Some (write_frame net
                    {| Frame.Destination := response.remoteAddr w;
                       Frame.Source := response.localAddr w;
                       Frame.EtherType := 0x88a2;
                       Frame.Payload :=
                         [if Header.FlagError h then 0x1c else 0x18;
                          Header.Error h;
                          u8 (Z.shiftr (response.major w) 8);
                          u8 (response.major w);
                          response.minor w;
                          Header.Command (response.r w);
                          t0; t1; t2; t3] ++ ab |} st)
        end
    end.
Proof.
  unfold response_Send.
  rewrite Server_send_version1 by reflexivity.
  cbn [Header.Arg].
  destruct (Header.Arg h) as [a |]; [| reflexivity].
  destruct (Arg.MarshalBinary a) as [ab | e |]; [| reflexivity ..].
  unfold Header_prefix, Header_vf.
  cbn [Header.Version Header.FlagResponse Header.FlagError Header.Error
       Header.Major Header.Minor Header.Command Header.Tag].
  destruct (Header.Tag (response.r w)) as [[[t0 t1] t2] t3].
  destruct (Header.FlagError h); reflexivity.
Qed.

(** X23. Every outcome of [Server.advertise]. With a config string of at most
    1024 bytes one frame is written from the interface address to the
    target: a response header for command 1 with tag 0 and the major and
    minor numbers of the server, then the 8-byte ConfigArg prefix with
    version 1 and command 0, then the config string. With a longer config
    string, the lengths that do not fit 16 bits included, the call returns 0
    and [BadArgumentParameter] and nothing is written. It never panics. *)
Theorem Server_advertise_outcomes s (target : list Z) st :
  Server_advertise net s target st
  = if (length (Server.Config s) <=? 1024)%nat
    then
      Some (write_frame net
              {| Frame.Destination := target;
                 Frame.Source := Server.Iface s;
                 Frame.EtherType := 0x88a2;
                 Frame.Payload :=
                   [0x18; 0;
                    u8 (Z.shiftr (Server.Major s) 8); u8 (Server.Major s);
                    Server.Minor s; 1; 0; 0; 0; 0;
                    u8 (Z.shiftr (Server.BufferCount s) 8);
                    u8 (Server.BufferCount s);
                    u8 (Z.shiftr (Server.FirmwareVersion s) 8);
                    u8 (Server.FirmwareVersion s);
                    Server.SectorCount s; 0x10;
                    u8 (Z.shiftr (Z.of_nat (length (Server.Config s))) 8);
                    u8 (Z.of_nat (length (Server.Config s)))]
                   ++ Server.Config s |} st)
    else
      Some ((0, Some (CodecError (error_of ErrorBadArgumentParameter))),
            st).
Proof.
  unfold Server_advertise.
  rewrite Server_send_version1 by reflexivity.
  cbn [Header.Arg Arg.MarshalBinary].
  destruct (Nat.leb_spec (length (Server.Config s)) 1024) as [Hle | Hgt].
  - assert (Hu : u16 (Z.of_nat (length (Server.Config s)))
                 = Z.of_nat (length (Server.Config s))).
    { unfold u16. apply Z.mod_small. lia. }
    rewrite Hu.
    rewrite ConfigArg_MarshalBinary_bytes.
    2:{ unfold ConfigArg.encodable.
        cbn [ConfigArg.Command ConfigArg.StringLength ConfigArg.String].
        unfold ConfigCommandRead. lia. }
    reflexivity.
  - unfold ConfigArg.MarshalBinary.
    cbn [ConfigArg.Command ConfigArg.StringLength ConfigArg.String].
    change (0xf <? ConfigCommandRead) with false. cbn match.
    destruct (Z.eqb_spec (u16 (Z.of_nat (length (Server.Config s))))
                (Z.of_nat (length (Server.Config s)))) as [Heq | Hne];
      cbn [negb]; [| reflexivity].
    rewrite Heq.
    destruct (Z.ltb_spec 1024 (Z.of_nat (length (Server.Config s))));
      [reflexivity | lia].
Qed.

(** X24. What [conn.serve] hands to the handler. It never panics, whatever the
    bytes. When it calls the handler, the server has one, the frame decoded
    with EtherType 0x88a2 and its payload decoded to the header of the
    request, which has version 1, no response flag, and a major and a minor
    number that are the server's or the broadcast values 0xffff and 0xff.
    The response that the handler gets replies to the address the frame came
    from, with the major and minor numbers of the server, also when the
    request was a broadcast. *)
Theorem conn_serve_dispatch c :
  match conn_serve net c with
  | Dropped => True
  | Crashed => False
  | Dispatched handler w r =>
      Server.Handler (conn.s c) = Some handler
      /\ (exists f,
            Frame_UnmarshalBinary net (conn.buf c) = Some f
            /\ Frame.EtherType f = 0x88a2
            /\ Header.UnmarshalBinary (Frame.Payload f)
               = Ok (Request.Header r))
      /\ Header.Version (Request.Header r) = 1
      /\ Header.FlagResponse (Request.Header r) = false
      /\ (Header.Major (Request.Header r) = 0xffff
          \/ Header.Major (Request.Header r) = Server.Major (conn.s c))
      /\ (Header.Minor (Request.Header r) = 0xff
          \/ Header.Minor (Request.Header r) = Server.Minor (conn.s c))
      /\ Request.Source r = conn.remoteAddr c
      /\ Request.Target r = Server.Iface (conn.s c)
      /\ w = {| response.s := conn.s c;
                response.localAddr := Server.Iface (conn.s c);
                response.remoteAddr := conn.remoteAddr c;
                response.major := Server.Major (conn.s c);
                response.minor := Server.Minor (conn.s c);
                response.r := Request.Header r |}
  end.
Proof.
  unfold conn_serve.
  destruct (Frame_UnmarshalBinary net (conn.buf c)) as [f |] eqn:Hf;
    [| exact I].
  destruct (Z.eqb_spec (Frame.EtherType f) EtherType) as [Het |];
    cbn [negb]; [| exact I].
  pose proof (Header_UnmarshalBinary_total (Frame.Payload f)) as Htot.
  destruct (Header.UnmarshalBinary (Frame.Payload f)) as [h | e |] eqn:Hh;
    [| exact I | contradiction].
  destruct (Header_decoded _ _ Hh) as [Hv _].
  destruct (Header.FlagResponse h) eqn:Hfr; [exact I |].
  destruct (Z.eqb_spec (Header.Major h) BroadcastMajor) as [Hmb | Hmb];
    destruct (Z.eqb_spec (Header.Major h) (Server.Major (conn.s c)))
      as [Hms | Hms]; cbn [negb andb]; try exact I.
  all: destruct (Z.eqb_spec (Header.Minor h) BroadcastMinor) as [Hnb | Hnb];
    destruct (Z.eqb_spec (Header.Minor h) (Server.Minor (conn.s c)))
      as [Hns | Hns]; cbn [negb andb]; try exact I.
  all: destruct (Server.Handler (conn.s c)) as [handler |]; [| exact I].
  all: cbn [Request.Header Request.Source Request.Target].
  all: split; [reflexivity |].
  all: split; [exists f; repeat split; assumption |].
  all: repeat split; try assumption; auto.
Qed.

(** What [send] writes is a frame whose payload is the encoding of the
    header. *)
Lemma Server_send_wrote s h (source target : list Z) st res (nw : W)
    (fb tgt : list Z) (n : Z) (err : option E) :
  Server_send net s h source target st
  = Some (res, (nw, snd st ++ [EvWriteTo fb tgt n err])) ->
  exists hb f,
    Header.MarshalBinary h = Ok hb
    /\ Frame.Payload f = hb
    /\ Frame_MarshalBinary net f = inl fb.
Proof.
  intros Hs.
  assert (Htr : option_map (fun x => snd (snd x))
                  (Server_send net s h source target st)
                = Some (snd st ++ [EvWriteTo fb tgt n err]))
    by (rewrite Hs; reflexivity).
  clear Hs. unfold Server_send in Htr.
  destruct (Header.MarshalBinary h) as [hb | e |]; [| | discriminate].
  - destruct (Frame_MarshalBinary net _) as [fb' | e] eqn:Hf.
    + destruct (WriteTo net fb' target (fst st)) as [[n' err'] w'].
      cbn [option_map snd] in Htr. injection Htr as Htr.
      apply app_inv_head in Htr. injection Htr as <- _ _ _.
      eexists. eexists. split; [reflexivity |].
      split; [| exact Hf]. reflexivity.
    + cbn [option_map snd] in Htr. injection Htr as Htr.
      rewrite <- (app_nil_r (snd st)) in Htr at 1.
      apply app_inv_head in Htr. discriminate.
  - cbn [option_map snd] in Htr. injection Htr as Htr.
    rewrite <- (app_nil_r (snd st)) in Htr at 1.
    apply app_inv_head in Htr. discriminate.
Qed.

(** X25. A server never serves what a server sent. Over a frame codec that
    keeps the payload, the bytes that [response.Send] or [Server.advertise]
    wrote are dropped by [conn.serve] of every server, without a call of the
    handler: the payload either does not decode or decodes with the
    response flag set. *)
Theorem conn_serve_drops_replies c st res (nw : W) (fb tgt : list Z) (n : Z)
    (err : option E) :
  keeps_payload net ->
  (exists w h,
     response_Send net w h st
     = Some (res, (nw, snd st ++ [EvWriteTo fb tgt n err])))
  \/ (exists s target,
        Server_advertise net s target st
        = Some (res, (nw, snd st ++ [EvWriteTo fb tgt n err]))) ->
  conn.buf c = fb ->
  conn_serve net c = Dropped.
Proof.
  intros Hkeep Hsent Hbuf.
  assert (Hfb : exists h hb f,
             Header.FlagResponse h = true
             /\ Header.MarshalBinary h = Ok hb
             /\ Frame.Payload f = hb
             /\ Frame_MarshalBinary net f = inl fb).
  { destruct Hsent as [(w & h & Hs) | (s & target & Hs)].
    - unfold response_Send in Hs.
      destruct (Server_send_wrote _ _ _ _ _ _ _ _ _ _ _ Hs)
        as (hb & f & Hm & Hp & Hf).
      eexists. exists hb, f. repeat split; try eassumption. reflexivity.
    - unfold Server_advertise in Hs.
      destruct (Server_send_wrote _ _ _ _ _ _ _ _ _ _ _ Hs)
        as (hb & f & Hm & Hp & Hf).
      eexists. exists hb, f. repeat split; try eassumption. reflexivity. }
  destruct Hfb as (h & hb & f & Hfr & Hm & Hp & Hf).
  unfold conn_serve. rewrite Hbuf.
  destruct (Frame_UnmarshalBinary net fb) as [f' |] eqn:Hf'; [| reflexivity].
  destruct (negb (Frame.EtherType f' =? EtherType)); [reflexivity |].
  rewrite (Hkeep f f' fb Hf Hf'), Hp.
  destruct (Header.UnmarshalBinary hb) as [h' | e |] eqn:Hh'.
  - rewrite (Header_response_flag_kept h h' hb Hm Hh'), Hfr. reflexivity.
  - reflexivity.
  - destruct (Header_UnmarshalBinary_total hb Hh').
Qed.

(** X26. The reply to a config query. The handler of [Server.ServeConfig]
    makes exactly one [Send], whatever the request is. For a server whose
    fields fit their types and whose config string has at most 1024 bytes,
    and a request for command 1, the header that [response.Send] builds from
    it encodes, and the bytes decode to a response header with the major and
    minor numbers of the server, the tag of the request and the
    configuration of the server: buffer count, firmware version, sector
    count, version 1, command 0 and the config string. *)
Theorem ServeConfig_reply_decodes s (sender : ResponseSender E W) w
    (r : Request.t) (ws : W) :
  Server_well_typed s -> (length (Server.Config s) <= 1024)%nat ->
  is_u16 (response.major w) -> is_u8 (response.minor w) ->
  Header.Command (response.r w) = CommandQueryConfigInformation ->
  array4_ok (Header.Tag (response.r w)) ->
  exists h0 n err hb,
    trace_of (run (Server_ServeConfig s sender r) ws) = [EvSend h0 n err]
    /\ Header.MarshalBinary (response_header w h0) = Ok hb
    /\ Header.UnmarshalBinary hb
       = Ok {| Header.Version := 1;
               Header.FlagResponse := true;
               Header.FlagError := false;
               Header.Error := 0;
               Header.Major := response.major w;
               Header.Minor := response.minor w;
               Header.Command := CommandQueryConfigInformation;
               Header.Tag := Header.Tag (response.r w);
               Header.Arg := Some (Arg.Config (Server_config s)) |}.
Proof.
  intros (Hmaj & Hmin & Hbc & Hfw & Hsc & Hcfg) Hlen Hwmaj Hwmin Hcmd Htag.
  unfold Server_ServeConfig, run, trace_of, iobind, call_Send, ret.
  destruct (Send sender _ ws) as [[n err] ws'] eqn:Hsend.
  cbn [snd app].
  match type of Hsend with
  | Send sender ?h ws = _ => set (h0 := h) in *
  end.
  exists h0, n, err.
  assert (Hu : u16 (Z.of_nat (length (Server.Config s)))
               = Z.of_nat (length (Server.Config s))).
  { unfold u16. apply Z.mod_small. lia. }
  destruct (Header_roundtrip (response_header w h0)) as (hb & Hm & Hd).
  { unfold Header_valid, response_header, h0.
    cbn [Header.Version Header.Error Header.Major Header.Minor Header.Tag
         Header.Arg Header.Command Header.FlagError].
    split; [reflexivity |]. split; [unfold is_u8; lia |].
    split; [exact Hwmaj |]. split; [exact Hwmin |]. split; [exact Htag |].
    eexists. split; [reflexivity |]. split; [| exact Hcmd].
    cbn [Arg_valid]. unfold ConfigArg_valid, ConfigArg.well_typed,
      ConfigArg.encodable.
    cbn [ConfigArg.BufferCount ConfigArg.FirmwareVersion
         ConfigArg.SectorCount ConfigArg.Version ConfigArg.Command
         ConfigArg.StringLength ConfigArg.String].
    rewrite Hu. unfold aoe.Version, ConfigCommandRead, is_u8, is_u16 in *.
    repeat split; try assumption; lia. }
  exists hb. split; [reflexivity |]. split; [exact Hm |].
  rewrite Hd. unfold response_header, Server_config, h0.
  cbn [Header.FlagError Header.Error Header.Arg].
  rewrite Hu, Hcmd. reflexivity.
Qed.

End ServerFacts.

Lemma conn_serve_drops_replies_witness :
  conn_serve payload_network
    {| conn.s := aoed_server;
       conn.remoteAddr := [0; 1; 2; 3; 4; 5];
       conn.buf := aoed_advertisement |}
  = Dropped.
Proof.
  apply (conn_serve_drops_replies payload_network _ (tt, [])
           (18, None) tt aoed_advertisement
           [0xff; 0xff; 0xff; 0xff; 0xff; 0xff] 18 None).
  - intros f f' fb Hf Hf'. cbn in Hf, Hf'.
    injection Hf as <-. injection Hf' as <-. reflexivity.
  - right. exists aoed_server, [0xff; 0xff; 0xff; 0xff; 0xff; 0xff].
    vm_compute. reflexivity.
  - reflexivity.
Defined.

Lemma ServeConfig_reply_decodes_witness :
  exists h0 n err hb,
    trace_of (run (Server_ServeConfig aoed_server
                     captureHeaderResponseSender
                     {| Request.Source := [0; 1; 2; 3; 4; 5];
                        Request.Target := Server.Iface aoed_server;
                        Request.Header := header_config |}) tt)
    = [EvSend h0 n err]
    /\ Header.MarshalBinary (response_header aoed_response h0) = Ok hb
    /\ Header.UnmarshalBinary hb
       = Ok {| Header.Version := 1;
               Header.FlagResponse := true;
               Header.FlagError := false;
               Header.Error := 0;
               Header.Major := 0x000f;
               Header.Minor := 0x01;
               Header.Command := CommandQueryConfigInformation;
               Header.Tag := (0, 0, 0, 10);
               Header.Arg := Some (Arg.Config (Server_config aoed_server)) |}.
Proof.
  apply (ServeConfig_reply_decodes aoed_server captureHeaderResponseSender
           aoed_response).
  - unfold Server_well_typed, is_u16, is_u8, bytes_ok. cbn.
    repeat split; try lia. constructor.
  - cbn. lia.
  - unfold is_u16. cbn. lia.
  - unfold is_u8. cbn. lia.
  - reflexivity.
  - unfold array4_ok, is_u8. cbn. lia.
Defined.
